(** * Sales-Forecasting-BI: pattern selection and observation classification

    A shallow embedding of [SalesPredictor.identify_best_sales_patterns],
    [SalesPredictor.load_and_predict_weekly_sales] and
    [SalesPredictor.visualize_sales_forecast] from [Task.py], and of
    [sum_numbers_in_file] from [hell.py].

    Conventions of the embedding.
    - Table cells are real numbers ([R]): the float64 cells of the pandas
      frames are idealised as exact reals, as the data model of the
      specification does.  The only non-real floats the code can create from
      real cells are kept: [NaN], which pandas produces when it aligns two
      columns of different length (modelled as [None] in [option R]), and
      [float('inf')], the initial value of [min_dev] (modelled as [PosInf]).
      Columns of dtype int64, whose squares and sums wrap around, are
      modelled for the selection by [TypedFrame] and
      [select_best_patterns_typed].
    - A [DataFrame] is the ordered list of its named columns, with the
      default [RangeIndex].  Column names are taken after the
      [strip().lower()] normalisation; as in a table read back from SQLite
      they are distinct, and all columns of one frame have the same number
      of rows.
    - Python dictionaries are association lists in insertion order.
    - Exceptions are values of [exn] in the error monad [result]; the methods
      that read the database and write log records live in the monad
      [Logged], which also collects the log. *)

From Stdlib Require Import Reals Lra Lia List String Bool Arith.
From Stdlib Require Import ZArith Ascii DecimalString DecimalN Permutation.
Import ListNotations.

Local Open Scope string_scope.
Local Open Scope list_scope.
Local Open Scope R_scope.

(** ** Exceptions and the error monad *)

Inductive exn : Type :=
| InvalidSalesDataError (msg : string)
| ValueError (msg : string)
| KeyError (key : string).

Inductive result (A : Type) : Type :=
| Ok (a : A)
| Raise (e : exn).

Arguments Ok {A} a.
Arguments Raise {A} e.

Definition rbind {A B : Type} (c : result A) (k : A -> result B) : result B :=
  match c with
  | Ok a => k a
  | Raise e => Raise e
  end.

Declare Scope result_scope.
Delimit Scope result_scope with result.
Notation "x <- c ;; k" := (rbind c (fun x => k))
  (at level 61, c at next level, right associativity) : result_scope.
Notation "' pat <- c ;; k" := (rbind c (fun x => match x with pat => k end))
  (at level 61, pat pattern, c at next level, right associativity) : result_scope.

(** ** Comparisons on reals as booleans *)

Definition Rlt_b (a b : R) : bool := if Rlt_dec a b then true else false.
Definition Rle_b (a b : R) : bool := if Rle_dec a b then true else false.
Definition Req_b (a b : R) : bool := if Req_dec_T a b then true else false.

(** A float that may be NaN: [None] is NaN.  Comparisons with NaN are false,
    arithmetic on NaN gives NaN. *)
Definition nanfloat : Type := option R.

Definition nf_gt (a b : nanfloat) : bool :=
  match a, b with
  | Some x, Some y => Rlt_b y x
  | _, _ => false
  end.

Definition nf_abs (a : nanfloat) : nanfloat := option_map Rabs a.
Definition nf_sq (a : nanfloat) : nanfloat := option_map (fun x => x ^ 2) a.
Definition nf_mul (a : nanfloat) (c : R) : nanfloat := option_map (fun x => x * c) a.

(** [deviation <= max_dev], false when [max_dev] is NaN. *)
Definition le_nf (d : R) (m : nanfloat) : bool :=
  match m with
  | Some v => Rle_b d v
  | None => false
  end.

(** [min_dev]: [float('inf')] or a deviation already seen. *)
Inductive bound : Type :=
| PosInf
| Dev (d : R).

(** [deviation < min_dev]. *)
Definition lt_bound (d : R) (m : bound) : bool :=
  match m with
  | PosInf => true
  | Dev v => Rlt_b d v
  end.

(** ** Data frames *)

Definition Series : Type := list R.
Definition DataFrame : Type := list (string * Series).

(** [df.columns] *)
Definition columns (df : DataFrame) : list string := map fst df.

(** [col in df.columns] *)
Definition has_column (df : DataFrame) (col : string) : bool :=
  existsb (String.eqb col) (columns df).

(** [df[col]]; a [KeyError] when there is no such column. *)
Fixpoint getitem (df : DataFrame) (col : string) : result Series :=
  match df with
  | [] => Raise (KeyError col)
  | (name, s) :: rest => if String.eqb col name then Ok s else getitem rest col
  end.

(** [a - b] on two columns with a [RangeIndex]: the rows present in both are
    subtracted, the rows present in one only are NaN. *)
Fixpoint series_sub (a b : Series) : list nanfloat :=
  match a, b with
  | x :: a', y :: b' => Some (x - y) :: series_sub a' b'
  | _, _ => repeat None (List.length a + List.length b)
  end.

(** [np.sum(s)] on a pandas Series: NaN cells are skipped. *)
Fixpoint np_sum (s : list nanfloat) : R :=
  match s with
  | [] => 0
  | Some v :: rest => v + np_sum rest
  | None :: rest => np_sum rest
  end.

(** The builtin [max]: keeps the first item and replaces it by a later one
    only when [item > current]; [ValueError] on an empty sequence. *)
Fixpoint max_from (cur : nanfloat) (s : list nanfloat) : nanfloat :=
  match s with
  | [] => cur
  | v :: rest => max_from (if nf_gt v cur then v else cur) rest
  end.

Definition py_max (s : list nanfloat) : result nanfloat :=
  match s with
  | [] => Raise (ValueError "max() arg is an empty sequence")
  | v :: rest => Ok (max_from v rest)
  end.

(** ** Dictionaries (insertion ordered) *)

Definition dict (V : Type) : Type := list (string * V).

(** [d[k] = v]: an existing key keeps its position. *)
Fixpoint dict_set {V : Type} (d : dict V) (k : string) (v : V) : dict V :=
  match d with
  | [] => [(k, v)]
  | (k', v') :: rest =>
      if String.eqb k k' then (k', v) :: rest else (k', v') :: dict_set rest k v
  end.

Fixpoint dict_get {V : Type} (d : dict V) (k : string) : option V :=
  match d with
  | [] => None
  | (k', v) :: rest => if String.eqb k k' then Some v else dict_get rest k
  end.

(** [min(d, key=d.get)]: the first key whose value is smallest; a later key
    replaces the current one only when its value is strictly smaller. *)
Fixpoint min_from (cur : string * R) (items : list (string * R)) : string :=
  match items with
  | [] => fst cur
  | (k, v) :: rest => min_from (if Rlt_b v (snd cur) then (k, v) else cur) rest
  end.

Definition py_min_key (d : dict R) : result string :=
  match d with
  | [] => Raise (ValueError "min() arg is an empty sequence")
  | kv :: rest => Ok (min_from kv rest)
  end.

(** ** Pattern selection: the loop of [identify_best_sales_patterns] *)

Local Open Scope result_scope.

(** [np.sum((training_sales_df[week_col] - pattern_df[pattern_col]) ** 2)]
    on float64 columns; [squared_error_typed] below is the expression with
    the dtypes of the columns. *)
Definition squared_error (training_sales_df pattern_df : DataFrame)
    (week_col pattern_col : string) : result R :=
  tr <- getitem training_sales_df week_col ;;
  pt <- getitem pattern_df pattern_col ;;
  Ok (np_sum (map nf_sq (series_sub tr pt))).

(** The dictionary comprehension [errors = {pattern_col: ... for pattern_col in cols}]. *)
Fixpoint errors_dict (training_sales_df pattern_df : DataFrame) (week_col : string)
    (cols : list string) (errors : dict R) : result (dict R) :=
  match cols with
  | [] => Ok errors
  | pattern_col :: rest =>
      e <- squared_error training_sales_df pattern_df week_col pattern_col ;;
      errors_dict training_sales_df pattern_df week_col rest (dict_set errors pattern_col e)
  end.

(** The loop over [training_sales_df.columns[1:]]. *)
Fixpoint select_loop (training_sales_df pattern_df : DataFrame)
    (week_cols : list string) (best_patterns : dict string) : result (dict string) :=
  match week_cols with
  | [] => Ok best_patterns
  | week_col :: rest =>
      errors <- errors_dict training_sales_df pattern_df week_col
                  (tl (columns pattern_df)) [] ;;
      best <- py_min_key errors ;;
      select_loop training_sales_df pattern_df rest (dict_set best_patterns week_col best)
  end.

Definition select_best_patterns (training_sales_df pattern_df : DataFrame)
    : result (dict string) :=
  select_loop training_sales_df pattern_df (tl (columns training_sales_df)) [].

(** ** The selection on frames with integer columns

    The cells of a [DataFrame] above stand for float64 cells.  A column
    that holds integers only is read as int64, and on two int64 columns of
    equal length [a - b], [** 2] and [np.sum] stay in int64 and wrap
    around; every other combination is computed in float64.  The selection
    is therefore given a second time on frames whose columns carry their
    dtype, with the loops as above and the error of a pair of columns taken
    from a function. *)

(** The int64 value of an integer result: two's complement wrap-around. *)
Definition wrap64 (z : Z) : Z := ((z + 2 ^ 63) mod 2 ^ 64 - 2 ^ 63)%Z.

Inductive column : Type :=
| IntColumn (cells : list Z)
| FloatColumn (cells : Series).

Definition TypedFrame : Type := list (string * column).

Definition typed_columns (df : TypedFrame) : list string := map fst df.

Fixpoint typed_getitem (df : TypedFrame) (col : string) : result column :=
  match df with
  | [] => Raise (KeyError col)
  | (name, c) :: rest => if String.eqb col name then Ok c else typed_getitem rest col
  end.

(** The cells as floats. *)
Definition cells_of (c : column) : Series :=
  match c with
  | IntColumn cells => map IZR cells
  | FloatColumn cells => cells
  end.

(** The frame with every column converted to float64. *)
Definition as_float_frame (df : TypedFrame) : DataFrame :=
  map (fun nc => (fst nc, cells_of (snd nc))) df.

(** [(a - b) ** 2] on two int64 columns of equal length. *)
Fixpoint int64_squares (hs rs : list Z) : list Z :=
  match hs, rs with
  | h :: hs', r :: rs' =>
      let d := wrap64 (h - r) in wrap64 (d * d) :: int64_squares hs' rs'
  | _, _ => []
  end.

(** [np.sum] on an int64 column. *)
Definition int64_sum (s : list Z) : Z :=
  fold_left (fun acc v => wrap64 (acc + v)) s 0%Z.

(** [np.sum((training_sales_df[week_col] - pattern_df[pattern_col]) ** 2)]
    with the dtypes; the result, an int64 or a float64, is given as the
    real number it stands for. *)
Definition squared_error_typed (training_sales_df pattern_df : TypedFrame)
    (week_col pattern_col : string) : result R :=
  tr <- typed_getitem training_sales_df week_col ;;
  pt <- typed_getitem pattern_df pattern_col ;;
  Ok (match tr, pt with
      | IntColumn hs, IntColumn rs =>
          if Nat.eqb (List.length hs) (List.length rs)
          then IZR (int64_sum (int64_squares hs rs))
          else np_sum (map nf_sq (series_sub (map IZR hs) (map IZR rs)))
      | _, _ => np_sum (map nf_sq (series_sub (cells_of tr) (cells_of pt)))
      end).

(** The comprehension and the loop of [identify_best_sales_patterns], with
    the error of a pair of columns given by [err]. *)
Fixpoint errors_dict_with (err : string -> result R) (cols : list string)
    (errors : dict R) : result (dict R) :=
  match cols with
  | [] => Ok errors
  | pattern_col :: rest =>
      e <- err pattern_col ;;
      errors_dict_with err rest (dict_set errors pattern_col e)
  end.

Fixpoint select_loop_with (err : string -> string -> result R)
    (pattern_cols week_cols : list string) (best_patterns : dict string)
    : result (dict string) :=
  match week_cols with
  | [] => Ok best_patterns
  | week_col :: rest =>
      errors <- errors_dict_with (err week_col) pattern_cols [] ;;
      best <- py_min_key errors ;;
      select_loop_with err pattern_cols rest (dict_set best_patterns week_col best)
  end.

Definition select_best_patterns_typed (training_sales_df pattern_df : TypedFrame)
    : result (dict string) :=
  select_loop_with (squared_error_typed training_sales_df pattern_df)
    (tl (typed_columns pattern_df)) (tl (typed_columns training_sales_df)) [].

(** The sum of the squared differences as an integer, without wrap-around. *)
Fixpoint sum_squares (hs rs : list Z) : Z :=
  match hs, rs with
  | h :: hs', r :: rs' => ((h - r) * (h - r) + sum_squares hs' rs')%Z
  | _, _ => 0%Z
  end.

(** The squared error of the two columns is computed without wrap-around:
    they are not two int64 columns of equal length, or the sum of their
    squared differences is below [2 ^ 63]. *)
Definition exact_pair (hc rc : column) : Prop :=
  match hc, rc with
  | IntColumn hs, IntColumn rs =>
      List.length hs = List.length rs -> (sum_squares hs rs < 2 ^ 63)%Z
  | _, _ => True
  end.

(** No pair of a historical column and a reference column wraps around. *)
Definition no_overflow (training_sales_df pattern_df : TypedFrame) : Prop :=
  forall h hc r rc,
    In (h, hc) training_sales_df -> In (r, rc) pattern_df -> exact_pair hc rc.

(** ** Classification: the loops of [load_and_predict_weekly_sales] *)

(** One row of [forecast_results]: [(x_val, y_val, min_dev, best_match)]. *)
Record forecast : Type := mkForecast {
  fx : R;
  fy : R;
  delta_y : bound;
  ideal_function : option string
}.

(** [pattern_df.loc[pattern_df["x"] == x_val, pattern_col].values] *)
Fixpoint loc_values (xs ps : Series) (x_val : R) : list R :=
  match xs, ps with
  | x :: xs', p :: ps' =>
      if Req_b x x_val then p :: loc_values xs' ps' x_val else loc_values xs' ps' x_val
  | _, _ => []
  end.

(** [max(abs(training_df[week_col] - pattern_df[pattern_col])) * margin];
    the code's margin is [np.sqrt(2)]. *)
Definition max_dev_with (margin : R) (training_df pattern_df : DataFrame)
    (week_col pattern_col : string) : result nanfloat :=
  tr <- getitem training_df week_col ;;
  pt <- getitem pattern_df pattern_col ;;
  m <- py_max (map nf_abs (series_sub tr pt)) ;;
  Ok (nf_mul m margin).

Definition max_dev : DataFrame -> DataFrame -> string -> string -> result nanfloat :=
  max_dev_with (sqrt 2).

(** The body of the inner loop, for one item [(week_col, pattern_col)] of
    [best_patterns.items()], on the state [(best_match, min_dev)]. *)
Definition consider_with (margin : R) (training_df pattern_df : DataFrame) (x_val y_val : R)
    (st : option string * bound) (item : string * string)
    : result (option string * bound) :=
  let '(week_col, pattern_col) := item in
  if negb (has_column pattern_df pattern_col) then Ok st
  else
    max_dev <- max_dev_with margin training_df pattern_df week_col pattern_col ;;
    xs <- getitem pattern_df "x" ;;
    ps <- getitem pattern_df pattern_col ;;
    match loc_values xs ps x_val with
    | [] => Ok st
    | v :: _ =>
        let deviation := Rabs (y_val - v) in
        if le_nf deviation max_dev && lt_bound deviation (snd st)
        then Ok (Some pattern_col, Dev deviation)
        else Ok st
    end.

Fixpoint scan_with (margin : R) (training_df pattern_df : DataFrame) (x_val y_val : R)
    (st : option string * bound) (items : dict string)
    : result (option string * bound) :=
  match items with
  | [] => Ok st
  | item :: rest =>
      st' <- consider_with margin training_df pattern_df x_val y_val st item ;;
      scan_with margin training_df pattern_df x_val y_val st' rest
  end.

(** The body of the outer loop, for one test row. *)
Definition classify_row_with (margin : R) (training_df pattern_df : DataFrame)
    (best_patterns : dict string) (row : R * R) : result forecast :=
  let '(x_val, y_val) := row in
  '(best_match, min_dev) <-
     scan_with margin training_df pattern_df x_val y_val (None, PosInf) best_patterns ;;
  Ok (mkForecast x_val y_val min_dev best_match).

(** The outer loop over [test_sales_df.iterrows()]. *)
Fixpoint classify_with (margin : R) (training_df pattern_df : DataFrame)
    (best_patterns : dict string) (rows : list (R * R)) : result (list forecast) :=
  match rows with
  | [] => Ok []
  | row :: rest =>
      f <- classify_row_with margin training_df pattern_df best_patterns row ;;
      fs <- classify_with margin training_df pattern_df best_patterns rest ;;
      Ok (f :: fs)
  end.

(** The loops as the code runs them, with the margin [np.sqrt(2)]. *)
Definition consider : DataFrame -> DataFrame -> R -> R -> option string * bound
    -> string * string -> result (option string * bound) :=
  consider_with (sqrt 2).

Definition classify_row : DataFrame -> DataFrame -> dict string -> R * R
    -> result forecast :=
  classify_row_with (sqrt 2).

Definition classify : DataFrame -> DataFrame -> dict string -> list (R * R)
    -> result (list forecast) :=
  classify_with (sqrt 2).

(** ** The tolerance gate, with the tolerance as a parameter

    The loop of the classifier with [max_dev] taken from a function [tol]
    of the two column names instead of being computed in place; the loop of
    the code is the instance [tol := max_dev_with margin training_df
    pattern_df] (lemma [consider_with_tol]). *)

Definition tolerance : Type := string -> string -> result nanfloat.

(** What one item of [best_patterns] offers for the observation: [Ok (Some
    deviation)] when the gate [deviation <= max_dev] accepts its curve, [Ok
    None] when the item is skipped, has no row at [x_val] or is rejected. *)
Definition candidate_tol (tol : tolerance) (pattern_df : DataFrame) (x_val y_val : R)
    (item : string * string) : result (option R) :=
  let '(week_col, pattern_col) := item in
  if negb (has_column pattern_df pattern_col) then Ok None
  else
    max_dev <- tol week_col pattern_col ;;
    xs <- getitem pattern_df "x" ;;
    ps <- getitem pattern_df pattern_col ;;
    match loc_values xs ps x_val with
    | [] => Ok None
    | v :: _ =>
        let deviation := Rabs (y_val - v) in
        if le_nf deviation max_dev then Ok (Some deviation) else Ok None
    end.

(** The replacement rule [deviation < min_dev] applied to an offer. *)
Definition update (st : option string * bound) (pattern_col : string) (offer : option R)
    : option string * bound :=
  match offer with
  | Some deviation =>
      if lt_bound deviation (snd st) then (Some pattern_col, Dev deviation) else st
  | None => st
  end.

Definition consider_tol (tol : tolerance) (pattern_df : DataFrame) (x_val y_val : R)
    (st : option string * bound) (item : string * string)
    : result (option string * bound) :=
  offer <- candidate_tol tol pattern_df x_val y_val item ;;
  Ok (update st (snd item) offer).

Fixpoint scan_tol (tol : tolerance) (pattern_df : DataFrame) (x_val y_val : R)
    (st : option string * bound) (items : dict string)
    : result (option string * bound) :=
  match items with
  | [] => Ok st
  | item :: rest =>
      st' <- consider_tol tol pattern_df x_val y_val st item ;;
      scan_tol tol pattern_df x_val y_val st' rest
  end.

Definition classify_row_tol (tol : tolerance) (pattern_df : DataFrame)
    (best_patterns : dict string) (row : R * R) : result forecast :=
  let '(x_val, y_val) := row in
  '(best_match, min_dev) <-
     scan_tol tol pattern_df x_val y_val (None, PosInf) best_patterns ;;
  Ok (mkForecast x_val y_val min_dev best_match).

Fixpoint classify_tol (tol : tolerance) (pattern_df : DataFrame)
    (best_patterns : dict string) (rows : list (R * R)) : result (list forecast) :=
  match rows with
  | [] => Ok []
  | row :: rest =>
      f <- classify_row_tol tol pattern_df best_patterns row ;;
      fs <- classify_tol tol pattern_df best_patterns rest ;;
      Ok (f :: fs)
  end.

(** The number of accepted candidates: the pairs of a test row and an item
    of [best_patterns] whose curve passes the gate. *)
Definition accepts (tol : tolerance) (pattern_df : DataFrame) (row : R * R)
    (item : string * string) : bool :=
  match candidate_tol tol pattern_df (fst row) (snd row) item with
  | Ok (Some _) => true
  | _ => false
  end.

Definition accepted_count (tol : tolerance) (pattern_df : DataFrame)
    (best_patterns : dict string) (rows : list (R * R)) : nat :=
  list_sum (map (fun row =>
                   List.length (filter (accepts tol pattern_df row) best_patterns)) rows).

(** [tol1] is below [tol2]: they fail alike, and where they give a tolerance
    the second is at least the first (a NaN stays a NaN). *)
Definition tol_le (tol1 tol2 : tolerance) : Prop :=
  forall week_col pattern_col,
    match tol1 week_col pattern_col, tol2 week_col pattern_col with
    | Ok (Some m1), Ok (Some m2) => m1 <= m2
    | Ok None, Ok None => True
    | Raise e1, Raise e2 => e1 = e2
    | _, _ => False
    end.

(** ** The database, the log and the two methods *)

(** A record written with [logging]. *)
Inductive log_record : Type :=
| ReadFailed (table_name : string)   (* error: "Failed to read table ..." *)
| MissingData                        (* error: "Missing historical or pattern sales data." *)
| ValidationError (msg : string)     (* error: "Validation error: ..." *)
| ProcessingError (e : exn)          (* exception: "Error processing sales forecast" *)
| MissingDatasets                    (* error: "Missing datasets for visualization." *)
| ForecastStored.                    (* info: "Weekly sales forecast completed and stored." *)

(** The tables that can be read back as a numeric frame. *)
Definition Database : Type := list (string * DataFrame).

(** A computation that writes log records and returns or raises. *)
Definition Logged (A : Type) : Type := list log_record * result A.

Definition lret {A : Type} (a : A) : Logged A := ([], Ok a).

Definition lbind {A B : Type} (c : Logged A) (k : A -> Logged B) : Logged B :=
  match c with
  | (l, Ok a) => let '(l', r) := k a in (l ++ l', r)
  | (l, Raise e) => (l, Raise e)
  end.

Definition write_log (r : log_record) : Logged unit := ([r], Ok tt).
Definition raise {A : Type} (e : exn) : Logged A := ([], Raise e).
Definition lift {A : Type} (c : result A) : Logged A := ([], c).

Declare Scope logged_scope.
Delimit Scope logged_scope with logged.
Notation "x <- c ;; k" := (lbind c (fun x => k))
  (at level 61, c at next level, right associativity) : logged_scope.
Notation "c ;; k" := (lbind c (fun _ => k))
  (at level 61, right associativity) : logged_scope.

Fixpoint find_table (db : Database) (table_name : string) : option DataFrame :=
  match db with
  | [] => None
  | (name, df) :: rest => if String.eqb table_name name then Some df else find_table rest table_name
  end.

(** [read_sales_table]: the frame, or [None] after logging when the read fails. *)
Definition read_sales_table (db : Database) (table_name : string) : Logged (option DataFrame) :=
  match find_table db table_name with
  | Some df => lret (Some df)
  | None => (write_log (ReadFailed table_name) ;; lret None)%logged
  end.

Definition identify_best_sales_patterns (db : Database) : Logged (dict string) :=
  (training_sales_df <- read_sales_table db "historical_sales" ;;
   pattern_df <- read_sales_table db "sales_patterns" ;;
   match training_sales_df, pattern_df with
   | Some training, Some pattern => lift (select_best_patterns training pattern)
   | _, _ => write_log MissingData ;; lret []
   end)%logged.

(** The [try] block of [load_and_predict_weekly_sales], from the parsed test
    frame on.  The test frame comes from a CSV file and its labels are
    normalised after reading, so unlike a table of the database it can carry
    a label twice; [row['x']] is then a [Series] and the comparison of line
    136 raises.  The row loop below is the one of a test frame with distinct
    labels: statements about the rows it classifies assume
    [NoDup (columns test_sales_df)]. *)
Definition predict_body (db : Database) (test_sales_df : DataFrame) : Logged (list forecast) :=
  (if negb (has_column test_sales_df "x") || negb (has_column test_sales_df "y")
   then raise (InvalidSalesDataError "Missing required columns 'x' or 'y'")
   else
     best_patterns <- identify_best_sales_patterns db ;;
     pattern_df <- read_sales_table db "sales_patterns" ;;
     training_df <- read_sales_table db "historical_sales" ;;
     match pattern_df, training_df with
     | Some pattern, Some training =>
         xs <- lift (getitem test_sales_df "x") ;;
         ys <- lift (getitem test_sales_df "y") ;;
         lift (classify training pattern best_patterns (combine xs ys))
     | _, _ => raise (InvalidSalesDataError "Missing pattern/historical data.")
     end)%logged.

(** What a call leaves behind: the rows written to the table [sales_forecast]
    ([None] when [to_sql] was not reached) and the log.  The method itself
    always returns [None] to its caller. *)
Record outcome : Type := mkOutcome {
  sales_forecast : option (list forecast);
  log : list log_record
}.

(** The method with its two [except] clauses. *)
Definition load_and_predict_weekly_sales (db : Database) (test_sales_df : DataFrame) : outcome :=
  match predict_body db test_sales_df with
  | (l, Ok forecast_results) => mkOutcome (Some forecast_results) (l ++ [ForecastStored])
  | (l, Raise (InvalidSalesDataError msg)) => mkOutcome None (l ++ [ValidationError msg])
  | (l, Raise e) => mkOutcome None (l ++ [ProcessingError e])
  end.

(** ** [visualize_sales_forecast]: what is drawn

    The figure is the list of the glyphs added to it, in the order of the
    calls [p.line] and [p.scatter]; writing the HTML file and opening it are
    left out.  The table [sales_forecast] is not a numeric frame; it is given
    as the rows last stored, or [None] when it cannot be read. *)

Inductive glyph : Type :=
| Line (xs ys : Series) (legend_label : string) (dashed : bool)
| Scatter (xs ys : Series) (legend_label color : string).

(** What the call did: returned before drawing, or drew and showed the
    figure. *)
Inductive drawing : Type :=
| NotDrawn
| Drawn (figure : list glyph).

(** The loop over [training_df.columns[1:]], adding to the glyphs [p]. *)
Fixpoint draw_series (training_df pattern_df : DataFrame) (best_patterns : dict string)
    (cols : list string) (p : list glyph) : result (list glyph) :=
  match cols with
  | [] => Ok p
  | col :: rest =>
      tx <- getitem training_df "x" ;;
      ty <- getitem training_df col ;;
      let p := p ++ [Line tx ty (String.append "Historical " col) false] in
      match dict_get best_patterns col with
      | Some pattern_col =>
          if has_column pattern_df pattern_col then
            px <- getitem pattern_df "x" ;;
            py <- getitem pattern_df pattern_col ;;
            draw_series training_df pattern_df best_patterns rest
              (p ++ [Line px py (String.append "Pattern " col) true])
          else draw_series training_df pattern_df best_patterns rest p
      | None => draw_series training_df pattern_df best_patterns rest p
      end
  end.

Definition read_forecast_table (forecast_table : option (list forecast))
    : Logged (option (list forecast)) :=
  match forecast_table with
  | Some rows => lret (Some rows)
  | None => (write_log (ReadFailed "sales_forecast") ;; lret None)%logged
  end.

Definition visualize_sales_forecast (db : Database)
    (forecast_table : option (list forecast)) : Logged drawing :=
  (training_df <- read_sales_table db "historical_sales" ;;
   pattern_df <- read_sales_table db "sales_patterns" ;;
   forecast_df <- read_forecast_table forecast_table ;;
   match training_df, pattern_df, forecast_df with
   | Some training, Some pattern, Some forecast_rows =>
       best_patterns <- identify_best_sales_patterns db ;;
       p <- lift (draw_series training pattern best_patterns (tl (columns training)) []) ;;
       lret (Drawn (p ++ [Scatter (map fx forecast_rows) (map fy forecast_rows)
                            "Forecast Data" "red"]))
   | _, _, _ => write_log MissingDatasets ;; lret NotDrawn
   end)%logged.


(** ** [hell.py]: the sum of the numbers written in a file

    The file system is the list of the readable text files with their
    contents; a name that is not in it makes [open] raise
    [FileNotFoundError].  [max_str_digits] is the interpreter's limit on
    the length of a decimal string given to [int]: 0 when there is none,
    4300 by default where there is one. *)

(** The character class [[0-9]]. *)
Definition is_digit (c : ascii) : bool :=
  (48 <=? nat_of_ascii c)%nat && (nat_of_ascii c <=? 57)%nat.

Definition digit_value (c : ascii) : Z := Z.of_nat (nat_of_ascii c - 48).

(** A finished run of digits is a match, unless it is empty. *)
Definition flush (run : string) : list string :=
  match run with
  | EmptyString => []
  | String _ _ => [run]
  end.

(** [re.findall('[0-9]+', content)]: the maximal runs of digits, from left
    to right; [run] holds the digits read since the last other character. *)
Fixpoint findall_digits (content run : string) : list string :=
  match content with
  | EmptyString => flush run
  | String c rest =>
      if is_digit c then findall_digits rest (String.append run (String c EmptyString))
      else flush run ++ findall_digits rest EmptyString
  end.

(** The value of a string of digits read in base ten, after [acc]. *)
Fixpoint decimal_value (num : string) (acc : Z) : Z :=
  match num with
  | EmptyString => acc
  | String c rest => decimal_value rest (10 * acc + digit_value c)
  end.

(** [int(num)] on a string of digits; the figures in the text of the error
    are left out. *)
Definition py_int (max_str_digits : nat) (num : string) : result Z :=
  if (0 <? max_str_digits)%nat && (max_str_digits <? String.length num)%nat
  then Raise (ValueError "Exceeds the limit for integer string conversion")
  else Ok (decimal_value num 0).

(** [[int(num) for num in numbers]] *)
Fixpoint ints_of (max_str_digits : nat) (numbers : list string) : result (list Z) :=
  match numbers with
  | [] => Ok []
  | num :: rest =>
      n <- py_int max_str_digits num ;;
      ns <- ints_of max_str_digits rest ;;
      Ok (n :: ns)
  end.

(** The builtin [sum]. *)
Definition py_sum (numbers : list Z) : Z := fold_left Z.add numbers 0%Z.

(** The body of the [try] block, from the content read. *)
Definition sum_numbers (max_str_digits : nat) (content : string) : result Z :=
  numbers <- ints_of max_str_digits (findall_digits content EmptyString) ;;
  Ok (py_sum numbers).

(** What [sum_numbers_in_file] returns: the total or the error text. *)
Inductive returned : Type :=
| Total (total_sum : Z)
| Message (text : string).

Fixpoint read_file (files : list (string * string)) (filename : string) : option string :=
  match files with
  | [] => None
  | (name, content) :: rest =>
      if String.eqb filename name then Some content else read_file rest filename
  end.

Definition sum_numbers_in_file (max_str_digits : nat) (files : list (string * string))
    (filename : string) : result returned :=
  match read_file files filename with
  | None => Ok (Message "Error: File not found.")
  | Some content =>
      total_sum <- sum_numbers max_str_digits content ;;
      Ok (Total total_sum)
  end.

(** ** The specification's words, as definitions *)

(** [error(h,r)]: the sum over the aligned rows of the squared differences. *)
Fixpoint error_sum (hs rs : Series) : R :=
  match hs, rs with
  | h :: hs', r :: rs' => (h - r) ^ 2 + error_sum hs' rs'
  | _, _ => 0
  end.

(** [i] is the first row of the x column [xs] that holds [x_val]. *)
Definition first_row_at (xs : Series) (x_val : R) (i : nat) : Prop :=
  nth_error xs i = Some x_val /\
  forall j, (j < i)%nat -> nth_error xs j <> Some x_val.

(** The curve of [item] is accepted as a candidate for the observation
    [(x_val, y_val)] with deviation [d]: some row of the reference table has
    exactly this x, [d] is the distance of [y_val] to the curve's y at the
    first such row, and [d] is within the tolerance of the item's series. *)
Definition accepted (margin : R) (training_df pattern_df : DataFrame) (x_val y_val : R)
    (item : string * string) (d : R) : Prop :=
  exists xs ps i v m,
    getitem pattern_df "x" = Ok xs /\
    getitem pattern_df (snd item) = Ok ps /\
    first_row_at xs x_val i /\
    nth_error ps i = Some v /\
    d = Rabs (y_val - v) /\
    max_dev_with margin training_df pattern_df (fst item) (snd item) = Ok (Some m) /\
    d <= m.

(** The state [(best_match, min_dev)] after the items [seen]: nothing was
    accepted and it is still [(None, inf)], or it holds the curve and the
    deviation of the first accepted item of least deviation. *)
Definition first_least (margin : R) (training_df pattern_df : DataFrame) (x_val y_val : R)
    (seen : dict string) (st : option string * bound) : Prop :=
  (st = (None, PosInf) /\
   forall item d, In item seen ->
     ~ accepted margin training_df pattern_df x_val y_val item d)
  \/
  (exists k h r d,
     st = (Some r, Dev d) /\
     nth_error seen k = Some (h, r) /\
     accepted margin training_df pattern_df x_val y_val (h, r) d /\
     forall k' item' d',
       nth_error seen k' = Some item' ->
       accepted margin training_df pattern_df x_val y_val item' d' ->
       d <= d' /\ ((k' < k)%nat -> d < d')).

(** Nothing in the inner loop can raise: the reference table has its [x]
    column, and the tolerance of every item that is not skipped can be
    computed. *)
Definition gate_defined (margin : R) (training_df pattern_df : DataFrame)
    (best_patterns : dict string) : Prop :=
  In "x" (columns pattern_df) /\
  forall h r, In (h, r) best_patterns -> In r (columns pattern_df) ->
    exists m, max_dev_with margin training_df pattern_df h r = Ok m.

(** The pattern the selection loop computes for one historical column. *)
Definition best_for (training pattern : DataFrame) (week_col : string) : result string :=
  errors <- errors_dict training pattern week_col (tl (columns pattern)) [] ;;
  py_min_key errors.

(** Two rows for the same observation, the second assigned whenever the
    first is. *)
Definition still_assigned (f1 f2 : forecast) : Prop :=
  fx f1 = fx f2 /\ fy f1 = fy f2 /\
  (ideal_function f1 <> None -> ideal_function f2 <> None).

(** The state holds a curve exactly when [min_dev] is no longer [inf]. *)
Definition coherent (st : option string * bound) : Prop :=
  st = (None, PosInf) \/ exists r d, st = (Some r, Dev d).

(** A computation that does not raise [InvalidSalesDataError]. *)
Definition plain {A : Type} (c : result A) : Prop :=
  match c with
  | Raise (InvalidSalesDataError _) => False
  | _ => True
  end.

(** ** Concrete tables *)

(** Scenario 1 of the specification. *)
Definition hist1 : DataFrame := [("x", [1; 2; 3]); ("h1", [10; 20; 30])].
Definition ref1 : DataFrame :=
  [("x", [1; 2; 3]); ("r1", [10; 20; 30]); ("r2", [0; 0; 0])].
Definition patterns1 : dict string := [("h1", "r1")].
Definition rows1 : list (R * R) := [(2, 20); (2, 21)].

(** Two curves at the same squared error from the series. *)
Definition hist_tie : DataFrame := [("x", [1; 2]); ("h1", [10; 20])].
Definition ref_tie : DataFrame := [("x", [1; 2]); ("r1", [11; 20]); ("r2", [9; 20])].

(** Two series; the second is identical to its curve, and both curves pass
    through [(2, 20)]. *)
Definition hist2 : DataFrame := [("x", [1; 2]); ("h1", [10; 20]); ("h2", [12; 20])].
Definition ref2 : DataFrame := [("x", [1; 2]); ("r1", [11; 20]); ("r2", [12; 20])].
Definition patterns2 : dict string := [("h1", "r1"); ("h2", "r2")].

(** A reference table whose x column holds the value 2 twice. *)
Definition hist_dup : DataFrame := [("x", [1; 2; 2]); ("h1", [10; 21; 25])].
Definition ref_dup : DataFrame := [("x", [1; 2; 2]); ("r1", [10; 20; 99])].

(** A reference table without any curve, a database holding it, a database
    without the reference table, and test frames with and without [y]. *)
Definition ref_empty : DataFrame := [("x", [1; 2; 3])].
Definition db_empty_ref : Database :=
  [("historical_sales", hist1); ("sales_patterns", ref_empty)].
Definition db_no_ref : Database := [("historical_sales", hist1)].
Definition db1 : Database := [("historical_sales", hist1); ("sales_patterns", ref1)].
Definition test1 : DataFrame := [("x", [2; 2]); ("y", [20; 21])].
Definition test_no_y : DataFrame := [("x", [2; 2])].

(** The frame of the unit tests' [setUp], stored as both tables. *)
Definition dummy_data : DataFrame := [("x", [1; 2; 3]); ("y1", [10; 20; 30])].

(** Tables that have their columns but no row, and a database holding them. *)
Definition hist_zero : DataFrame := [("x", []); ("h1", [])].
Definition ref_zero : DataFrame := [("x", []); ("r1", []); ("r2", [])].
Definition db_zero : Database :=
  [("historical_sales", hist_zero); ("sales_patterns", ref_zero)].

(** A file system with one file. *)
Definition files1 : list (string * string) := [("data.txt", "a12b0 -30")].

(** Integer tables on which the squared error wraps around, and the frame
    of the unit tests with its integer columns. *)
Definition big_hist : TypedFrame := [("x", IntColumn [1%Z]); ("h1", IntColumn [4000000000%Z])].
Definition big_ref : TypedFrame :=
  [("x", IntColumn [1%Z]); ("r1", IntColumn [4000000000%Z]); ("r2", IntColumn [0%Z])].
Definition dummy_typed : TypedFrame :=
  [("x", IntColumn [1; 2; 3]%Z); ("y1", IntColumn [10; 20; 30]%Z)].
Definition typed_hist1 : TypedFrame :=
  [("x", IntColumn [1; 2; 3]%Z); ("h1", IntColumn [10; 20; 30]%Z)].
Definition typed_ref1 : TypedFrame :=
  [("x", IntColumn [1; 2; 3]%Z); ("r1", FloatColumn [10; 20; 30]);
   ("r2", IntColumn [0; 0; 0]%Z)].

(** ** Basic facts *)

Lemma Rlt_b_true (a b : R) : Rlt_b a b = true <-> a < b.
Proof. unfold Rlt_b. destruct (Rlt_dec a b); split; intros; auto; discriminate. Qed.

Lemma Rlt_b_false (a b : R) : Rlt_b a b = false <-> b <= a.
Proof.
  unfold Rlt_b. destruct (Rlt_dec a b); split; intros; auto; try discriminate; lra.
Qed.

Lemma Rle_b_true (a b : R) : Rle_b a b = true <-> a <= b.
Proof. unfold Rle_b. destruct (Rle_dec a b); split; intros; auto; discriminate. Qed.

Lemma Rle_b_false (a b : R) : Rle_b a b = false <-> b < a.
Proof.
  unfold Rle_b. destruct (Rle_dec a b); split; intros; auto; try discriminate; lra.
Qed.

Lemma Req_b_true (a b : R) : Req_b a b = true <-> a = b.
Proof. unfold Req_b. destruct (Req_dec_T a b); split; intros; auto; discriminate. Qed.

Lemma Req_b_false (a b : R) : Req_b a b = false <-> a <> b.
Proof.
  unfold Req_b. destruct (Req_dec_T a b); split; intros; auto; try discriminate; contradiction.
Qed.

Lemma sqrt2_bounds : 1 < sqrt 2 < 2.
Proof.
  pose proof Rlt_sqrt2_0. pose proof (sqrt_sqrt 2 ltac:(lra)). nra.
Qed.

(** Evaluation of the model on concrete reals: a comparison or an absolute
    value is decided by linear arithmetic, then computation goes on. *)
Ltac real_side := simpl; pose proof sqrt2_bounds; (lra || nra).

Ltac eval_real_step :=
  match goal with
  | |- context [Rabs ?a] =>
      first [rewrite (Rabs_pos_eq a) by real_side | rewrite (Rabs_left1 a) by real_side]
  | |- context [Rlt_b ?a ?b] =>
      first [rewrite (proj2 (Rlt_b_true a b)) by real_side
            | rewrite (proj2 (Rlt_b_false a b)) by real_side]
  | |- context [Rle_b ?a ?b] =>
      first [rewrite (proj2 (Rle_b_true a b)) by real_side
            | rewrite (proj2 (Rle_b_false a b)) by real_side]
  | |- context [Req_b ?a ?b] =>
      first [rewrite (proj2 (Req_b_true a b)) by real_side
            | rewrite (proj2 (Req_b_false a b)) by real_side]
  end.

Ltac eval_real := repeat (cbn; try eval_real_step).
Ltac same_reals := repeat (f_equal; try lra).

Lemma getitem_in (df : DataFrame) (col : string) :
  In col (columns df) -> exists s, getitem df col = Ok s.
Proof.
  induction df as [|[name s] rest IH]; simpl; [tauto|].
  intros [->|Hin].
  - rewrite String.eqb_refl. eauto.
  - destruct (String.eqb col name); eauto.
Qed.

Lemma getitem_Ok_in (df : DataFrame) (col : string) (s : Series) :
  getitem df col = Ok s -> In (col, s) df.
Proof.
  induction df as [|[name s'] rest IH]; simpl; [discriminate|].
  destruct (String.eqb col name) eqn:E.
  - apply String.eqb_eq in E. subst. intros [= ->]. now left.
  - intros H. right. auto.
Qed.

Lemma has_column_true (df : DataFrame) (col : string) :
  has_column df col = true <-> In col (columns df).
Proof.
  unfold has_column. rewrite existsb_exists. split.
  - intros (c & Hc & E). apply String.eqb_eq in E. now subst.
  - intros H. exists col. split; [assumption|apply String.eqb_refl].
Qed.

Lemma np_sum_error_sum (hs rs : Series) :
  np_sum (map nf_sq (series_sub hs rs)) = error_sum hs rs.
Proof.
  assert (Hnan : forall n, np_sum (map nf_sq (repeat None n)) = 0)
    by (induction n; simpl; auto).
  revert rs. induction hs as [|h hs IH]; intros [|r rs].
  - reflexivity.
  - apply (Hnan (S (List.length rs))).
  - apply (Hnan (S (List.length hs + 0))).
  - cbn [series_sub map nf_sq option_map np_sum error_sum]. now rewrite IH.
Qed.

(** ** Pattern selection *)

Lemma dict_set_fresh {V : Type} (d : dict V) (k : string) (v : V) :
  ~ In k (map fst d) -> dict_set d k v = d ++ [(k, v)].
Proof.
  induction d as [|[k' v'] rest IH]; simpl; intros Hk; [reflexivity|].
  destruct (String.eqb k k') eqn:E.
  - apply String.eqb_eq in E. subst k'. exfalso. apply Hk. now left.
  - rewrite IH by tauto. reflexivity.
Qed.

Lemma dict_get_set_same {V : Type} (d : dict V) (k : string) (v : V) :
  dict_get (dict_set d k v) k = Some v.
Proof.
  induction d as [|[k' v'] rest IH]; simpl.
  - now rewrite String.eqb_refl.
  - destruct (String.eqb k k') eqn:E; simpl; rewrite E; auto.
Qed.

Lemma dict_get_set_other {V : Type} (d : dict V) (k k0 : string) (v : V) :
  k0 <> k -> dict_get (dict_set d k v) k0 = dict_get d k0.
Proof.
  intros Hne. induction d as [|[k' v'] rest IH]; simpl.
  - destruct (String.eqb k0 k) eqn:E; [apply String.eqb_eq in E; contradiction|reflexivity].
  - destruct (String.eqb k k') eqn:E; simpl.
    + apply String.eqb_eq in E. subst k'.
      apply String.eqb_neq in Hne. now rewrite Hne.
    + now rewrite IH.
Qed.

(** The builtin [min] returns the first item of smallest value. *)
Lemma min_from_first_min (cur : string * R) (items : list (string * R)) :
  exists i v,
    nth_error (cur :: items) i = Some (min_from cur items, v) /\
    forall j k' v', nth_error (cur :: items) j = Some (k', v') ->
      v <= v' /\ ((j < i)%nat -> v < v').
Proof.
  revert cur. induction items as [|[k v0] rest IH]; intros [kc vc].
  - exists 0%nat, vc. split; [reflexivity|].
    intros [|[|j]] k' v'; simpl; try discriminate.
    intros [= _ <-]. split; [lra|lia].
  - simpl min_from. destruct (Rlt_b v0 vc) eqn:E.
    + apply Rlt_b_true in E.
      destruct (IH (k, v0)) as (i & v & Hi & Hmin).
      exists (S i), v. split; [exact Hi|].
      destruct (Hmin 0%nat k v0 eq_refl) as [Hv0 _].
      intros [|j] k' v'; simpl.
      * intros [= _ <-]. split; intros; lra.
      * intros Hj. destruct (Hmin j k' v' Hj) as [H1 H2]. split; [exact H1|].
        intros. apply H2. lia.
    + apply Rlt_b_false in E.
      destruct (IH (kc, vc)) as (i & v & Hi & Hmin).
      destruct (Hmin 0%nat kc vc eq_refl) as [Hvc Hstrict].
      destruct i as [|i].
      * exists 0%nat, v. split; [exact Hi|].
        intros [|[|j]] k' v'; simpl.
        -- intros [= _ <-]. split; [lra|lia].
        -- intros [= _ <-]. split; [lra|lia].
        -- intros Hj. destruct (Hmin (S j) k' v' Hj). split; [assumption|lia].
      * exists (S (S i)), v. split; [exact Hi|].
        assert (v < vc) by (apply Hstrict; lia).
        intros [|[|j]] k' v'; simpl.
        -- intros [= _ <-]. split; intros; lra.
        -- intros [= _ <-]. split; intros; lra.
        -- intros Hj. destruct (Hmin (S j) k' v' Hj) as [H1 H2]. split; [exact H1|].
           intros. apply H2. lia.
Qed.

(** With distinct column names the comprehension lists the columns in order. *)
Lemma errors_dict_nodup (training pattern : DataFrame) (week_col : string)
    (f : string -> R) (cols : list string) (acc : dict R) :
  (forall c, In c cols -> squared_error training pattern week_col c = Ok (f c)) ->
  NoDup cols ->
  (forall c, In c cols -> ~ In c (map fst acc)) ->
  errors_dict training pattern week_col cols acc
  = Ok (acc ++ map (fun c => (c, f c)) cols).
Proof.
  revert acc. induction cols as [|c rest IH]; intros acc Hf Hnd Hfresh; simpl.
  - now rewrite app_nil_r.
  - rewrite (Hf c) by now left. simpl.
    rewrite dict_set_fresh by (apply Hfresh; now left).
    inversion Hnd as [|? ? Hc Hrest]; subst.
    rewrite IH.
    + now rewrite <- app_assoc.
    + intros; apply Hf; now right.
    + assumption.
    + intros c' Hc'. rewrite map_app, in_app_iff. simpl.
      intros [H|[<-|[]]]; [|contradiction].
      apply (Hfresh c'); [now right|assumption].
Qed.

Lemma select_loop_get (training pattern : DataFrame) (best : string -> string)
    (week_cols : list string) (acc : dict string) :
  (forall h, In h week_cols -> best_for training pattern h = Ok (best h)) ->
  exists bp,
    select_loop training pattern week_cols acc = Ok bp /\
    forall h, (In h week_cols -> dict_get bp h = Some (best h)) /\
              (~ In h week_cols -> dict_get bp h = dict_get acc h).
Proof.
  revert acc. induction week_cols as [|w rest IH]; intros acc Hbest.
  - exists acc. split; [reflexivity|]. intros h. split; [intros []|reflexivity].
  - simpl select_loop.
    pose proof (Hbest w (or_introl eq_refl)) as Hw. unfold best_for in Hw.
    destruct (errors_dict training pattern w (tl (columns pattern)) []) as [errors|e];
      [|discriminate]. simpl in Hw |- *. rewrite Hw. simpl.
    destruct (IH (dict_set acc w (best w))) as (bp & Hbp & Hget).
    { intros h Hh. apply Hbest. now right. }
    exists bp. split; [exact Hbp|]. intros h.
    destruct (Hget h) as [Hin Hout]. split.
    + intros [<-|Hh]; [|auto].
      destruct (in_dec string_dec w rest) as [Hr|Hr]; [auto|].
      rewrite (proj2 (Hget w) Hr). apply dict_get_set_same.
    + intros Hn. rewrite Hout by (simpl in Hn; tauto).
      apply dict_get_set_other. simpl in Hn. intros ->. tauto.
Qed.

Lemma NoDup_tl {A : Type} (l : list A) : NoDup l -> NoDup (tl l).
Proof. destruct l; simpl; [auto|]. now inversion 1. Qed.

Lemma in_tl {A : Type} (a : A) (l : list A) : In a (tl l) -> In a l.
Proof. destruct l; simpl; auto. Qed.

(** For one historical column the loop body returns the first pattern
    column of least squared error. *)
Lemma best_for_first_min (training pattern : DataFrame) (h : string) (hs : Series) :
  NoDup (columns pattern) ->
  tl (columns pattern) <> [] ->
  getitem training h = Ok hs ->
  exists i r rs,
    best_for training pattern h = Ok r /\
    nth_error (tl (columns pattern)) i = Some r /\
    getitem pattern r = Ok rs /\
    forall j r' rs',
      nth_error (tl (columns pattern)) j = Some r' ->
      getitem pattern r' = Ok rs' ->
      error_sum hs rs <= error_sum hs rs' /\
      ((j < i)%nat -> error_sum hs rs < error_sum hs rs').
Proof.
  intros Hnd Hne Hh.
  set (col := fun c => match getitem pattern c with Ok s => s | Raise _ => [] end).
  set (f := fun c => error_sum hs (col c)).
  assert (Hcol : forall c, In c (tl (columns pattern)) -> getitem pattern c = Ok (col c)).
  { intros c Hc. destruct (getitem_in pattern c (in_tl _ _ Hc)) as [s Hs].
    unfold col. now rewrite Hs. }
  assert (Herr : errors_dict training pattern h (tl (columns pattern)) []
                 = Ok (map (fun c => (c, f c)) (tl (columns pattern)))).
  { rewrite (errors_dict_nodup training pattern h f); auto using NoDup_tl.
    intros c Hc. unfold squared_error. rewrite Hh, (Hcol c Hc). simpl.
    now rewrite np_sum_error_sum. }
  unfold best_for. rewrite Herr. simpl.
  destruct (tl (columns pattern)) as [|c0 rest] eqn:Ecols; [contradiction|].
  simpl map. simpl py_min_key.
  destruct (min_from_first_min (c0, f c0) (map (fun c => (c, f c)) rest))
    as (i & v & Hi & Hmin).
  change ((c0, f c0) :: map (fun c => (c, f c)) rest)
    with (map (fun c => (c, f c)) (c0 :: rest)) in Hi, Hmin.
  rewrite nth_error_map in Hi.
  destruct (nth_error (c0 :: rest) i) as [r|] eqn:Er; [|discriminate].
  simpl in Hi. injection Hi as Hr Hv. subst v.
  exists i, r, (col r). split; [now rewrite <- Hr|].
  split; [exact Er|].
  split; [apply Hcol; eapply nth_error_In; eauto|].
  intros j r' rs' Hj Hrs'.
  assert (col r' = rs') as <- by (unfold col; now rewrite Hrs').
  apply (Hmin j r' (f r')). rewrite nth_error_map, Hj. reflexivity.
Qed.

(** On float64 columns: given a reference table with distinct column names
    and at least one curve column, [select_best_patterns] returns a mapping which sends every
    historical series [h] to a reference curve [r] whose squared error
    [error_sum] against [h] is least among all reference curves, and
    strictly smaller than that of every curve standing before [r] in the
    reference table's column order: among curves of equal least error the
    earliest column is chosen. *)
Theorem select_best_patterns_least_error (training pattern : DataFrame) :
  NoDup (columns pattern) ->
  tl (columns pattern) <> [] ->
  exists best_patterns,
    select_best_patterns training pattern = Ok best_patterns /\
    forall h hs,
      In h (tl (columns training)) ->
      getitem training h = Ok hs ->
      exists i r rs,
        dict_get best_patterns h = Some r /\
        nth_error (tl (columns pattern)) i = Some r /\
        getitem pattern r = Ok rs /\
        forall j r' rs',
          nth_error (tl (columns pattern)) j = Some r' ->
          getitem pattern r' = Ok rs' ->
          error_sum hs rs <= error_sum hs rs' /\
          ((j < i)%nat -> error_sum hs rs < error_sum hs rs').
Proof.
  intros Hnd Hne.
  set (best := fun h => match best_for training pattern h with
                        | Ok r => r | Raise _ => EmptyString end).
  destruct (select_loop_get training pattern best (tl (columns training)) [])
    as (bp & Hbp & Hget).
  { intros h Hh. destruct (getitem_in training h (in_tl _ _ Hh)) as [hs Hhs].
    destruct (best_for_first_min training pattern h hs Hnd Hne Hhs)
      as (i & r & rs & Hr & _).
    unfold best. now rewrite Hr. }
  exists bp. split; [exact Hbp|].
  intros h hs Hin Hhs.
  destruct (best_for_first_min training pattern h hs Hnd Hne Hhs)
    as (i & r & rs & Hr & Hi & Hrs & Hmin).
  exists i, r, rs. repeat split; auto.
  - rewrite (proj1 (Hget h) Hin). unfold best. now rewrite Hr.
  - apply (Hmin j r' rs'); assumption.
  - apply (Hmin j r' rs'); assumption.
Qed.

(** ** The classifier's loop and the parametrised gate *)

Lemma consider_with_tol (margin : R) (training pattern : DataFrame) (x_val y_val : R)
    (st : option string * bound) (item : string * string) :
  consider_with margin training pattern x_val y_val st item
  = consider_tol (max_dev_with margin training pattern) pattern x_val y_val st item.
Proof.
  destruct item as [h r]. unfold consider_with, consider_tol, candidate_tol.
  destruct (negb (has_column pattern r)); [reflexivity|].
  destruct (max_dev_with margin training pattern h r) as [m|e]; [simpl|reflexivity].
  destruct (getitem pattern "x") as [xs|e]; [simpl|reflexivity].
  destruct (getitem pattern r) as [ps|e]; [simpl|reflexivity].
  destruct (loc_values xs ps x_val) as [|v rest]; [reflexivity|].
  destruct (le_nf (Rabs (y_val - v)) m); simpl; [|reflexivity].
  destruct (lt_bound (Rabs (y_val - v)) (snd st)); reflexivity.
Qed.

Lemma scan_with_tol (margin : R) (training pattern : DataFrame) (x_val y_val : R)
    (items : dict string) (st : option string * bound) :
  scan_with margin training pattern x_val y_val st items
  = scan_tol (max_dev_with margin training pattern) pattern x_val y_val st items.
Proof.
  revert st. induction items as [|item rest IH]; intros st; simpl; [reflexivity|].
  rewrite consider_with_tol.
  destruct (consider_tol _ pattern x_val y_val st item); simpl; auto.
Qed.

Lemma classify_row_with_tol (margin : R) (training pattern : DataFrame)
    (best_patterns : dict string) (row : R * R) :
  classify_row_with margin training pattern best_patterns row
  = classify_row_tol (max_dev_with margin training pattern) pattern best_patterns row.
Proof.
  destruct row as [x_val y_val]. unfold classify_row_with, classify_row_tol.
  now rewrite scan_with_tol.
Qed.

Lemma classify_with_tol (margin : R) (training pattern : DataFrame)
    (best_patterns : dict string) (rows : list (R * R)) :
  classify_with margin training pattern best_patterns rows
  = classify_tol (max_dev_with margin training pattern) pattern best_patterns rows.
Proof.
  induction rows as [|row rest IH]; simpl; [reflexivity|].
  now rewrite classify_row_with_tol, IH.
Qed.

(** ** Rows selected by [x == x_val] *)

Lemma first_row_at_unique (xs : Series) (x_val : R) (i j : nat) :
  first_row_at xs x_val i -> first_row_at xs x_val j -> i = j.
Proof.
  intros [Hi Hi'] [Hj Hj'].
  destruct (Nat.lt_trichotomy i j) as [H|[H|H]]; [|assumption|].
  - now apply Hj' in H.
  - now apply Hi' in H.
Qed.

Lemma loc_values_first (xs ps : Series) (x_val : R) (i : nat) (v : R) :
  first_row_at xs x_val i -> nth_error ps i = Some v ->
  exists rest, loc_values xs ps x_val = v :: rest.
Proof.
  revert ps i. induction xs as [|x xs IH]; intros ps i [Hi Hfirst] Hv.
  - destruct i; discriminate.
  - destruct ps as [|p ps]; [destruct i; discriminate|].
    simpl. destruct i as [|i].
    + simpl in Hi, Hv. injection Hi as ->. injection Hv as ->.
      rewrite (proj2 (Req_b_true x_val x_val) eq_refl). eauto.
    + destruct (Req_b x x_val) eqn:E.
      * apply Req_b_true in E. subst x.
        exfalso. apply (Hfirst 0%nat); [lia|reflexivity].
      * apply (IH ps i); [|exact Hv]. split; [exact Hi|].
        intros j Hj. apply (Hfirst (S j)). lia.
Qed.

Lemma loc_values_cons (xs ps : Series) (x_val v : R) (rest : list R) :
  loc_values xs ps x_val = v :: rest ->
  exists i, first_row_at xs x_val i /\ nth_error ps i = Some v.
Proof.
  revert ps. induction xs as [|x xs IH]; intros ps; [discriminate|].
  destruct ps as [|p ps]; [discriminate|]. simpl.
  destruct (Req_b x x_val) eqn:E.
  - apply Req_b_true in E. subst x. intros [= -> _].
    exists 0%nat. repeat split. intros j Hj. lia.
  - apply Req_b_false in E. intros H. destruct (IH ps H) as (i & [Hi Hfirst] & Hv).
    exists (S i). repeat split; auto.
    intros [|j] Hj; simpl; [congruence|]. apply Hfirst. lia.
Qed.

(** ** The gate lets through exactly the accepted candidates *)

Section Gate.

Variable margin : R.
Variables training pattern : DataFrame.
Variables x_val y_val : R.

Let tol : tolerance := max_dev_with margin training pattern.

Lemma candidate_accepted (item : string * string) (d : R) :
  candidate_tol tol pattern x_val y_val item = Ok (Some d)
  <-> accepted margin training pattern x_val y_val item d.
Proof.
  destruct item as [h r]. unfold candidate_tol, accepted, tol. simpl. split.
  - destruct (has_column pattern r); simpl; [|discriminate].
    destruct (max_dev_with margin training pattern h r) as [m|e]; [simpl|discriminate].
    destruct (getitem pattern "x") as [xs|e]; [simpl|discriminate].
    destruct (getitem pattern r) as [ps|e]; [simpl|discriminate].
    destruct (loc_values xs ps x_val) as [|v rest] eqn:Eloc; [discriminate|].
    destruct (le_nf (Rabs (y_val - v)) m) eqn:Ele; [|discriminate].
    intros [= <-]. destruct m as [m|]; [|discriminate].
    apply Rle_b_true in Ele.
    destruct (loc_values_cons _ _ _ _ _ Eloc) as (i & Hi & Hv).
    exists xs, ps, i, v, m. auto 10.
  - intros (xs & ps & i & v & m & Hxs & Hps & Hi & Hv & -> & Hm & Hle).
    assert (Hcol : has_column pattern r = true).
    { apply has_column_true. apply getitem_Ok_in in Hps.
      unfold columns. now apply (in_map fst) in Hps. }
    rewrite Hcol, Hm, Hxs, Hps. simpl.
    destruct (loc_values_first xs ps x_val i v Hi Hv) as [rest ->].
    now rewrite (proj2 (Rle_b_true _ _) Hle).
Qed.

Lemma accepted_unique (item : string * string) (d d' : R) :
  accepted margin training pattern x_val y_val item d ->
  accepted margin training pattern x_val y_val item d' -> d = d'.
Proof.
  intros H H'. apply candidate_accepted in H, H'. congruence.
Qed.

Lemma accepted_nonneg (item : string * string) (d : R) :
  accepted margin training pattern x_val y_val item d -> 0 <= d.
Proof.
  intros (xs & ps & i & v & m & _ & _ & _ & _ & -> & _). apply Rabs_pos.
Qed.

Lemma first_least_step (seen : dict string) (st st' : option string * bound)
    (item : string * string) :
  first_least margin training pattern x_val y_val seen st ->
  consider_tol tol pattern x_val y_val st item = Ok st' ->
  first_least margin training pattern x_val y_val (seen ++ [item]) st'.
Proof.
  intros Hinv. unfold consider_tol.
  destruct (candidate_tol tol pattern x_val y_val item) as [[d|]|e] eqn:Ec;
    simpl; [| |discriminate]; intros [= <-].
  - (* the item is accepted with deviation [d] *)
    pose proof (proj1 (candidate_accepted item d) Ec) as Hacc.
    assert (Hlast : forall k' item' d',
               nth_error (seen ++ [item]) k' = Some item' ->
               accepted margin training pattern x_val y_val item' d' ->
               (k' < List.length seen)%nat \/
               (k' = List.length seen /\ item' = item /\ d' = d)).
    { intros k' item' d' Hk' Hacc'.
      destruct (Nat.lt_ge_cases k' (List.length seen)) as [Hlt|Hge]; [now left|right].
      rewrite nth_error_app2 in Hk' by assumption.
      destruct (k' - List.length seen)%nat as [|n] eqn:En;
        [|destruct n; discriminate].
      simpl in Hk'. injection Hk' as <-.
      repeat split; [lia|]. eapply accepted_unique; eauto. }
    assert (Hnew : nth_error (seen ++ [item]) (List.length seen) = Some item).
    { rewrite nth_error_app2 by lia. now rewrite Nat.sub_diag. }
    destruct Hinv as [[-> Hnone]|(k & h & r & d0 & -> & Hk & Hacc0 & Hmin)].
    + right. destruct item as [h r]. simpl.
      exists (List.length seen), h, r, d. repeat split; auto.
      * destruct (Hlast _ _ _ H H0) as [Hlt|(_ & _ & ->)]; [|lra].
        rewrite nth_error_app1 in H by assumption.
        apply nth_error_In in H. now apply Hnone in H0.
      * intros Hlt. rewrite nth_error_app1 in H by assumption.
        apply nth_error_In in H. now apply Hnone in H0.
    + simpl. destruct (Rlt_b d d0) eqn:E.
      * apply Rlt_b_true in E. right. destruct item as [h' r'].
        exists (List.length seen), h', r', d. repeat split; auto.
        -- destruct (Hlast _ _ _ H H0) as [Hlt|(_ & _ & ->)]; [|lra].
           rewrite nth_error_app1 in H by assumption.
           destruct (Hmin _ _ _ H H0). lra.
        -- intros Hlt. rewrite nth_error_app1 in H by assumption.
           destruct (Hmin _ _ _ H H0). lra.
      * apply Rlt_b_false in E. right.
        assert (Hk0 : (k < List.length seen)%nat)
          by (apply nth_error_Some; congruence).
        exists k, h, r, d0. repeat split; auto.
        -- rewrite nth_error_app1 by assumption. exact Hk.
        -- destruct (Hlast _ _ _ H H0) as [Hlt|(_ & _ & ->)]; [|lra].
           rewrite nth_error_app1 in H by assumption.
           now destruct (Hmin _ _ _ H H0).
        -- intros Hlt. destruct (Hlast _ _ _ H H0) as [Hlt'|(-> & _)]; [|lia].
           rewrite nth_error_app1 in H by assumption.
           destruct (Hmin _ _ _ H H0) as [_ Hs]. now apply Hs.
  - (* the item is skipped or rejected *)
    assert (Hrej : forall d, ~ accepted margin training pattern x_val y_val item d).
    { intros d Hd. apply candidate_accepted in Hd. congruence. }
    assert (Hold : forall k' item' d',
               nth_error (seen ++ [item]) k' = Some item' ->
               accepted margin training pattern x_val y_val item' d' ->
               nth_error seen k' = Some item').
    { intros k' item' d' Hk' Hacc'.
      destruct (Nat.lt_ge_cases k' (List.length seen)) as [Hlt|Hge].
      - now rewrite nth_error_app1 in Hk'.
      - rewrite nth_error_app2 in Hk' by assumption.
        destruct (k' - List.length seen)%nat as [|n]; [|destruct n; discriminate].
        simpl in Hk'. injection Hk' as <-. now apply Hrej in Hacc'. }
    destruct Hinv as [[-> Hnone]|(k & h & r & d0 & -> & Hk & Hacc0 & Hmin)].
    + left. split; [reflexivity|]. intros item' d' Hin.
      apply in_app_iff in Hin. destruct Hin as [Hin|[<-|[]]]; auto.
    + right. exists k, h, r, d0. repeat split; auto.
      * rewrite nth_error_app1; [exact Hk|]. apply nth_error_Some. congruence.
      * apply (Hmin k' item' d'); eauto.
      * apply (Hmin k' item' d'); eauto.
Qed.

End Gate.

(** ** The inner loop returns the first accepted item of least deviation *)

Lemma candidate_defined (margin : R) (training pattern : DataFrame) (x_val y_val : R)
    (best_patterns : dict string) (item : string * string) :
  gate_defined margin training pattern best_patterns ->
  In item best_patterns ->
  exists offer,
    candidate_tol (max_dev_with margin training pattern) pattern x_val y_val item
    = Ok offer.
Proof.
  intros [Hx Hgate] Hin. destruct item as [h r]. unfold candidate_tol.
  destruct (has_column pattern r) eqn:Ecol; simpl; [|eauto].
  apply has_column_true in Ecol.
  destruct (Hgate h r Hin Ecol) as [m ->]. simpl.
  destruct (getitem_in pattern "x" Hx) as [xs ->]. simpl.
  destruct (getitem_in pattern r Ecol) as [ps ->]. simpl.
  destruct (loc_values xs ps x_val); [eauto|].
  destruct (le_nf _ m); eauto.
Qed.

Lemma scan_first_least (margin : R) (training pattern : DataFrame) (x_val y_val : R)
    (items seen : dict string) (st : option string * bound) :
  first_least margin training pattern x_val y_val seen st ->
  (forall item, In item items ->
     exists offer,
       candidate_tol (max_dev_with margin training pattern) pattern x_val y_val item
       = Ok offer) ->
  exists st',
    scan_with margin training pattern x_val y_val st items = Ok st' /\
    first_least margin training pattern x_val y_val (seen ++ items) st'.
Proof.
  revert seen st. induction items as [|item rest IH]; intros seen st Hinv Hdef.
  - exists st. rewrite app_nil_r. now split.
  - destruct (Hdef item (or_introl eq_refl)) as [offer Hoffer].
    assert (Hstep : consider_tol (max_dev_with margin training pattern) pattern
                      x_val y_val st item = Ok (update st (snd item) offer))
      by (unfold consider_tol; now rewrite Hoffer).
    destruct (IH (seen ++ [item]) (update st (snd item) offer)) as (st' & Hscan & Hinv').
    + eapply first_least_step; eauto.
    + intros item' Hin. apply Hdef. now right.
    + exists st'. split.
      * simpl. rewrite consider_with_tol, Hstep. exact Hscan.
      * now rewrite <- app_assoc in Hinv'.
Qed.

Lemma first_least_start (margin : R) (training pattern : DataFrame) (x_val y_val : R) :
  first_least margin training pattern x_val y_val [] (None, PosInf).
Proof. left. split; [reflexivity|]. intros item d []. Qed.

Lemma classify_row_first_least (margin : R) (training pattern : DataFrame)
    (best_patterns : dict string) (x_val y_val : R) :
  gate_defined margin training pattern best_patterns ->
  exists f,
    classify_row_with margin training pattern best_patterns (x_val, y_val) = Ok f /\
    fx f = x_val /\ fy f = y_val /\
    first_least margin training pattern x_val y_val best_patterns
      (ideal_function f, delta_y f).
Proof.
  intros Hgate.
  destruct (scan_first_least margin training pattern x_val y_val best_patterns []
              (None, PosInf)) as ([best md] & Hscan & Hinv).
  - apply first_least_start.
  - intros item Hin. eapply candidate_defined; eauto.
  - exists (mkForecast x_val y_val md best).
    unfold classify_row_with. rewrite Hscan. simpl. auto.
Qed.

(** C2. When nothing in the inner loop can raise, the row computed for an
    observation [(x, y)] carries the curve and the deviation of the first
    item of [best_patterns], in iteration order, of least deviation among the
    accepted ones ([accepted]: the reference table has a row with exactly
    this x, the deviation is taken at the first such row and is at most
    [max_dev]), or [None] and [inf] when no item is accepted; and the loop
    body takes an item from the empty state exactly when it is accepted. *)
Theorem classify_row_first_accepted_least (training pattern : DataFrame)
    (best_patterns : dict string) (x_val y_val : R) :
  gate_defined (sqrt 2) training pattern best_patterns ->
  (exists f,
     classify_row training pattern best_patterns (x_val, y_val) = Ok f /\
     fx f = x_val /\ fy f = y_val /\
     first_least (sqrt 2) training pattern x_val y_val best_patterns
       (ideal_function f, delta_y f)) /\
  (forall item d,
     consider training pattern x_val y_val (None, PosInf) item
     = Ok (Some (snd item), Dev d)
     <-> accepted (sqrt 2) training pattern x_val y_val item d).
Proof.
  intros Hgate. split.
  - now apply classify_row_first_least.
  - intros item d. unfold consider. rewrite consider_with_tol.
    rewrite <- candidate_accepted. unfold consider_tol.
    destruct (candidate_tol _ pattern x_val y_val item) as [[d'|]|e]; simpl.
    + split; intros [= ->]; reflexivity.
    + split; discriminate.
    + split; discriminate.
Qed.

(** C4. When nothing in the inner loop can raise, [classify] returns one row
    per observation, in the order of the observations and carrying their
    [x] and [y]; a row for which no item of [best_patterns] is accepted is
    still there, with [ideal_function = None] and [delta_y = inf], and the
    call returns normally. *)
Theorem classify_one_row_per_observation (training pattern : DataFrame)
    (best_patterns : dict string) (rows : list (R * R)) :
  gate_defined (sqrt 2) training pattern best_patterns ->
  exists fs,
    classify training pattern best_patterns rows = Ok fs /\
    map (fun f => (fx f, fy f)) fs = rows /\
    List.length fs = List.length rows /\
    forall f, In f fs ->
      (forall item d, In item best_patterns ->
         ~ accepted (sqrt 2) training pattern (fx f) (fy f) item d) ->
      ideal_function f = None /\ delta_y f = PosInf.
Proof.
  intros Hgate. unfold classify.
  induction rows as [|[x_val y_val] rest (fs & Hfs & Hmap & Hlen & Hnone)].
  - exists []. split; [reflexivity|]. split; [reflexivity|]. split; [reflexivity|].
    intros g [].
  - destruct (classify_row_first_least (sqrt 2) training pattern best_patterns
                x_val y_val Hgate) as (f & Hf & Hx & Hy & Hinv).
    exists (f :: fs). cbn [classify_with]. rewrite Hf, Hfs. simpl.
    split; [reflexivity|]. split; [now rewrite Hx, Hy, Hmap|].
    split; [now rewrite Hlen|].
    intros g [<-|Hin] Hno; [|now apply Hnone].
    destruct Hinv as [[[= -> ->] _]|(k & h & r & d & _ & Hk & Hacc & _)]; [now split|].
    exfalso. rewrite Hx, Hy in Hno. apply (Hno (h, r) d); [|exact Hacc].
    eapply nth_error_In; eauto.
Qed.

(** C9. The deviation of an item is taken against the curve's value [v] at
    the first row [i] whose x equals the observation's x: this is the value
    [pattern_sales_vals[0]], it stays the same whatever the curve holds in
    the rows after [i] (rows with the same x included), and the loop body
    compares [|y - v|] with the tolerance and with [min_dev]. *)
Theorem consider_uses_first_matching_row (training pattern : DataFrame)
    (h r : string) (xs ps : Series) (x_val y_val v : R) (i : nat) (m : nanfloat)
    (st : option string * bound) :
  getitem pattern "x" = Ok xs ->
  getitem pattern r = Ok ps ->
  first_row_at xs x_val i ->
  nth_error ps i = Some v ->
  max_dev training pattern h r = Ok m ->
  hd_error (loc_values xs ps x_val) = Some v /\
  (forall ps', firstn (S i) ps' = firstn (S i) ps ->
     hd_error (loc_values xs ps' x_val) = Some v) /\
  consider training pattern x_val y_val st (h, r)
  = Ok (if le_nf (Rabs (y_val - v)) m && lt_bound (Rabs (y_val - v)) (snd st)
        then (Some r, Dev (Rabs (y_val - v)))
        else st).
Proof.
  intros Hxs Hps Hi Hv Hm.
  destruct (loc_values_first xs ps x_val i v Hi Hv) as [rest Hloc].
  split; [now rewrite Hloc|]. split.
  - intros ps' Hsame.
    assert (Hv' : nth_error ps' i = Some v).
    { pose proof (nth_error_firstn (S i) ps' i) as H1.
      pose proof (nth_error_firstn (S i) ps i) as H2.
      rewrite (proj2 (Nat.ltb_lt i (S i)) (Nat.lt_succ_diag_r i)) in H1, H2.
      rewrite <- H1, Hsame, H2. exact Hv. }
    destruct (loc_values_first xs ps' x_val i v Hi Hv') as [rest' ->]. reflexivity.
  - unfold consider, consider_with. unfold max_dev in Hm.
    assert (Hcol : has_column pattern r = true).
    { apply has_column_true. apply getitem_Ok_in in Hps.
      unfold columns. now apply (in_map fst) in Hps. }
    rewrite Hcol, Hm, Hxs, Hps. simpl. rewrite Hloc.
    destruct (le_nf _ m && lt_bound _ (snd st)); reflexivity.
Qed.

Lemma consider_with_skip (margin : R) (training pattern : DataFrame) (x_val y_val : R)
    (st : option string * bound) (h r : string) :
  ~ In r (columns pattern) ->
  consider_with margin training pattern x_val y_val st (h, r) = Ok st.
Proof.
  intros Hr. unfold consider_with.
  destruct (has_column pattern r) eqn:E; [|reflexivity].
  apply has_column_true in E. contradiction.
Qed.

Lemma scan_with_skip (margin : R) (training pattern : DataFrame) (x_val y_val : R)
    (h r : string) (pre post : dict string) (st : option string * bound) :
  ~ In r (columns pattern) ->
  scan_with margin training pattern x_val y_val st (pre ++ (h, r) :: post)
  = scan_with margin training pattern x_val y_val st (pre ++ post).
Proof.
  intros Hr. revert st.
  induction pre as [|item pre IH]; intros st; cbn [app scan_with].
  - now rewrite consider_with_skip.
  - destruct (consider_with margin training pattern x_val y_val st item); simpl; auto.
Qed.

(** C10. An item of [best_patterns] whose curve is not a column of the
    reference table is passed over without raising and without changing
    [(best_match, min_dev)], for every observation; the result of the whole
    classification is the one obtained from the remaining items. *)
Theorem classify_skips_unknown_curve (training pattern : DataFrame) (h r : string) :
  ~ In r (columns pattern) ->
  (forall x_val y_val st, consider training pattern x_val y_val st (h, r) = Ok st) /\
  (forall pre post rows,
     classify training pattern (pre ++ (h, r) :: post) rows
     = classify training pattern (pre ++ post) rows).
Proof.
  intros Hr. split.
  - intros. now apply consider_with_skip.
  - intros pre post rows. unfold classify.
    induction rows as [|[x_val y_val] rest IH]; cbn [classify_with]; [reflexivity|].
    unfold classify_row_with. rewrite scan_with_skip by assumption.
    now rewrite IH.
Qed.

(** ** The tolerance [max_dev] *)

Lemma max_from_aligned (hs rs : Series) (c : R) :
  List.length hs = List.length rs ->
  exists M,
    max_from (Some c) (map nf_abs (series_sub hs rs)) = Some M /\
    c <= M /\
    (forall i a b, nth_error hs i = Some a -> nth_error rs i = Some b ->
       Rabs (a - b) <= M) /\
    (M = c \/
     exists i a b, nth_error hs i = Some a /\ nth_error rs i = Some b /\
                   M = Rabs (a - b)).
Proof.
  revert rs c. induction hs as [|a hs IH]; intros [|b rs] c Hlen; try discriminate.
  - exists c. split; [reflexivity|]. split; [lra|]. split; [|now left].
    intros [|i] a b; discriminate.
  - injection Hlen as Hlen.
    cbn [series_sub map nf_abs option_map max_from nf_gt].
    destruct (Rlt_b c (Rabs (a - b))) eqn:E.
    + apply Rlt_b_true in E.
      destruct (IH rs (Rabs (a - b)) Hlen) as (M & HM & Hc & Hub & Hatt).
      exists M. split; [exact HM|]. split; [lra|]. split.
      * intros [|i] a' b'; simpl; [|apply Hub]. now intros [= <-] [= <-].
      * right. destruct Hatt as [->|(i & a' & b' & Ha & Hb & ->)].
        -- now exists 0%nat, a, b.
        -- now exists (S i), a', b'.
    + apply Rlt_b_false in E.
      destruct (IH rs c Hlen) as (M & HM & Hc & Hub & Hatt).
      exists M. split; [exact HM|]. split; [exact Hc|]. split.
      * intros [|i] a' b'; simpl; [|apply Hub]. intros [= <-] [= <-]. lra.
      * destruct Hatt as [->|(i & a' & b' & Ha & Hb & ->)]; [now left|right].
        now exists (S i), a', b'.
Qed.

(** On aligned non-empty columns the builtin [max] of the absolute
    differences is their greatest value. *)
Lemma py_max_aligned (hs rs : Series) :
  List.length hs = List.length rs -> hs <> [] ->
  exists M,
    py_max (map nf_abs (series_sub hs rs)) = Ok (Some M) /\
    (exists i a b, nth_error hs i = Some a /\ nth_error rs i = Some b /\
                   M = Rabs (a - b)) /\
    (forall i a b, nth_error hs i = Some a -> nth_error rs i = Some b ->
       Rabs (a - b) <= M).
Proof.
  destruct hs as [|a hs]; [contradiction|]. destruct rs as [|b rs]; [discriminate|].
  intros [= Hlen] _.
  destruct (max_from_aligned hs rs (Rabs (a - b)) Hlen) as (M & HM & Hc & Hub & Hatt).
  exists M. cbn [series_sub map nf_abs option_map py_max]. rewrite HM.
  split; [reflexivity|]. split.
  - destruct Hatt as [->|(i & a' & b' & Ha & Hb & ->)].
    + now exists 0%nat, a, b.
    + now exists (S i), a', b'.
  - intros [|i] a' b'; simpl; [|apply Hub]. now intros [= <-] [= <-].
Qed.

(** C3. For aligned, non-empty columns the tolerance [max_dev] of a series
    [h] with its curve [r] is [sqrt 2] times the greatest absolute
    difference [M] between the two columns over the rows, and this is the
    bound the loop body applies: a deviation it takes is at most
    [sqrt 2 * M]. *)
Theorem max_dev_sqrt2_times_worst_difference (training pattern : DataFrame)
    (h r : string) (hs rs : Series) :
  getitem training h = Ok hs ->
  getitem pattern r = Ok rs ->
  List.length hs = List.length rs ->
  hs <> [] ->
  exists M,
    max_dev training pattern h r = Ok (Some (sqrt 2 * M)) /\
    (exists i a b, nth_error hs i = Some a /\ nth_error rs i = Some b /\
                   M = Rabs (a - b)) /\
    (forall i a b, nth_error hs i = Some a -> nth_error rs i = Some b ->
       Rabs (a - b) <= M) /\
    (forall x_val y_val st st',
       consider training pattern x_val y_val st (h, r) = Ok st' ->
       st' = st \/ exists d, st' = (Some r, Dev d) /\ d <= sqrt 2 * M).
Proof.
  intros Hhs Hrs Hlen Hne.
  destruct (py_max_aligned hs rs Hlen Hne) as (M & HM & Hatt & Hub).
  assert (Hdev : max_dev_with (sqrt 2) training pattern h r = Ok (Some (sqrt 2 * M))).
  { unfold max_dev_with. rewrite Hhs, Hrs. simpl. rewrite HM. simpl.
    now rewrite Rmult_comm. }
  exists M. split; [exact Hdev|]. split; [exact Hatt|]. split; [exact Hub|].
  intros x_val y_val st st'. unfold consider, consider_with.
  destruct (negb (has_column pattern r)); [intros [= <-]; now left|].
  rewrite Hdev, Hrs. simpl.
  destruct (getitem pattern "x") as [xs|e]; [simpl|discriminate].
  destruct (loc_values xs rs x_val) as [|v rest]; [intros [= <-]; now left|].
  destruct (Rle_b (Rabs (y_val - v)) (sqrt 2 * M)) eqn:Ele; simpl;
    [|intros [= <-]; now left].
  apply Rle_b_true in Ele.
  destruct (lt_bound (Rabs (y_val - v)) (snd st)); intros [= <-]; [right|now left].
  now exists (Rabs (y_val - v)).
Qed.

(** ** A series identical to its curve *)

Lemma py_max_identical (s : Series) :
  s <> [] ->
  exists M, py_max (map nf_abs (series_sub s s)) = Ok (Some M) /\ M = 0.
Proof.
  intros Hne.
  destruct (py_max_aligned s s eq_refl Hne) as (M & HM & (i & a & b & Ha & Hb & HMab) & _).
  exists M. split; [exact HM|].
  assert (a = b) by congruence. subst b.
  rewrite HMab. replace (a - a) with 0 by lra. apply Rabs_R0.
Qed.

Lemma max_dev_identical (training pattern : DataFrame) (h r : string) (s : Series) :
  getitem training h = Ok s ->
  getitem pattern r = Ok s ->
  s <> [] ->
  max_dev training pattern h r = Ok (Some 0).
Proof.
  intros Hh Hr Hne.
  destruct (py_max_identical s) as [M [HM H0]]; [exact Hne|].
  unfold max_dev, max_dev_with. rewrite Hh, Hr. simpl. rewrite HM. simpl.
  subst M. now rewrite Rmult_0_l.
Qed.

(** C7, as the code has it. When the curve [r] assigned to a series [h] is
    identical to the series, [max_dev] of [h] is 0, and an observation whose
    [y] is the curve's value at the first row holding its [x] gets
    [delta_y = 0] and a curve: the curve of the first item, in iteration
    order, that is accepted with deviation 0.  That is [r] itself when no
    item before [(h, r)] is accepted with deviation 0. *)
Theorem identical_curve_zero_deviation (training pattern : DataFrame)
    (pre post : dict string) (h r : string) (s xs : Series) (x_val y_val : R) (i : nat) :
  gate_defined (sqrt 2) training pattern (pre ++ (h, r) :: post) ->
  getitem training h = Ok s ->
  getitem pattern r = Ok s ->
  getitem pattern "x" = Ok xs ->
  first_row_at xs x_val i ->
  nth_error s i = Some y_val ->
  max_dev training pattern h r = Ok (Some 0) /\
  exists f k h' r',
    classify_row training pattern (pre ++ (h, r) :: post) (x_val, y_val) = Ok f /\
    delta_y f = Dev 0 /\
    ideal_function f = Some r' /\
    nth_error (pre ++ (h, r) :: post) k = Some (h', r') /\
    accepted (sqrt 2) training pattern x_val y_val (h', r') 0 /\
    (forall k' item', (k' < k)%nat ->
       nth_error (pre ++ (h, r) :: post) k' = Some item' ->
       ~ accepted (sqrt 2) training pattern x_val y_val item' 0) /\
    ((forall item, In item pre ->
        ~ accepted (sqrt 2) training pattern x_val y_val item 0) ->
     r' = r).
Proof.
  intros Hgate Hh Hr Hxs Hi Hy.
  assert (Hne : s <> []) by (intros ->; destruct i; discriminate).
  pose proof (max_dev_identical training pattern h r s Hh Hr Hne) as Hdev.
  split; [exact Hdev|].
  assert (Hacc : accepted (sqrt 2) training pattern x_val y_val (h, r) 0).
  { exists xs, s, i, y_val, 0. simpl. repeat split; auto; try apply Hi.
    - replace (y_val - y_val) with 0 by lra. now rewrite Rabs_R0.
    - lra. }
  assert (Hat : nth_error (pre ++ (h, r) :: post) (List.length pre) = Some (h, r)).
  { rewrite nth_error_app2 by lia. now rewrite Nat.sub_diag. }
  destruct (classify_row_first_least (sqrt 2) training pattern
              (pre ++ (h, r) :: post) x_val y_val Hgate)
    as (f & Hf & _ & _ & [[_ Hnone]|(k & h' & r' & d & Hst & Hk & Hacc' & Hmin)]).
  { exfalso. apply (Hnone (h, r) 0); [|exact Hacc].
    apply in_app_iff. right. now left. }
  injection Hst as Hbest Hdelta.
  destruct (Hmin _ _ _ Hat Hacc) as [Hle Hlt].
  pose proof (accepted_nonneg _ _ _ _ _ _ _ Hacc') as Hpos.
  assert (d = 0) by lra. subst d.
  exists f, k, h', r'. repeat split; auto.
  - intros k' item' Hk' Hitem' Hz.
    destruct (Hmin _ _ _ Hitem' Hz) as [_ Hs]. specialize (Hs Hk'). lra.
  - intros Hpre.
    destruct (Nat.lt_trichotomy k (List.length pre)) as [Hc|[Hc|Hc]].
    + exfalso. rewrite nth_error_app1 in Hk by assumption.
      apply nth_error_In in Hk. now apply (Hpre _ Hk).
    + subst k. congruence.
    + specialize (Hlt Hc). lra.
Qed.

(** ** Tolerance monotonicity *)

Lemma candidate_tol_mono (tol1 tol2 : tolerance) (pattern : DataFrame) (x_val y_val : R)
    (item : string * string) :
  tol_le tol1 tol2 ->
  match candidate_tol tol1 pattern x_val y_val item,
        candidate_tol tol2 pattern x_val y_val item with
  | Ok (Some d1), Ok (Some d2) => d1 = d2
  | Ok None, Ok _ => True
  | Raise e1, Raise e2 => e1 = e2
  | _, _ => False
  end.
Proof.
  intros Hle. destruct item as [h r]. unfold candidate_tol.
  destruct (negb (has_column pattern r)); [exact I|].
  specialize (Hle h r).
  destruct (tol1 h r) as [[m1|]|e1], (tol2 h r) as [[m2|]|e2]; try contradiction; simpl.
  - destruct (getitem pattern "x") as [xs|e]; [simpl|reflexivity].
    destruct (getitem pattern r) as [ps|e]; [simpl|reflexivity].
    destruct (loc_values xs ps x_val) as [|v rest]; [exact I|].
    destruct (Rle_b (Rabs (y_val - v)) m1) eqn:E1.
    + apply Rle_b_true in E1.
      rewrite (proj2 (Rle_b_true (Rabs (y_val - v)) m2)) by lra. reflexivity.
    + destruct (Rle_b (Rabs (y_val - v)) m2); exact I.
  - destruct (getitem pattern "x") as [xs|e]; [simpl|reflexivity].
    destruct (getitem pattern r) as [ps|e]; [simpl|reflexivity].
    destruct (loc_values xs ps x_val) as [|v rest]; exact I.
  - exact Hle.
Qed.

Lemma accepts_mono (tol1 tol2 : tolerance) (pattern : DataFrame) (row : R * R)
    (item : string * string) :
  tol_le tol1 tol2 ->
  accepts tol1 pattern row item = true -> accepts tol2 pattern row item = true.
Proof.
  intros Hle. unfold accepts.
  pose proof (candidate_tol_mono tol1 tol2 pattern (fst row) (snd row) item Hle) as H.
  destruct (candidate_tol tol1 pattern (fst row) (snd row) item) as [[d1|]|e1];
    try discriminate.
  destruct (candidate_tol tol2 pattern (fst row) (snd row) item) as [[d2|]|e2];
    [reflexivity|contradiction|contradiction].
Qed.

Lemma filter_length_mono {A : Type} (p q : A -> bool) (l : list A) :
  (forall a, p a = true -> q a = true) ->
  (List.length (filter p l) <= List.length (filter q l))%nat.
Proof.
  intros Hpq. induction l as [|a l IH]; simpl; [lia|].
  destruct (p a) eqn:Ep.
  - rewrite (Hpq a Ep). simpl. lia.
  - destruct (q a); simpl; lia.
Qed.

Lemma update_coherent (st : option string * bound) (r : string) (offer : option R) :
  coherent st -> coherent (update st r offer).
Proof.
  intros Hc. destruct offer as [d|]; simpl; [|exact Hc].
  destruct (lt_bound d (snd st)); [|exact Hc]. right. eauto.
Qed.

Lemma scan_tol_mono (tol1 tol2 : tolerance) (pattern : DataFrame) (x_val y_val : R)
    (items : dict string) (st1 st2 st1' : option string * bound) :
  tol_le tol1 tol2 ->
  coherent st2 ->
  (fst st1 <> None -> fst st2 <> None) ->
  scan_tol tol1 pattern x_val y_val st1 items = Ok st1' ->
  exists st2',
    scan_tol tol2 pattern x_val y_val st2 items = Ok st2' /\
    (fst st1' <> None -> fst st2' <> None).
Proof.
  intros Hle. revert st1 st2.
  induction items as [|item rest IH]; intros st1 st2 Hc Himp; simpl.
  - intros [= <-]. eauto.
  - unfold consider_tol.
    pose proof (candidate_tol_mono tol1 tol2 pattern x_val y_val item Hle) as Hm.
    destruct (candidate_tol tol1 pattern x_val y_val item) as [o1|e1]; [|discriminate].
    destruct (candidate_tol tol2 pattern x_val y_val item) as [o2|e2];
      [|destruct o1; contradiction].
    simpl. apply IH; [now apply update_coherent|].
    destruct o1 as [d1|].
    + destruct o2 as [d2|]; [subst d2|contradiction]. intros _. simpl.
      destruct (lt_bound d1 (snd st2)) eqn:E; [discriminate|].
      destruct Hc as [->|(r & d & ->)]; [discriminate|discriminate].
    + simpl. intros H1. specialize (Himp H1).
      destruct o2 as [d2|]; simpl; [|exact Himp].
      destruct (lt_bound d2 (snd st2)); [discriminate|exact Himp].
Qed.

Lemma classify_tol_mono (tol1 tol2 : tolerance) (pattern : DataFrame)
    (best_patterns : dict string) (rows : list (R * R)) (fs1 : list forecast) :
  tol_le tol1 tol2 ->
  classify_tol tol1 pattern best_patterns rows = Ok fs1 ->
  exists fs2,
    classify_tol tol2 pattern best_patterns rows = Ok fs2 /\
    Forall2 still_assigned fs1 fs2.
Proof.
  intros Hle. revert fs1.
  induction rows as [|[x_val y_val] rest IH]; intros fs1; cbn [classify_tol].
  - intros [= <-]. exists []. split; [reflexivity|constructor].
  - unfold classify_row_tol.
    destruct (scan_tol tol1 pattern x_val y_val (None, PosInf) best_patterns)
      as [[best1 md1]|e] eqn:E1; [|discriminate].
    destruct (scan_tol_mono tol1 tol2 pattern x_val y_val best_patterns
                (None, PosInf) (None, PosInf) (best1, md1) Hle)
      as ([best2 md2] & E2 & Himp); [now left|auto|exact E1|].
    rewrite E2. simpl.
    destruct (classify_tol tol1 pattern best_patterns rest) as [fs|e]; [|discriminate].
    destruct (IH fs eq_refl) as (fs2 & -> & Hall). simpl.
    intros [= <-]. eexists. split; [reflexivity|].
    constructor; [|exact Hall]. unfold still_assigned. simpl. auto.
Qed.

Lemma accepted_count_mono (tol1 tol2 : tolerance) (pattern : DataFrame)
    (best_patterns : dict string) (rows : list (R * R)) :
  tol_le tol1 tol2 ->
  (accepted_count tol1 pattern best_patterns rows
   <= accepted_count tol2 pattern best_patterns rows)%nat.
Proof.
  intros Hle. unfold accepted_count. induction rows as [|row rest IH]; simpl; [lia|].
  pose proof (filter_length_mono (accepts tol1 pattern row) (accepts tol2 pattern row)
                best_patterns
                (fun item => accepts_mono tol1 tol2 pattern row item Hle)).
  lia.
Qed.

(** Scaling the margin up raises every tolerance. *)
Lemma max_from_abs_nonneg (s : list nanfloat) (c : nanfloat) :
  match c with Some v => 0 <= v | None => True end ->
  match max_from c (map nf_abs s) with Some m => 0 <= m | None => True end.
Proof.
  revert c. induction s as [|v s IH]; intros c Hc; simpl; [exact Hc|].
  apply IH. destruct (nf_gt (nf_abs v) c); [|exact Hc].
  destruct v; simpl; [apply Rabs_pos|exact I].
Qed.

Lemma max_dev_with_mono (k1 k2 : R) (training pattern : DataFrame) :
  k1 <= k2 ->
  tol_le (max_dev_with k1 training pattern) (max_dev_with k2 training pattern).
Proof.
  intros Hk h r. unfold max_dev_with.
  destruct (getitem training h) as [hs|e]; [simpl|reflexivity].
  destruct (getitem pattern r) as [rs|e]; [simpl|reflexivity].
  destruct (series_sub hs rs) as [|v s]; [reflexivity|]. simpl.
  pose proof (max_from_abs_nonneg s (nf_abs v)) as Hpos.
  destruct (max_from (nf_abs v) (map nf_abs s)) as [m|]; simpl; [|exact I].
  assert (0 <= m) by (apply Hpos; destruct v; simpl; [apply Rabs_pos|exact I]).
  nra.
Qed.

(** C8. For a fixed reference table, best-pattern map and set of
    observations: if every tolerance is raised or kept ([tol_le]), the
    number of accepted candidates does not go down, and a classification
    that returned still returns, with every observation that had a curve
    assigned still having one.  In particular this holds for the code's
    tolerances when the margin [sqrt 2] is scaled up. *)
Theorem tolerance_monotone (pattern : DataFrame) (best_patterns : dict string)
    (rows : list (R * R)) :
  (forall tol1 tol2,
     tol_le tol1 tol2 ->
     (accepted_count tol1 pattern best_patterns rows
      <= accepted_count tol2 pattern best_patterns rows)%nat /\
     forall fs1,
       classify_tol tol1 pattern best_patterns rows = Ok fs1 ->
       exists fs2,
         classify_tol tol2 pattern best_patterns rows = Ok fs2 /\
         Forall2 still_assigned fs1 fs2) /\
  (forall training margin,
     sqrt 2 <= margin ->
     (accepted_count (max_dev training pattern) pattern best_patterns rows
      <= accepted_count (max_dev_with margin training pattern) pattern
           best_patterns rows)%nat /\
     forall fs1,
       classify training pattern best_patterns rows = Ok fs1 ->
       exists fs2,
         classify_with margin training pattern best_patterns rows = Ok fs2 /\
         Forall2 still_assigned fs1 fs2).
Proof.
  split.
  - intros tol1 tol2 Hle. split.
    + now apply accepted_count_mono.
    + intros fs1. now apply classify_tol_mono.
  - intros training margin Hk.
    pose proof (max_dev_with_mono (sqrt 2) margin training pattern Hk) as Hle.
    split.
    + now apply accepted_count_mono.
    + intros fs1. unfold classify. rewrite !classify_with_tol.
      now apply classify_tol_mono.
Qed.

(** ** Missing tables and invalid input *)

Lemma plain_bind {A B : Type} (c : result A) (k : A -> result B) :
  plain c -> (forall a, plain (k a)) -> plain (rbind c k).
Proof. destruct c as [a|e]; simpl; auto. Qed.

Lemma plain_getitem (df : DataFrame) (col : string) : plain (getitem df col).
Proof.
  induction df as [|[name s] rest IH]; simpl; [exact I|].
  destruct (String.eqb col name); [exact I|exact IH].
Qed.

Lemma plain_select_best_patterns (training pattern : DataFrame) :
  plain (select_best_patterns training pattern).
Proof.
  unfold select_best_patterns. generalize (@nil (string * string)).
  induction (tl (columns training)) as [|w rest IH]; intros acc; simpl; [exact I|].
  apply plain_bind.
  - generalize (@nil (string * R)).
    induction (tl (columns pattern)) as [|c cols IHc]; intros errs; simpl; [exact I|].
    apply plain_bind; [|intros; apply IHc].
    unfold squared_error. apply plain_bind; [apply plain_getitem|intros].
    apply plain_bind; [apply plain_getitem|intros; exact I].
  - intros errors. apply plain_bind; [|intros; apply IH].
    destruct errors; exact I.
Qed.

Lemma plain_scan (margin : R) (training pattern : DataFrame) (x_val y_val : R)
    (items : dict string) (st : option string * bound) :
  plain (scan_with margin training pattern x_val y_val st items).
Proof.
  revert st. induction items as [|[h r] items IH]; intros st; cbn [scan_with]; [exact I|].
  apply plain_bind; [|intros; apply IH].
  unfold consider_with. destruct (negb (has_column pattern r)); [exact I|].
  apply plain_bind.
  - unfold max_dev_with. apply plain_bind; [apply plain_getitem|intros].
    apply plain_bind; [apply plain_getitem|intros].
    apply plain_bind; [|intros; exact I].
    destruct (map nf_abs _); exact I.
  - intros m. apply plain_bind; [apply plain_getitem|intros xs].
    apply plain_bind; [apply plain_getitem|intros ps].
    destruct (loc_values xs ps x_val); [exact I|].
    destruct (_ && _); exact I.
Qed.

Lemma plain_classify (margin : R) (training pattern : DataFrame)
    (best_patterns : dict string) (rows : list (R * R)) :
  plain (classify_with margin training pattern best_patterns rows).
Proof.
  induction rows as [|[x_val y_val] rest IH]; cbn [classify_with]; [exact I|].
  apply plain_bind; [|intros; apply plain_bind; [exact IH|intros; exact I]].
  unfold classify_row_with. apply plain_bind; [apply plain_scan|].
  intros [? ?]. exact I.
Qed.

(** C5, as the code has it. When the historical table or the reference table
    cannot be read, [identify_best_sales_patterns] returns the empty mapping
    without raising, and its last log record is the error "Missing
    historical or pattern sales data.". *)
Theorem identify_missing_table_empty_mapping (db : Database) :
  find_table db "historical_sales" = None \/ find_table db "sales_patterns" = None ->
  exists l, identify_best_sales_patterns db = (l ++ [MissingData], Ok []).
Proof.
  intros Hmiss. unfold identify_best_sales_patterns, read_sales_table.
  destruct (find_table db "historical_sales") as [t|],
           (find_table db "sales_patterns") as [p|]; simpl.
  - destruct Hmiss; discriminate.
  - now exists [ReadFailed "sales_patterns"].
  - now exists [ReadFailed "historical_sales"].
  - now exists [ReadFailed "historical_sales"; ReadFailed "sales_patterns"].
Qed.

(** C6, as the code has it. The [try] block raises [InvalidSalesDataError]
    exactly when the test frame lacks the column [x] or [y], or the
    historical or the reference table is missing.  The column check comes
    first: when it fails nothing has been read or logged before, no row is
    classified and nothing is written to [sales_forecast]. *)
Theorem predict_body_invalid_iff (db : Database) (test_sales_df : DataFrame) :
  ((exists msg, snd (predict_body db test_sales_df) = Raise (InvalidSalesDataError msg))
   <-> (has_column test_sales_df "x" = false \/ has_column test_sales_df "y" = false \/
        find_table db "sales_patterns" = None \/
        find_table db "historical_sales" = None)) /\
  (has_column test_sales_df "x" = false \/ has_column test_sales_df "y" = false ->
   predict_body db test_sales_df
   = ([], Raise (InvalidSalesDataError "Missing required columns 'x' or 'y'")) /\
   load_and_predict_weekly_sales db test_sales_df
   = mkOutcome None [ValidationError "Missing required columns 'x' or 'y'"]).
Proof.
  split.
  - unfold predict_body, identify_best_sales_patterns, read_sales_table.
    destruct (has_column test_sales_df "x") eqn:Ex; simpl;
      [|solve [split; [auto|intros _; eauto]]].
    destruct (has_column test_sales_df "y") eqn:Ey; simpl;
      [|solve [split; [auto|intros _; eauto]]].
    destruct (find_table db "historical_sales") as [t|],
             (find_table db "sales_patterns") as [p|]; simpl;
      try solve [split; [auto 6|intros _; eauto]].
    pose proof (plain_select_best_patterns t p) as Hsel.
    destruct (select_best_patterns t p) as [bp|e]; simpl.
    + pose proof (plain_getitem test_sales_df "x") as Hx.
      destruct (getitem test_sales_df "x") as [xs|e]; simpl.
      * pose proof (plain_getitem test_sales_df "y") as Hy.
        destruct (getitem test_sales_df "y") as [ys|e]; simpl.
        -- pose proof (plain_classify (sqrt 2) t p bp (combine xs ys)) as Hc.
           unfold classify.
           destruct (classify_with (sqrt 2) t p bp (combine xs ys)) as [fs|e]; simpl.
           ++ split; [intros [msg H]; discriminate|].
              intros [H|[H|[H|H]]]; discriminate.
           ++ split; [intros [msg [= ->]]; contradiction|].
              intros [H|[H|[H|H]]]; discriminate.
        -- split; [intros [msg [= ->]]; contradiction|].
           intros [H|[H|[H|H]]]; discriminate.
      * split; [intros [msg [= ->]]; contradiction|].
        intros [H|[H|[H|H]]]; discriminate.
    + split; [intros [msg [= ->]]; contradiction|].
      intros [H|[H|[H|H]]]; discriminate.
  - intros Hlack. unfold load_and_predict_weekly_sales, predict_body.
    assert (E : negb (has_column test_sales_df "x") || negb (has_column test_sales_df "y")
                = true).
    { destruct Hlack as [-> | ->]; [reflexivity|apply orb_true_r]. }
    rewrite E. split; reflexivity.
Qed.

(** ** The two stages composed *)

Lemma dict_set_in {V : Type} (d : dict V) (k k0 : string) (v v0 : V) :
  In (k0, v0) (dict_set d k v) -> In (k0, v0) d \/ (k0 = k /\ v0 = v).
Proof.
  induction d as [|[k' v'] rest IH]; simpl.
  - intros [[= <- <-]|[]]. now right.
  - destruct (String.eqb k k') eqn:E; simpl.
    + apply String.eqb_eq in E. subst k'.
      intros [[= <- <-]|H]; [now right|left; now right].
    + intros [H|H]; [left; now left|].
      destruct (IH H) as [H'|H']; [left; now right|now right].
Qed.

Lemma select_loop_items (training pattern : DataFrame) (week_cols : list string)
    (acc best_patterns : dict string) :
  select_loop training pattern week_cols acc = Ok best_patterns ->
  forall h r, In (h, r) best_patterns ->
    In (h, r) acc \/ (In h week_cols /\ best_for training pattern h = Ok r).
Proof.
  revert acc. induction week_cols as [|w rest IH]; intros acc; cbn [select_loop].
  - intros [= <-] h r H. now left.
  - destruct (errors_dict training pattern w (tl (columns pattern)) [])
      as [errors|e] eqn:Ee; [simpl|discriminate].
    destruct (py_min_key errors) as [best|e] eqn:Em; [simpl|discriminate].
    assert (Eb : best_for training pattern w = Ok best)
      by (unfold best_for; rewrite Ee; exact Em).
    intros Hloop h r Hin.
    destruct (IH _ Hloop h r Hin) as [H|[H1 H2]]; [|right; split; [now right|exact H2]].
    destruct (dict_set_in _ _ _ _ _ H) as [H'|[-> ->]]; [now left|].
    right. split; [now left|exact Eb].
Qed.

Lemma max_dev_with_defined (margin : R) (training pattern : DataFrame)
    (h r : string) (hs rs : Series) :
  getitem training h = Ok hs ->
  getitem pattern r = Ok rs ->
  hs <> [] ->
  exists m, max_dev_with margin training pattern h r = Ok m.
Proof.
  intros Hh Hr Hne. unfold max_dev_with. rewrite Hh, Hr. simpl.
  destruct hs as [|a hs]; [contradiction|].
  destruct rs as [|b rs]; simpl; eauto.
Qed.

Lemma select_best_patterns_total (training pattern : DataFrame) :
  NoDup (columns pattern) ->
  tl (columns pattern) <> [] ->
  exists best_patterns, select_best_patterns training pattern = Ok best_patterns.
Proof.
  intros Hnd Hne.
  set (best := fun h => match best_for training pattern h with
                        | Ok r => r | Raise _ => EmptyString end).
  destruct (select_loop_get training pattern best (tl (columns training)) [])
    as (bp & Hbp & _); [|now exists bp].
  intros h Hh. destruct (getitem_in training h (in_tl _ _ Hh)) as [hs Hhs].
  destruct (best_for_first_min training pattern h hs Hnd Hne Hhs)
    as (i & r & rs & Hr & _).
  unfold best. now rewrite Hr.
Qed.

Lemma classify_rows_total (training pattern : DataFrame) (best_patterns : dict string)
    (rows : list (R * R)) :
  gate_defined (sqrt 2) training pattern best_patterns ->
  exists fs,
    classify training pattern best_patterns rows = Ok fs /\
    map (fun f => (fx f, fy f)) fs = rows.
Proof.
  intros Hgate. unfold classify.
  induction rows as [|[x_val y_val] rest (fs & Hfs & Hmap)].
  - now exists [].
  - destruct (classify_row_first_least (sqrt 2) training pattern best_patterns
                x_val y_val Hgate) as (f & Hf & Hx & Hy & _).
    exists (f :: fs). cbn [classify_with]. rewrite Hf, Hfs. simpl.
    now rewrite Hx, Hy, Hmap.
Qed.

(** The mapping the selection returns lets the classifier run. *)
Lemma gate_defined_selected (margin : R) (training pattern : DataFrame)
    (best_patterns : dict string) :
  NoDup (columns pattern) ->
  tl (columns pattern) <> [] ->
  In "x" (columns pattern) ->
  (forall h hs, getitem training h = Ok hs -> hs <> []) ->
  select_best_patterns training pattern = Ok best_patterns ->
  gate_defined margin training pattern best_patterns.
Proof.
  intros Hnd Hne Hx Hrows Hsel. split; [exact Hx|].
  intros h r Hin Hr.
  destruct (select_loop_items _ _ _ _ _ Hsel h r Hin) as [[]|[Hh _]].
  destruct (getitem_in training h (in_tl _ _ Hh)) as [hs Hhs].
  destruct (getitem_in pattern r Hr) as [rs Hrs].
  eapply max_dev_with_defined; eauto.
Qed.

(** On float64 tables: with both tables in the database, a reference table
    that has its [x] column and at least one curve, historical columns that are not empty
    and a test frame with [x] and [y], the method stores the classification
    of the test rows under the selected patterns, one row per test row, in
    order, and logs the completion only. *)
Theorem load_and_predict_stores_forecast (db : Database) (training pattern : DataFrame)
    (test_sales_df : DataFrame) (xs ys : Series) :
  find_table db "historical_sales" = Some training ->
  find_table db "sales_patterns" = Some pattern ->
  NoDup (columns pattern) ->
  tl (columns pattern) <> [] ->
  In "x" (columns pattern) ->
  (forall h hs, getitem training h = Ok hs -> hs <> []) ->
  getitem test_sales_df "x" = Ok xs ->
  getitem test_sales_df "y" = Ok ys ->
  exists best_patterns fs,
    select_best_patterns training pattern = Ok best_patterns /\
    classify training pattern best_patterns (combine xs ys) = Ok fs /\
    map (fun f => (fx f, fy f)) fs = combine xs ys /\
    load_and_predict_weekly_sales db test_sales_df
    = mkOutcome (Some fs) [ForecastStored].
Proof.
  intros Ht Hp Hnd Hne Hx Hrows Hxs Hys.
  destruct (select_best_patterns_total training pattern Hnd Hne) as [bp Hbp].
  pose proof (gate_defined_selected (sqrt 2) training pattern bp
                Hnd Hne Hx Hrows Hbp) as Hgate.
  destruct (classify_rows_total training pattern bp (combine xs ys) Hgate)
    as (fs & Hfs & Hmap).
  exists bp, fs. split; [exact Hbp|]. split; [exact Hfs|]. split; [exact Hmap|].
  assert (Hcx : has_column test_sales_df "x" = true).
  { apply has_column_true. apply getitem_Ok_in in Hxs.
    unfold columns. now apply (in_map fst) in Hxs. }
  assert (Hcy : has_column test_sales_df "y" = true).
  { apply has_column_true. apply getitem_Ok_in in Hys.
    unfold columns. now apply (in_map fst) in Hys. }
  unfold load_and_predict_weekly_sales, predict_body, identify_best_sales_patterns,
    read_sales_table.
  rewrite Hcx, Hcy, Ht, Hp. simpl. rewrite Hbp. simpl.
  rewrite Hxs, Hys. simpl. rewrite Hfs. reflexivity.
Qed.

(** With an empty mapping every observation is left unassigned. *)
Lemma classify_empty_patterns (training pattern : DataFrame) (rows : list (R * R)) :
  classify training pattern [] rows
  = Ok (map (fun row => mkForecast (fst row) (snd row) PosInf None) rows).
Proof.
  unfold classify. induction rows as [|[x_val y_val] rest IH]; simpl; [reflexivity|].
  now rewrite IH.
Qed.

(** ** The scenarios of the specification, run on the model *)

Example scenario1_best_patterns : select_best_patterns hist1 ref1 = Ok patterns1.
Proof. unfold select_best_patterns, hist1, ref1. eval_real. reflexivity. Qed.

Example scenario1_max_dev : max_dev hist1 ref1 "h1" "r1" = Ok (Some 0).
Proof. unfold max_dev, max_dev_with, hist1, ref1. eval_real. same_reals. Qed.

Example scenario2_classify :
  classify hist1 ref1 patterns1 [(2, 20); (2, 21)]
  = Ok [mkForecast 2 20 (Dev 0) (Some "r1"); mkForecast 2 21 PosInf None].
Proof. unfold classify, hist1, ref1, patterns1. eval_real. same_reals. Qed.

Example scenario2_stored :
  load_and_predict_weekly_sales db1 test1
  = mkOutcome (Some [mkForecast 2 20 (Dev 0) (Some "r1"); mkForecast 2 21 PosInf None])
              [ForecastStored].
Proof.
  unfold load_and_predict_weekly_sales, predict_body, identify_best_sales_patterns,
    read_sales_table, db1, test1.
  cbn [find_table String.eqb Ascii.eqb Bool.eqb lbind lret lift has_column columns
       existsb map fst negb orb].
  rewrite scenario1_best_patterns. cbn [lbind lift app getitem String.eqb Ascii.eqb
    Bool.eqb combine].
  rewrite scenario2_classify. reflexivity.
Qed.

Example scenario3_no_reference_table :
  identify_best_sales_patterns db_no_ref
  = ([ReadFailed "sales_patterns"; MissingData], Ok []) /\
  classify hist1 ref1 [] [(2, 20); (2, 21)]
  = Ok [mkForecast 2 20 PosInf None; mkForecast 2 21 PosInf None].
Proof. split; reflexivity. Qed.

Example scenario4_missing_y :
  load_and_predict_weekly_sales db1 test_no_y
  = mkOutcome None [ValidationError "Missing required columns 'x' or 'y'"].
Proof. reflexivity. Qed.

Example tie_takes_first_column : select_best_patterns hist_tie ref_tie = Ok [("h1", "r1")].
Proof. unfold select_best_patterns, hist_tie, ref_tie. eval_real. reflexivity. Qed.

Example dup_max_dev : max_dev hist_dup ref_dup "h1" "r1" = Ok (Some (74 * sqrt 2)).
Proof. unfold max_dev, max_dev_with, hist_dup, ref_dup. eval_real. same_reals. Qed.

Example dup_classify :
  classify hist_dup ref_dup [("h1", "r1")] [(2, 21)]
  = Ok [mkForecast 2 21 (Dev 1) (Some "r1")].
Proof. unfold classify, hist_dup, ref_dup. eval_real. same_reals. Qed.

(** ** Inputs on which the specification and the code part ways *)

(** A reference table that is present but holds no curve: the selection
    raises [ValueError] out of [identify_best_sales_patterns]; no empty
    mapping is returned and no missing-data record is logged. *)
Lemma empty_reference_table_raises :
  find_table db_empty_ref "sales_patterns" = Some ref_empty /\
  tl (columns ref_empty) = [] /\
  identify_best_sales_patterns db_empty_ref
  = ([], Raise (ValueError "min() arg is an empty sequence")) /\
  forall l, identify_best_sales_patterns db_empty_ref <> (l, Ok []).
Proof.
  split; [reflexivity|]. split; [reflexivity|]. split; [reflexivity|].
  intros l. discriminate.
Qed.

(** Observations with both fields, reference table missing:
    [InvalidSalesDataError] is raised all the same. *)
Lemma missing_table_raises_invalid :
  has_column test1 "x" = true /\
  has_column test1 "y" = true /\
  predict_body db_no_ref test1
  = ([ReadFailed "sales_patterns"; MissingData; ReadFailed "sales_patterns"],
     Raise (InvalidSalesDataError "Missing pattern/historical data.")).
Proof. repeat split. Qed.

(** The second series is identical to its curve [r2] and the observation lies
    on [r2], yet the curve assigned is [r1], offered first by the first
    series with the same deviation 0. *)
Lemma earlier_series_keeps_zero_tie :
  select_best_patterns hist2 ref2 = Ok patterns2 /\
  getitem hist2 "h2" = Ok [12; 20] /\
  getitem ref2 "r2" = Ok [12; 20] /\
  getitem ref2 "x" = Ok [1; 2] /\
  classify hist2 ref2 patterns2 [(2, 20)] = Ok [mkForecast 2 20 (Dev 0) (Some "r1")].
Proof.
  split; [|split; [reflexivity|split; [reflexivity|split; [reflexivity|]]]].
  - unfold select_best_patterns, hist2, ref2. eval_real. reflexivity.
  - unfold classify, hist2, ref2, patterns2. eval_real. same_reals.
Qed.

(** ** The theorems applied to concrete tables *)

Lemma columns_ref_tie_nodup : NoDup (columns ref_tie).
Proof.
  unfold ref_tie. simpl. repeat constructor; simpl; intuition discriminate.
Defined.

Lemma gate_defined_scenario1 : gate_defined (sqrt 2) hist1 ref1 patterns1.
Proof.
  split; [simpl; auto|].
  intros h r [[= <- <-]|[]] _. eexists. reflexivity.
Defined.

Lemma first_row_example : first_row_at [1; 2; 3] 2 1.
Proof.
  split; [reflexivity|].
  intros [|j] Hj; [|lia]. simpl. intros [= H]. lra.
Defined.

Lemma first_row_dup_example : first_row_at [1; 2; 2] 2 1.
Proof.
  split; [reflexivity|].
  intros [|j] Hj; [|lia]. simpl. intros [= H]. lra.
Defined.


Lemma classify_row_first_accepted_least_witness :
  (exists f,
     classify_row hist1 ref1 patterns1 (2, 20) = Ok f /\
     fx f = 2 /\ fy f = 20 /\
     first_least (sqrt 2) hist1 ref1 2 20 patterns1 (ideal_function f, delta_y f)) /\
  (forall item d,
     consider hist1 ref1 2 20 (None, PosInf) item = Ok (Some (snd item), Dev d)
     <-> accepted (sqrt 2) hist1 ref1 2 20 item d).
Proof.
  apply (classify_row_first_accepted_least hist1 ref1 patterns1 2 20).
  exact gate_defined_scenario1.
Defined.

Lemma max_dev_sqrt2_times_worst_difference_witness :
  exists M,
    max_dev hist1 ref1 "h1" "r2" = Ok (Some (sqrt 2 * M)) /\
    (exists i a b, nth_error [10; 20; 30] i = Some a /\ nth_error [0; 0; 0] i = Some b /\
                   M = Rabs (a - b)) /\
    (forall i a b, nth_error [10; 20; 30] i = Some a -> nth_error [0; 0; 0] i = Some b ->
       Rabs (a - b) <= M) /\
    (forall x_val y_val st st',
       consider hist1 ref1 x_val y_val st ("h1", "r2") = Ok st' ->
       st' = st \/ exists d, st' = (Some "r2", Dev d) /\ d <= sqrt 2 * M).
Proof.
  apply (max_dev_sqrt2_times_worst_difference hist1 ref1 "h1" "r2"
           [10; 20; 30] [0; 0; 0]).
  - reflexivity.
  - reflexivity.
  - reflexivity.
  - discriminate.
Defined.

Lemma classify_one_row_per_observation_witness :
  exists fs,
    classify hist1 ref1 patterns1 [(2, 20); (2, 21)] = Ok fs /\
    map (fun f => (fx f, fy f)) fs = [(2, 20); (2, 21)] /\
    List.length fs = 2%nat /\
    forall f, In f fs ->
      (forall item d, In item patterns1 ->
         ~ accepted (sqrt 2) hist1 ref1 (fx f) (fy f) item d) ->
      ideal_function f = None /\ delta_y f = PosInf.
Proof.
  apply (classify_one_row_per_observation hist1 ref1 patterns1 [(2, 20); (2, 21)]).
  exact gate_defined_scenario1.
Defined.

Lemma identify_missing_table_empty_mapping_witness :
  exists l, identify_best_sales_patterns db_no_ref = (l ++ [MissingData], Ok []).
Proof.
  apply (identify_missing_table_empty_mapping db_no_ref).
  right. reflexivity.
Defined.

Lemma predict_body_invalid_iff_witness :
  predict_body db1 test_no_y
  = ([], Raise (InvalidSalesDataError "Missing required columns 'x' or 'y'")) /\
  load_and_predict_weekly_sales db1 test_no_y
  = mkOutcome None [ValidationError "Missing required columns 'x' or 'y'"].
Proof.
  apply (proj2 (predict_body_invalid_iff db1 test_no_y)).
  right. reflexivity.
Defined.

Lemma identical_curve_zero_deviation_witness :
  max_dev hist1 ref1 "h1" "r1" = Ok (Some 0) /\
  exists f k h' r',
    classify_row hist1 ref1 ([] ++ ("h1", "r1") :: []) (2, 20) = Ok f /\
    delta_y f = Dev 0 /\
    ideal_function f = Some r' /\
    nth_error ([] ++ ("h1", "r1") :: []) k = Some (h', r') /\
    accepted (sqrt 2) hist1 ref1 2 20 (h', r') 0 /\
    (forall k' item', (k' < k)%nat ->
       nth_error ([] ++ ("h1", "r1") :: []) k' = Some item' ->
       ~ accepted (sqrt 2) hist1 ref1 2 20 item' 0) /\
    ((forall item, In item [] -> ~ accepted (sqrt 2) hist1 ref1 2 20 item 0) ->
     r' = "r1").
Proof.
  apply (identical_curve_zero_deviation hist1 ref1 [] [] "h1" "r1"
           [10; 20; 30] [1; 2; 3] 2 20 1).
  - exact gate_defined_scenario1.
  - reflexivity.
  - reflexivity.
  - reflexivity.
  - exact first_row_example.
  - reflexivity.
Defined.

Lemma tolerance_monotone_witness :
  (accepted_count (max_dev hist1 ref1) ref1 patterns1 rows1
   <= accepted_count (max_dev_with 2 hist1 ref1) ref1 patterns1 rows1)%nat /\
  forall fs1,
    classify hist1 ref1 patterns1 rows1 = Ok fs1 ->
    exists fs2,
      classify_with 2 hist1 ref1 patterns1 rows1 = Ok fs2 /\
      Forall2 still_assigned fs1 fs2.
Proof.
  apply (proj2 (tolerance_monotone ref1 patterns1 rows1) hist1 2).
  apply Rlt_le. exact (proj2 sqrt2_bounds).
Defined.

Lemma consider_uses_first_matching_row_witness :
  hd_error (loc_values [1; 2; 2] [10; 20; 99] 2) = Some 20 /\
  (forall ps', firstn 2 ps' = firstn 2 [10; 20; 99] ->
     hd_error (loc_values [1; 2; 2] ps' 2) = Some 20) /\
  consider hist_dup ref_dup 2 21 (None, PosInf) ("h1", "r1")
  = Ok (if le_nf (Rabs (21 - 20)) (Some (74 * sqrt 2))
           && lt_bound (Rabs (21 - 20)) (snd (@None string, PosInf))
        then (Some "r1", Dev (Rabs (21 - 20)))
        else (None, PosInf)).
Proof.
  apply (consider_uses_first_matching_row hist_dup ref_dup "h1" "r1"
           [1; 2; 2] [10; 20; 99] 2 21 20 1 (Some (74 * sqrt 2)) (None, PosInf)).
  - reflexivity.
  - reflexivity.
  - exact first_row_dup_example.
  - reflexivity.
  - exact dup_max_dev.
Defined.

Lemma classify_skips_unknown_curve_witness :
  (forall x_val y_val st, consider hist1 ref1 x_val y_val st ("h1", "r9") = Ok st) /\
  (forall pre post rows,
     classify hist1 ref1 (pre ++ ("h1", "r9") :: post) rows
     = classify hist1 ref1 (pre ++ post) rows).
Proof.
  apply (classify_skips_unknown_curve hist1 ref1 "h1" "r9").
  simpl. intuition discriminate.
Defined.

(** * Further properties of the selection *)

Lemma error_sum_nonneg (hs rs : Series) : 0 <= error_sum hs rs.
Proof.
  revert rs. induction hs as [|h hs IH]; intros [|r rs]; simpl; try lra.
  specialize (IH rs). pose proof (Rle_0_sqr (h - r)) as Hsq. unfold Rsqr in Hsq. lra.
Qed.

Lemma error_sum_zero_iff (hs rs : Series) :
  List.length hs = List.length rs ->
  (error_sum hs rs = 0 <-> hs = rs).
Proof.
  revert rs. induction hs as [|h hs IH]; intros [|r rs] Hlen; try discriminate.
  - split; reflexivity.
  - injection Hlen as Hlen. specialize (IH rs Hlen).
    pose proof (error_sum_nonneg hs rs) as Hpos.
    pose proof (Rle_0_sqr (h - r)) as Hsq. unfold Rsqr in Hsq. simpl. split.
    + intros H0.
      assert (Hh : (h - r) * (h - r) = 0) by lra.
      apply Rmult_integral in Hh.
      assert (h = r) by (destruct Hh; lra). subst r.
      f_equal. apply IH. lra.
    + intros [= -> Heq]. apply IH in Heq. rewrite Heq. lra.
Qed.

(** On float64 columns the squared error of a series against a curve is
    defined whenever both columns exist, is never negative, and on columns of equal length
    it is zero exactly when the two columns are equal. *)
Theorem squared_error_zero_iff_equal (training pattern : DataFrame)
    (h r : string) (hs rs : Series) :
  getitem training h = Ok hs ->
  getitem pattern r = Ok rs ->
  exists e,
    squared_error training pattern h r = Ok e /\
    0 <= e /\
    (List.length hs = List.length rs -> (e = 0 <-> hs = rs)).
Proof.
  intros Hh Hr. exists (error_sum hs rs). unfold squared_error.
  rewrite Hh, Hr. simpl. rewrite np_sum_error_sum.
  split; [reflexivity|]. split; [apply error_sum_nonneg|].
  apply error_sum_zero_iff.
Qed.

Lemma dict_set_keys {V : Type} (d : dict V) (k k0 : string) (v : V) :
  In k0 (map fst (dict_set d k v)) -> In k0 (map fst d) \/ k0 = k.
Proof.
  induction d as [|[k' v'] rest IH]; simpl.
  - intros [<-|[]]. now right.
  - destruct (String.eqb k k') eqn:E; simpl.
    + intros H. now left.
    + intros [H|H]; [left; now left|].
      destruct (IH H) as [H'|H']; [left; now right|now right].
Qed.

Lemma errors_dict_keys (training pattern : DataFrame) (h : string)
    (cols : list string) (acc errs : dict R) :
  errors_dict training pattern h cols acc = Ok errs ->
  forall k, In k (map fst errs) -> In k (map fst acc) \/ In k cols.
Proof.
  revert acc. induction cols as [|c cols IH]; intros acc; simpl.
  - intros [= <-] k Hk. now left.
  - destruct (squared_error training pattern h c) as [e|e]; [simpl|discriminate].
    intros Herr k Hk. destruct (IH _ Herr k Hk) as [H|H]; [|right; now right].
    destruct (dict_set_keys _ _ _ _ H) as [H'| ->]; [now left|right; now left].
Qed.

Lemma min_from_in (cur : string * R) (items : list (string * R)) :
  In (min_from cur items) (map fst (cur :: items)).
Proof.
  destruct (min_from_first_min cur items) as (i & v & Hi & _).
  apply nth_error_In in Hi. now apply (in_map fst) in Hi.
Qed.

Lemma best_for_in_columns (training pattern : DataFrame) (h r : string) :
  best_for training pattern h = Ok r -> In r (tl (columns pattern)).
Proof.
  unfold best_for.
  destruct (errors_dict training pattern h (tl (columns pattern)) [])
    as [errs|e] eqn:Ee; [simpl|discriminate].
  destruct errs as [|kv rest]; [discriminate|]. simpl. intros [= <-].
  destruct (errors_dict_keys _ _ _ _ _ _ Ee (min_from kv rest) (min_from_in kv rest))
    as [[]|H].
  exact H.
Qed.

Lemma select_loop_keys (training pattern : DataFrame) (week_cols : list string)
    (acc best_patterns : dict string) :
  NoDup week_cols ->
  (forall h, In h week_cols -> ~ In h (map fst acc)) ->
  select_loop training pattern week_cols acc = Ok best_patterns ->
  map fst best_patterns = map fst acc ++ week_cols.
Proof.
  revert acc. induction week_cols as [|w rest IH]; intros acc Hnd Hfresh;
    cbn [select_loop].
  - intros [= <-]. now rewrite app_nil_r.
  - destruct (errors_dict training pattern w (tl (columns pattern)) [])
      as [errors|e]; [simpl|discriminate].
    destruct (py_min_key errors) as [best|e]; [simpl|discriminate].
    inversion Hnd as [|? ? Hw Hrest]; subst.
    rewrite dict_set_fresh by (apply Hfresh; now left).
    intros Hloop. rewrite (IH _ Hrest) with (2 := Hloop).
    + rewrite map_app, <- app_assoc. reflexivity.
    + intros h Hh. rewrite map_app, in_app_iff. simpl.
      intros [H|[<-|[]]]; [|contradiction].
      apply (Hfresh h); [now right|assumption].
Qed.

(** X1. With distinct historical column names, the mapping returned by the
    selection has exactly one entry per historical series, in column order,
    and every value is one of the reference table's curve columns: in the
    method, the guard that passes over unknown curves never fires. *)
Theorem select_best_patterns_keys_values (training pattern : DataFrame)
    (best_patterns : dict string) :
  NoDup (tl (columns training)) ->
  select_best_patterns training pattern = Ok best_patterns ->
  map fst best_patterns = tl (columns training) /\
  forall h r, In (h, r) best_patterns ->
    In r (tl (columns pattern)) /\ has_column pattern r = true.
Proof.
  intros Hnd Hsel. split.
  - apply (select_loop_keys training pattern _ [] best_patterns Hnd); auto.
  - intros h r Hin.
    destruct (select_loop_items _ _ _ _ _ Hsel h r Hin) as [[]|[_ Hbest]].
    apply best_for_in_columns in Hbest. split; [exact Hbest|].
    apply has_column_true. now apply in_tl.
Qed.

Lemma select_best_patterns_no_curve_eq (training pattern : DataFrame) :
  tl (columns pattern) = [] ->
  select_best_patterns training pattern
  = match tl (columns training) with
    | [] => Ok []
    | _ :: _ => Raise (ValueError "min() arg is an empty sequence")
    end.
Proof.
  intros Hp. unfold select_best_patterns.
  destruct (tl (columns training)) as [|w rest]; [reflexivity|].
  cbn [select_loop]. rewrite Hp. reflexivity.
Qed.

(** X4. When the reference table has no curve column, the selection returns
    the empty mapping if the historical table has no series column either,
    and otherwise raises the [ValueError] of [min] on an empty sequence; the
    method [identify_best_sales_patterns] lets it through without a log
    record. *)
Theorem select_best_patterns_no_curve (db : Database) (training pattern : DataFrame) :
  find_table db "historical_sales" = Some training ->
  find_table db "sales_patterns" = Some pattern ->
  tl (columns pattern) = [] ->
  select_best_patterns training pattern
  = match tl (columns training) with
    | [] => Ok []
    | _ :: _ => Raise (ValueError "min() arg is an empty sequence")
    end /\
  identify_best_sales_patterns db = ([], select_best_patterns training pattern).
Proof.
  intros Ht Hp Hcurves. split.
  - now apply select_best_patterns_no_curve_eq.
  - unfold identify_best_sales_patterns, read_sales_table. rewrite Ht, Hp. simpl.
    destruct (select_best_patterns training pattern); reflexivity.
Qed.

Lemma error_sum_nil_l (rs : Series) : error_sum [] rs = 0.
Proof. reflexivity. Qed.

(** On float64 columns a historical series that is identical to a reference
    curve [r], and to no curve standing before [r] in the reference table, is mapped to
    [r]. *)
Theorem select_best_patterns_identical_curve (training pattern : DataFrame)
    (h r : string) (s : Series) (i : nat) :
  NoDup (columns pattern) ->
  In h (tl (columns training)) ->
  getitem training h = Ok s ->
  nth_error (tl (columns pattern)) i = Some r ->
  getitem pattern r = Ok s ->
  (forall j r' rs', (j < i)%nat ->
     nth_error (tl (columns pattern)) j = Some r' ->
     getitem pattern r' = Ok rs' ->
     List.length rs' = List.length s /\ rs' <> s) ->
  exists best_patterns,
    select_best_patterns training pattern = Ok best_patterns /\
    dict_get best_patterns h = Some r.
Proof.
  intros Hnd Hh Hs Hi Hr Hbefore.
  assert (Hne : tl (columns pattern) <> []) by (intros E; rewrite E in Hi; destruct i; discriminate).
  set (best := fun h => match best_for training pattern h with
                        | Ok r => r | Raise _ => EmptyString end).
  destruct (select_loop_get training pattern best (tl (columns training)) [])
    as (bp & Hbp & Hget).
  { intros h' Hh'. destruct (getitem_in training h' (in_tl _ _ Hh')) as [hs Hhs].
    destruct (best_for_first_min training pattern h' hs Hnd Hne Hhs)
      as (i' & r' & rs' & Hr' & _).
    unfold best. now rewrite Hr'. }
  exists bp. split; [exact Hbp|].
  rewrite (proj1 (Hget h) Hh). f_equal. unfold best.
  destruct (best_for_first_min training pattern h s Hnd Hne Hs)
    as (i0 & r0 & rs0 & -> & Hi0 & Hrs0 & Hmin).
  destruct (Hmin i r s Hi Hr) as [Hle Hlt].
  assert (Hz : error_sum s s = 0) by (now apply error_sum_zero_iff).
  pose proof (error_sum_nonneg s rs0) as Hpos.
  destruct (Nat.lt_trichotomy i0 i) as [Hc|[Hc|Hc]].
  - exfalso. destruct (Hbefore i0 r0 rs0 Hc Hi0 Hrs0) as [Hlen Hdiff].
    apply Hdiff. symmetry. apply error_sum_zero_iff; [now symmetry|lra].
  - subst i0. congruence.
  - specialize (Hlt Hc). lra.
Qed.

(** X5. A historical series without rows has squared error 0 against every
    curve, so it is mapped to the first curve column of the reference
    table. *)
Theorem select_best_patterns_empty_series (training pattern : DataFrame)
    (h c0 : string) (rest : list string) :
  NoDup (columns pattern) ->
  tl (columns pattern) = c0 :: rest ->
  In h (tl (columns training)) ->
  getitem training h = Ok [] ->
  exists best_patterns,
    select_best_patterns training pattern = Ok best_patterns /\
    dict_get best_patterns h = Some c0.
Proof.
  intros Hnd Hcols Hh Hs.
  assert (Hne : tl (columns pattern) <> []) by (rewrite Hcols; discriminate).
  set (best := fun h => match best_for training pattern h with
                        | Ok r => r | Raise _ => EmptyString end).
  destruct (select_loop_get training pattern best (tl (columns training)) [])
    as (bp & Hbp & Hget).
  { intros h' Hh'. destruct (getitem_in training h' (in_tl _ _ Hh')) as [hs Hhs].
    destruct (best_for_first_min training pattern h' hs Hnd Hne Hhs)
      as (i' & r' & rs' & Hr' & _).
    unfold best. now rewrite Hr'. }
  exists bp. split; [exact Hbp|].
  rewrite (proj1 (Hget h) Hh). f_equal. unfold best.
  destruct (best_for_first_min training pattern h [] Hnd Hne Hs)
    as (i0 & r0 & rs0 & -> & Hi0 & Hrs0 & Hmin).
  destruct i0 as [|i0]; [rewrite Hcols in Hi0; simpl in Hi0; congruence|].
  exfalso.
  assert (Hc0 : In c0 (columns pattern)) by (apply in_tl; rewrite Hcols; now left).
  destruct (getitem_in pattern c0 Hc0) as [cs Hcs].
  assert (H0 : nth_error (tl (columns pattern)) 0 = Some c0) by now rewrite Hcols.
  destruct (Hmin 0%nat c0 cs H0 Hcs) as [_ Hlt].
  specialize (Hlt (Nat.lt_0_succ i0)). rewrite !error_sum_nil_l in Hlt. lra.
Qed.

(** * Further properties of the classification *)

Lemma scan_first_least_ok (margin : R) (training pattern : DataFrame) (x_val y_val : R)
    (items seen : dict string) (st st' : option string * bound) :
  first_least margin training pattern x_val y_val seen st ->
  scan_with margin training pattern x_val y_val st items = Ok st' ->
  first_least margin training pattern x_val y_val (seen ++ items) st'.
Proof.
  revert seen st. induction items as [|item rest IH]; intros seen st Hinv;
    cbn [scan_with].
  - intros [= <-]. now rewrite app_nil_r.
  - rewrite consider_with_tol.
    destruct (consider_tol (max_dev_with margin training pattern) pattern
                x_val y_val st item) as [st1|e] eqn:Estep; [simpl|discriminate].
    intros Hscan.
    pose proof (first_least_step margin training pattern x_val y_val
                  seen st st1 item Hinv Estep) as Hinv1.
    specialize (IH (seen ++ [item]) st1 Hinv1 Hscan).
    now rewrite <- app_assoc in IH.
Qed.

Lemma classify_with_first_least (margin : R) (training pattern : DataFrame)
    (best_patterns : dict string) (rows : list (R * R)) (fs : list forecast) :
  classify_with margin training pattern best_patterns rows = Ok fs ->
  map (fun f => (fx f, fy f)) fs = rows /\
  Forall (fun f => first_least margin training pattern (fx f) (fy f) best_patterns
                     (ideal_function f, delta_y f)) fs.
Proof.
  revert fs. induction rows as [|[x_val y_val] rest IH]; intros fs;
    cbn [classify_with].
  - intros [= <-]. split; [reflexivity|constructor].
  - unfold classify_row_with.
    destruct (scan_with margin training pattern x_val y_val (None, PosInf)
                best_patterns) as [[best md]|e] eqn:Escan; [simpl|discriminate].
    destruct (classify_with margin training pattern best_patterns rest)
      as [fs'|e]; [simpl|discriminate].
    intros [= <-]. destruct (IH fs' eq_refl) as [Hmap Hall]. simpl. split.
    + now rewrite Hmap.
    + constructor; [|exact Hall]. simpl.
      apply (scan_first_least_ok margin training pattern x_val y_val
               best_patterns [] (None, PosInf) (best, md)); [|exact Escan].
      apply first_least_start.
Qed.

Lemma accepted_in_columns (margin : R) (training pattern : DataFrame) (x_val y_val : R)
    (item : string * string) (d : R) :
  accepted margin training pattern x_val y_val item d ->
  In (snd item) (columns pattern) /\
  exists xs, getitem pattern "x" = Ok xs /\ In x_val xs.
Proof.
  intros (xs & ps & i & v & m & Hxs & Hps & [Hi _] & _). split.
  - apply getitem_Ok_in in Hps. unfold columns. now apply (in_map fst) in Hps.
  - exists xs. split; [exact Hxs|]. eapply nth_error_In; eauto.
Qed.

(** X6. Every row that [classify] returns belongs to an observation and is
    of one of two shapes: not assigned, with [delta_y = inf]; or assigned
    to a curve [r] with a finite [delta_y = d >= 0], where [r] is the value of
    an item [(h, r)] of [best_patterns], a column of the reference table,
    and accepted for the observation with deviation [d] (so [d] is within
    the tolerance of [h]).  [delta_y] is [inf] exactly when no curve is
    assigned. *)
Theorem classify_rows_well_formed (training pattern : DataFrame)
    (best_patterns : dict string) (rows : list (R * R)) (fs : list forecast) :
  classify training pattern best_patterns rows = Ok fs ->
  forall f, In f fs ->
    In (fx f, fy f) rows /\
    ((ideal_function f = None /\ delta_y f = PosInf) \/
     (exists h r d,
        ideal_function f = Some r /\ delta_y f = Dev d /\ 0 <= d /\
        In (h, r) best_patterns /\ In r (columns pattern) /\
        accepted (sqrt 2) training pattern (fx f) (fy f) (h, r) d)).
Proof.
  intros Hc f Hf. unfold classify in Hc.
  destruct (classify_with_first_least _ _ _ _ _ _ Hc) as [Hmap Hall].
  split.
  - rewrite <- Hmap. now apply (in_map (fun f => (fx f, fy f))).
  - rewrite Forall_forall in Hall.
    destruct (Hall f Hf) as [[[= -> ->] _]|(k & h & r & d & [= -> ->] & Hk & Hacc & _)];
      [now left|right].
    exists h, r, d. repeat split; auto.
    + eapply accepted_nonneg; eauto.
    + eapply nth_error_In; eauto.
    + apply (accepted_in_columns _ _ _ _ _ _ _ Hacc).
Qed.

(** X7. [classify] never assigns a curve to an observation whose x is not a
    value of the reference table's [x] column (in particular when the table
    has no such column). *)
Theorem classify_assigns_only_on_grid (training pattern : DataFrame)
    (best_patterns : dict string) (rows : list (R * R)) (fs : list forecast) :
  classify training pattern best_patterns rows = Ok fs ->
  forall f, In f fs -> ideal_function f <> None ->
    exists xs, getitem pattern "x" = Ok xs /\ In (fx f) xs.
Proof.
  intros Hc f Hf Hassigned. unfold classify in Hc.
  destruct (classify_with_first_least _ _ _ _ _ _ Hc) as [_ Hall].
  rewrite Forall_forall in Hall.
  destruct (Hall f Hf) as [[[= E _] _]|(k & h & r & d & _ & _ & Hacc & _)];
    [contradiction|].
  apply (accepted_in_columns _ _ _ _ _ _ _ Hacc).
Qed.

(** X8. Observations are classified independently of each other: the
    classification of two batches in a row is the classification of the
    first followed by that of the second, and it raises where the first of
    them raises. *)
Theorem classify_app (training pattern : DataFrame) (best_patterns : dict string)
    (rows1 rows2 : list (R * R)) :
  classify training pattern best_patterns (rows1 ++ rows2)
  = (fs1 <- classify training pattern best_patterns rows1 ;;
     fs2 <- classify training pattern best_patterns rows2 ;;
     Ok (fs1 ++ fs2))%result.
Proof.
  unfold classify. induction rows1 as [|row rest IH]; cbn [app classify_with].
  - simpl. destruct (classify_with _ _ _ _ rows2); reflexivity.
  - destruct (classify_row_with (sqrt 2) training pattern best_patterns row)
      as [f|e]; [simpl|reflexivity].
    rewrite IH.
    destruct (classify_with (sqrt 2) training pattern best_patterns rest)
      as [fs1|e]; [simpl|reflexivity].
    destruct (classify_with (sqrt 2) training pattern best_patterns rows2);
      reflexivity.
Qed.

(** * Further properties of the method *)

(** X11. Both tables present, the reference table without any curve column,
    the historical table with at least one series: the forecast is given up
    with the [ValueError] of [min], logged as a processing error, and
    nothing is stored. *)
Theorem load_and_predict_no_curve (db : Database) (training pattern : DataFrame)
    (test_sales_df : DataFrame) :
  find_table db "historical_sales" = Some training ->
  find_table db "sales_patterns" = Some pattern ->
  tl (columns pattern) = [] ->
  tl (columns training) <> [] ->
  has_column test_sales_df "x" = true ->
  has_column test_sales_df "y" = true ->
  load_and_predict_weekly_sales db test_sales_df
  = mkOutcome None [ProcessingError (ValueError "min() arg is an empty sequence")].
Proof.
  intros Ht Hp Hcurves Hseries Hx Hy.
  pose proof (select_best_patterns_no_curve_eq training pattern Hcurves) as Hsel.
  destruct (tl (columns training)) as [|w rest]; [contradiction|].
  unfold load_and_predict_weekly_sales, predict_body, identify_best_sales_patterns,
    read_sales_table.
  rewrite Hx, Hy, Ht, Hp. simpl. rewrite Hsel. reflexivity.
Qed.

Lemma classify_first_item_empty (training pattern : DataFrame) (h r : string)
    (items : dict string) (row : R * R) (rows : list (R * R)) :
  has_column pattern r = true ->
  getitem training h = Ok [] ->
  getitem pattern r = Ok [] ->
  classify training pattern ((h, r) :: items) (row :: rows)
  = Raise (ValueError "max() arg is an empty sequence").
Proof.
  intros Hcol Hh Hr. destruct row as [x_val y_val].
  unfold classify. cbn [classify_with]. unfold classify_row_with.
  cbn [scan_with]. unfold consider_with, max_dev_with.
  rewrite Hcol, Hh, Hr. reflexivity.
Qed.

(** X12. Both tables present with their columns but without any row, at
    least one series and one curve, and a test frame with at least one row:
    the tolerance of the first series is the [max] of an empty sequence, so
    the forecast is given up with that [ValueError], logged as a processing
    error, and nothing is stored. *)
Theorem load_and_predict_zero_rows (db : Database) (training pattern : DataFrame)
    (test_sales_df : DataFrame) (xs ys : Series) :
  find_table db "historical_sales" = Some training ->
  find_table db "sales_patterns" = Some pattern ->
  NoDup (columns pattern) ->
  NoDup (tl (columns training)) ->
  tl (columns pattern) <> [] ->
  tl (columns training) <> [] ->
  (forall c s, In (c, s) training -> s = []) ->
  (forall c s, In (c, s) pattern -> s = []) ->
  getitem test_sales_df "x" = Ok xs ->
  getitem test_sales_df "y" = Ok ys ->
  combine xs ys <> [] ->
  load_and_predict_weekly_sales db test_sales_df
  = mkOutcome None [ProcessingError (ValueError "max() arg is an empty sequence")].
Proof.
  intros Ht Hp Hndp Hndt Hcurves Hseries Ht0 Hp0 Hxs Hys Hrows.
  destruct (select_best_patterns_total training pattern Hndp Hcurves) as [bp Hbp].
  pose proof (select_loop_keys training pattern _ [] bp Hndt
                (fun _ _ H => H) Hbp) as Hkeys. simpl in Hkeys.
  destruct (tl (columns training)) as [|h0 ws] eqn:Ews; [contradiction|].
  destruct bp as [|[h r] bp']; [discriminate|].
  injection Hkeys as -> Hkeys'.
  assert (Hr : In r (columns pattern)).
  { destruct (select_loop_items _ _ _ _ _ Hbp h0 r (or_introl eq_refl)) as [[]|[_ Hb]].
    apply in_tl. eapply best_for_in_columns; eauto. }
  destruct (getitem_in pattern r Hr) as [rs Hrs].
  assert (rs = []) by (eapply Hp0; eapply getitem_Ok_in; eauto). subst rs.
  assert (Hh : In h0 (columns training)) by (apply in_tl; rewrite Ews; now left).
  destruct (getitem_in training h0 Hh) as [hs Hhs].
  assert (hs = []) by (eapply Ht0; eapply getitem_Ok_in; eauto). subst hs.
  assert (Hcx : has_column test_sales_df "x" = true).
  { apply has_column_true. apply getitem_Ok_in in Hxs.
    unfold columns. now apply (in_map fst) in Hxs. }
  assert (Hcy : has_column test_sales_df "y" = true).
  { apply has_column_true. apply getitem_Ok_in in Hys.
    unfold columns. now apply (in_map fst) in Hys. }
  destruct (combine xs ys) as [|row rows] eqn:Erows; [contradiction|].
  unfold load_and_predict_weekly_sales, predict_body, identify_best_sales_patterns,
    read_sales_table.
  rewrite Hcx, Hcy, Ht, Hp. simpl. unfold select_best_patterns at 1.
  rewrite Ews. fold (select_best_patterns training pattern).
  unfold select_best_patterns in Hbp. rewrite Ews in Hbp. rewrite Hbp. simpl.
  rewrite Hxs, Hys. simpl. rewrite Erows.
  rewrite classify_first_item_empty; auto.
  now apply has_column_true.
Qed.

(** * [hell.py]: properties of [sum_numbers_in_file] *)

Lemma findall_digits_separator (a b run : string) (c : ascii) :
  is_digit c = false ->
  findall_digits (String.append a (String c b)) run
  = findall_digits a run ++ findall_digits b EmptyString.
Proof.
  intros Hc. revert run. induction a as [|d a IH]; intros run; simpl.
  - now rewrite Hc.
  - destruct (is_digit d); [apply IH|].
    rewrite IH. now rewrite app_assoc.
Qed.

Lemma ints_of_app (max_str_digits : nat) (l1 l2 : list string) :
  ints_of max_str_digits (l1 ++ l2)
  = (ns1 <- ints_of max_str_digits l1 ;;
     ns2 <- ints_of max_str_digits l2 ;;
     Ok (ns1 ++ ns2))%result.
Proof.
  induction l1 as [|num rest IH]; simpl.
  - destruct (ints_of max_str_digits l2); reflexivity.
  - destruct (py_int max_str_digits num) as [n|e]; [simpl|reflexivity].
    rewrite IH.
    destruct (ints_of max_str_digits rest) as [ns1|e]; [simpl|reflexivity].
    destruct (ints_of max_str_digits l2); reflexivity.
Qed.

Lemma fold_left_add_acc (l : list Z) (a : Z) :
  fold_left Z.add l a = (a + fold_left Z.add l 0)%Z.
Proof.
  revert a. induction l as [|n l IH]; intros a; simpl; [lia|].
  rewrite (IH (a + n)%Z), (IH n). lia.
Qed.

Lemma py_sum_app (l1 l2 : list Z) : py_sum (l1 ++ l2) = (py_sum l1 + py_sum l2)%Z.
Proof.
  unfold py_sum. rewrite fold_left_app. apply fold_left_add_acc.
Qed.

(** X13. A character that is not a digit separates numbers and counts for
    nothing else: the total of a text cut at such a character is the sum of
    the totals of the two parts (signs and decimal points are such
    characters), and the conversion fails where it fails on the first
    failing part. *)
Theorem sum_numbers_separator (max_str_digits : nat) (a b : string) (c : ascii) :
  is_digit c = false ->
  sum_numbers max_str_digits (String.append a (String c b))
  = (total_a <- sum_numbers max_str_digits a ;;
     total_b <- sum_numbers max_str_digits b ;;
     Ok (total_a + total_b)%Z)%result.
Proof.
  intros Hc. unfold sum_numbers.
  rewrite findall_digits_separator by exact Hc. rewrite ints_of_app.
  destruct (ints_of max_str_digits (findall_digits a EmptyString)) as [ns1|e];
    [simpl|reflexivity].
  destruct (ints_of max_str_digits (findall_digits b EmptyString)) as [ns2|e];
    [simpl|reflexivity].
  now rewrite py_sum_app.
Qed.

(** The digits of the matches, in order, are the digits of the text. *)
Lemma flush_chars (run : string) :
  List.concat (map list_ascii_of_string (flush run)) = list_ascii_of_string run.
Proof. destruct run; simpl; [reflexivity|now rewrite app_nil_r]. Qed.

Lemma list_ascii_of_string_app (s1 s2 : string) :
  list_ascii_of_string (String.append s1 s2)
  = list_ascii_of_string s1 ++ list_ascii_of_string s2.
Proof. induction s1 as [|c s1 IH]; simpl; [reflexivity|now rewrite IH]. Qed.

Lemma findall_digits_chars (content run : string) :
  List.concat (map list_ascii_of_string (findall_digits content run))
  = list_ascii_of_string run ++ filter is_digit (list_ascii_of_string content).
Proof.
  revert run. induction content as [|c rest IH]; intros run; simpl.
  - rewrite flush_chars. now rewrite app_nil_r.
  - destruct (is_digit c) eqn:Ec.
    + rewrite IH, list_ascii_of_string_app. simpl. now rewrite <- app_assoc.
    + rewrite map_app, concat_app, flush_chars, IH. reflexivity.
Qed.

Lemma digit_value_nonneg (c : ascii) : (0 <= digit_value c)%Z.
Proof. unfold digit_value. lia. Qed.

Lemma decimal_value_zero_iff (num : string) (acc : Z) :
  (0 <= acc)%Z ->
  (0 <= decimal_value num acc)%Z /\
  (decimal_value num acc = 0%Z
   <-> acc = 0%Z /\ forall c, In c (list_ascii_of_string num) -> digit_value c = 0%Z).
Proof.
  revert acc. induction num as [|c rest IH]; intros acc Hacc; simpl.
  - split; [exact Hacc|]. split; [intros ->; split; [reflexivity|intros c []]|tauto].
  - pose proof (digit_value_nonneg c) as Hc.
    destruct (IH (10 * acc + digit_value c)%Z) as [Hpos Hiff]; [lia|].
    split; [exact Hpos|]. rewrite Hiff. split.
    + intros [H0 Hrest]. split; [lia|]. intros c' [<-|Hin]; [lia|auto].
    + intros [-> Hall]. split.
      * rewrite (Hall c) by now left. reflexivity.
      * intros c' Hin. apply Hall. now right.
Qed.

Lemma ints_of_zero_iff (max_str_digits : nat) (numbers : list string) (ns : list Z) :
  ints_of max_str_digits numbers = Ok ns ->
  (0 <= py_sum ns)%Z /\
  (py_sum ns = 0%Z
   <-> forall c, In c (List.concat (map list_ascii_of_string numbers)) ->
         digit_value c = 0%Z).
Proof.
  revert ns. induction numbers as [|num rest IH]; intros ns; simpl.
  - intros [= <-]. split; [reflexivity|]. split; [intros _ c []|reflexivity].
  - unfold py_int.
    destruct (_ && _); [discriminate|]. simpl.
    destruct (ints_of max_str_digits rest) as [ns'|e]; [simpl|discriminate].
    intros [= <-]. destruct (IH ns' eq_refl) as [Hpos Hiff].
    destruct (decimal_value_zero_iff num 0 (Z.le_refl 0)) as [Hn Hniff].
    change (decimal_value num 0 :: ns') with ([decimal_value num 0] ++ ns').
    rewrite py_sum_app. unfold py_sum at 1 3. simpl fold_left.
    split; [lia|]. split.
    + intros H0 c Hin. apply in_app_iff in Hin. destruct Hin as [Hin|Hin].
      * apply Hniff; [lia|exact Hin].
      * apply Hiff; [lia|exact Hin].
    + intros Hall.
      assert (decimal_value num 0 = 0%Z).
      { apply Hniff. split; [reflexivity|]. intros c Hin. apply Hall.
        apply in_app_iff. now left. }
      assert (py_sum ns' = 0%Z).
      { apply Hiff. intros c Hin. apply Hall. apply in_app_iff. now right. }
      lia.
Qed.

Lemma digit_zero (c : ascii) :
  is_digit c = true -> (digit_value c = 0%Z <-> c = "0"%char).
Proof.
  unfold is_digit, digit_value. intros H. apply andb_prop in H. destruct H as [H1 H2].
  apply Nat.leb_le in H1. apply Nat.leb_le in H2. split.
  - intros H0. assert (E : nat_of_ascii c = 48%nat) by lia.
    rewrite <- (ascii_nat_embedding c), E. reflexivity.
  - intros ->. reflexivity.
Qed.

(** X14. The call returns the error text exactly when the file is missing,
    and then it is "Error: File not found."; a total it returns is never
    negative, and it is 0 exactly when the file holds no digit other than
    0. *)
Theorem sum_numbers_in_file_total (max_str_digits : nat) (files : list (string * string))
    (filename : string) :
  (forall text,
     sum_numbers_in_file max_str_digits files filename = Ok (Message text)
     <-> read_file files filename = None /\ text = "Error: File not found.") /\
  (forall total_sum,
     sum_numbers_in_file max_str_digits files filename = Ok (Total total_sum) ->
     exists content,
       read_file files filename = Some content /\
       (0 <= total_sum)%Z /\
       (total_sum = 0%Z
        <-> forall c, In c (list_ascii_of_string content) ->
              is_digit c = true -> c = "0"%char)).
Proof.
  unfold sum_numbers_in_file. split.
  - intros text. destruct (read_file files filename) as [content|].
    + destruct (sum_numbers max_str_digits content); simpl;
        (split; [discriminate|intros [H _]; discriminate]).
    + split; [intros [= <-]; auto|intros [_ ->]; reflexivity].
  - intros total_sum. destruct (read_file files filename) as [content|]; [|discriminate].
    unfold sum_numbers.
    destruct (ints_of max_str_digits (findall_digits content EmptyString))
      as [ns|e] eqn:Eints; [simpl|discriminate].
    intros [= <-]. exists content. split; [reflexivity|].
    destruct (ints_of_zero_iff _ _ _ Eints) as [Hpos Hiff].
    split; [exact Hpos|]. rewrite Hiff, findall_digits_chars. simpl. split.
    + intros Hall c Hin Hd. apply digit_zero; [exact Hd|].
      apply Hall. apply filter_In. now split.
    + intros Hall c Hin. apply filter_In in Hin. destruct Hin as [Hin Hd].
      apply digit_zero; auto.
Qed.

Lemma decimal_value_of_uint_acc (d : Decimal.uint) (p : positive) :
  decimal_value (NilEmpty.string_of_uint d) (Z.pos p) = Z.pos (Pos.of_uint_acc d p).
Proof.
  revert p.
  induction d; intros p;
    cbn [NilEmpty.string_of_uint decimal_value Pos.of_uint_acc]; try reflexivity;
    rewrite <- IHd; f_equal;
    match goal with
    | |- context [digit_value ?c] =>
        let v := eval vm_compute in (digit_value c) in change (digit_value c) with v
    end; lia.
Qed.

Lemma decimal_value_of_uint (d : Decimal.uint) :
  decimal_value (NilEmpty.string_of_uint d) 0 = Z.of_N (N.of_uint d).
Proof.
  unfold N.of_uint.
  induction d; cbn [NilEmpty.string_of_uint decimal_value Pos.of_uint];
    try reflexivity;
    match goal with
    | |- context [digit_value ?c] =>
        let v := eval vm_compute in (digit_value c) in change (digit_value c) with v
    end; cbn [Z.mul Z.add Z.of_N]; try exact IHd; apply decimal_value_of_uint_acc.
Qed.

Lemma string_of_uint_digits (d : Decimal.uint) :
  forallb is_digit (list_ascii_of_string (NilEmpty.string_of_uint d)) = true.
Proof. induction d; simpl; auto. Qed.

Lemma string_append_assoc_char (run : string) (c : ascii) (rest : string) :
  String.append (String.append run (String c EmptyString)) rest
  = String.append run (String c rest).
Proof. induction run as [|r run IH]; simpl; [reflexivity|now rewrite IH]. Qed.

Lemma findall_digits_all_digits (s run : string) :
  forallb is_digit (list_ascii_of_string s) = true ->
  findall_digits s run = flush (String.append run s).
Proof.
  revert run. induction s as [|c s IH]; intros run; simpl.
  - intros _. f_equal. induction run as [|r run IHr]; simpl; [reflexivity|now rewrite <- IHr].
  - intros H. apply andb_prop in H. destruct H as [Hc Hs].
    rewrite Hc, IH by exact Hs. now rewrite string_append_assoc_char.
Qed.

Lemma string_of_to_uint_nonempty (n : N) :
  NilEmpty.string_of_uint (N.to_uint n) <> EmptyString.
Proof.
  intros E.
  assert (Hnil : N.to_uint n = Decimal.Nil)
    by (destruct (N.to_uint n); simpl in E; try discriminate; reflexivity).
  pose proof (DecimalN.Unsigned.of_to n) as Hn. rewrite Hnil in Hn.
  simpl in Hn. subst n. discriminate.
Qed.

(** X15. A file that holds one natural number written in base ten, and
    nothing else, gives that number back, provided the numeral is within
    the interpreter's limit on digits. *)
Theorem sum_numbers_in_file_numeral (max_str_digits : nat) (files : list (string * string))
    (filename : string) (n : N) :
  read_file files filename = Some (NilEmpty.string_of_uint (N.to_uint n)) ->
  (max_str_digits = 0%nat \/
   (String.length (NilEmpty.string_of_uint (N.to_uint n)) <= max_str_digits)%nat) ->
  sum_numbers_in_file max_str_digits files filename = Ok (Total (Z.of_N n)).
Proof.
  intros Hfile Hlimit. unfold sum_numbers_in_file, sum_numbers. rewrite Hfile.
  rewrite findall_digits_all_digits by apply string_of_uint_digits. simpl String.append.
  pose proof (string_of_to_uint_nonempty n) as Hne.
  destruct (NilEmpty.string_of_uint (N.to_uint n)) as [|c s] eqn:Es; [contradiction|].
  cbn [flush ints_of]. unfold py_int.
  assert (Hok : (0 <? max_str_digits)%nat
                && (max_str_digits <? String.length (String c s))%nat = false).
  { destruct Hlimit as [-> | Hle]; [reflexivity|].
    apply andb_false_iff. right. apply Nat.ltb_ge. exact Hle. }
  rewrite Hok. cbn [rbind py_sum fold_left].
  rewrite <- Es, decimal_value_of_uint, DecimalN.Unsigned.of_to. reflexivity.
Qed.

(** * Adding a curve to the reference table *)

Lemma getitem_app_l (p q : DataFrame) (col : string) :
  In col (columns p) -> getitem (p ++ q) col = getitem p col.
Proof.
  induction p as [|[name s] rest IH]; simpl; [tauto|].
  intros [->|Hin].
  - now rewrite String.eqb_refl.
  - destruct (String.eqb col name); [reflexivity|auto].
Qed.

Lemma getitem_app_r (p q : DataFrame) (col : string) :
  ~ In col (columns p) -> getitem (p ++ q) col = getitem q col.
Proof.
  induction p as [|[name s] rest IH]; simpl; [reflexivity|].
  intros Hn. destruct (String.eqb col name) eqn:E.
  - apply String.eqb_eq in E. subst. tauto.
  - apply IH. tauto.
Qed.

Lemma select_best_patterns_get (training pattern : DataFrame) :
  NoDup (columns pattern) ->
  tl (columns pattern) <> [] ->
  exists best_patterns,
    select_best_patterns training pattern = Ok best_patterns /\
    forall h, In h (tl (columns training)) ->
      exists r, best_for training pattern h = Ok r /\ dict_get best_patterns h = Some r.
Proof.
  intros Hnd Hne.
  set (best := fun h => match best_for training pattern h with
                        | Ok r => r | Raise _ => EmptyString end).
  assert (Hbest : forall h, In h (tl (columns training)) ->
                    best_for training pattern h = Ok (best h)).
  { intros h Hh. destruct (getitem_in training h (in_tl _ _ Hh)) as [hs Hhs].
    destruct (best_for_first_min training pattern h hs Hnd Hne Hhs)
      as (i & r & rs & Hr & _).
    unfold best. now rewrite Hr. }
  destruct (select_loop_get training pattern best (tl (columns training)) [] Hbest)
    as (bp & Hbp & Hget).
  exists bp. split; [exact Hbp|].
  intros h Hh. exists (best h). split; [now apply Hbest|now apply Hget].
Qed.

Lemma best_for_add_curve (training pattern : DataFrame) (c : string) (cs : Series)
    (h r : string) (hs rs : Series) :
  NoDup (columns pattern) ->
  tl (columns pattern) <> [] ->
  ~ In c (columns pattern) ->
  getitem training h = Ok hs ->
  best_for training pattern h = Ok r ->
  getitem pattern r = Ok rs ->
  best_for training (pattern ++ [(c, cs)]) h
  = Ok (if Rlt_b (error_sum hs cs) (error_sum hs rs) then c else r).
Proof.
  intros Hnd Hne Hc Hhs Hr Hrs.
  assert (Hcols : columns (pattern ++ [(c, cs)]) = columns pattern ++ [c])
    by (unfold columns; now rewrite map_app).
  assert (Htl : tl (columns (pattern ++ [(c, cs)])) = tl (columns pattern) ++ [c]).
  { rewrite Hcols. destruct (columns pattern) as [|x l]; [contradiction|reflexivity]. }
  assert (Hnd' : NoDup (columns (pattern ++ [(c, cs)]))).
  { rewrite Hcols. apply NoDup_app; [exact Hnd|repeat constructor; simpl; tauto|].
    intros a Ha [<-|[]]. contradiction. }
  assert (Hne' : tl (columns (pattern ++ [(c, cs)])) <> []).
  { rewrite Htl. destruct (tl (columns pattern)); discriminate. }
  assert (Hgc : getitem (pattern ++ [(c, cs)]) c = Ok cs).
  { rewrite getitem_app_r by exact Hc. simpl. now rewrite String.eqb_refl. }
  destruct (best_for_first_min training pattern h hs Hnd Hne Hhs)
    as (i & r0 & rs0 & Hr0 & Hi & Hrs0 & Hmin).
  assert (r0 = r) by congruence. subst r0.
  assert (rs0 = rs) by congruence. subst rs0.
  destruct (best_for_first_min training (pattern ++ [(c, cs)]) h hs Hnd' Hne' Hhs)
    as (i' & r' & rs' & -> & Hi' & Hrs' & Hmin').
  f_equal. rewrite Htl in Hi', Hmin'.
  assert (Hilt : (i < List.length (tl (columns pattern)))%nat)
    by (apply nth_error_Some; congruence).
  (* what the extended table says about [r] and about [c] *)
  assert (Hr_ext : error_sum hs rs' <= error_sum hs rs /\
                   ((i < i')%nat -> error_sum hs rs' < error_sum hs rs)).
  { apply (Hmin' i r rs).
    - rewrite nth_error_app1 by exact Hilt. exact Hi.
    - rewrite getitem_app_l; [exact Hrs|]. apply in_tl. eapply nth_error_In; eauto. }
  assert (Hc_ext : error_sum hs rs' <= error_sum hs cs /\
                   ((List.length (tl (columns pattern)) < i')%nat ->
                    error_sum hs rs' < error_sum hs cs)).
  { apply (Hmin' (List.length (tl (columns pattern))) c cs).
    - rewrite nth_error_app2 by lia. now rewrite Nat.sub_diag.
    - exact Hgc. }
  destruct (Nat.lt_ge_cases i' (List.length (tl (columns pattern)))) as [Hold|Hnew].
  - (* the choice is an old curve: it is [r] *)
    rewrite nth_error_app1 in Hi' by exact Hold.
    assert (Hin' : In r' (columns pattern))
      by (apply in_tl; eapply nth_error_In; eauto).
    rewrite getitem_app_l in Hrs' by exact Hin'.
    destruct (Hmin i' r' rs' Hi' Hrs') as [Hle Hlt].
    assert (i' = i).
    { destruct (Nat.lt_trichotomy i' i) as [H|[H|H]]; [|exact H|].
      - specialize (Hlt H). lra.
      - destruct Hr_ext as [_ Hs]. specialize (Hs H). lra. }
    subst i'. assert (r' = r) by congruence. subst r'.
    assert (rs' = rs) by congruence. subst rs'.
    destruct Hc_ext as [Hle_c _].
    now rewrite (proj2 (Rlt_b_false (error_sum hs cs) (error_sum hs rs))).
  - (* the choice is the new curve *)
    assert (i' = List.length (tl (columns pattern))).
    { assert ((i' < List.length (tl (columns pattern) ++ [c]))%nat)
        by (apply nth_error_Some; congruence).
      rewrite length_app in H. simpl in H. lia. }
    subst i'. rewrite nth_error_app2, Nat.sub_diag in Hi' by lia.
    injection Hi' as <-.
    assert (rs' = cs) by congruence. subst rs'.
    destruct Hr_ext as [_ Hs]. specialize (Hs Hilt).
    now rewrite (proj2 (Rlt_b_true (error_sum hs cs) (error_sum hs rs))).
Qed.

(** On float64 columns, appending a curve column with a new name to the
    reference table changes the pattern of a historical series only when the new curve has a
    strictly smaller squared error than the pattern chosen before; then the
    new curve is chosen. *)
Theorem select_best_patterns_add_curve (training pattern : DataFrame)
    (c : string) (cs : Series) :
  NoDup (columns pattern) ->
  tl (columns pattern) <> [] ->
  ~ In c (columns pattern) ->
  exists best_patterns best_patterns',
    select_best_patterns training pattern = Ok best_patterns /\
    select_best_patterns training (pattern ++ [(c, cs)]) = Ok best_patterns' /\
    forall h hs r rs,
      In h (tl (columns training)) ->
      getitem training h = Ok hs ->
      dict_get best_patterns h = Some r ->
      getitem pattern r = Ok rs ->
      dict_get best_patterns' h
      = Some (if Rlt_b (error_sum hs cs) (error_sum hs rs) then c else r).
Proof.
  intros Hnd Hne Hc.
  assert (Hcols : columns (pattern ++ [(c, cs)]) = columns pattern ++ [c])
    by (unfold columns; now rewrite map_app).
  assert (Hnd' : NoDup (columns (pattern ++ [(c, cs)]))).
  { rewrite Hcols. apply NoDup_app; [exact Hnd|repeat constructor; simpl; tauto|].
    intros a Ha [<-|[]]. contradiction. }
  assert (Hne' : tl (columns (pattern ++ [(c, cs)])) <> []).
  { rewrite Hcols. destruct (columns pattern) as [|x [|y l]]; simpl in *;
      try contradiction; discriminate. }
  destruct (select_best_patterns_get training pattern Hnd Hne) as (bp & Hbp & Hget).
  destruct (select_best_patterns_get training (pattern ++ [(c, cs)]) Hnd' Hne')
    as (bp' & Hbp' & Hget').
  exists bp, bp'. split; [exact Hbp|]. split; [exact Hbp'|].
  intros h hs r rs Hh Hhs Hr Hrs.
  destruct (Hget h Hh) as (r0 & Hbest & Hd). assert (r0 = r) by congruence. subst r0.
  destruct (Hget' h Hh) as (r' & Hbest' & Hd').
  rewrite (best_for_add_curve training pattern c cs h r hs rs) in Hbest'; auto.
  congruence.
Qed.

(** * The order of the items and the deviation *)

Lemma scan_with_defined (margin : R) (training pattern : DataFrame) (x_val y_val : R)
    (items : dict string) (st : option string * bound) :
  (exists st', scan_with margin training pattern x_val y_val st items = Ok st')
  <-> forall item, In item items ->
        exists offer,
          candidate_tol (max_dev_with margin training pattern) pattern x_val y_val item
          = Ok offer.
Proof.
  revert st. induction items as [|item rest IH]; intros st; cbn [scan_with].
  - split; [intros _ item []|eauto].
  - rewrite consider_with_tol. unfold consider_tol.
    destruct (candidate_tol (max_dev_with margin training pattern) pattern
                x_val y_val item) as [offer|e] eqn:Ec; simpl.
    + rewrite IH. split.
      * intros H item' [<-|Hin]; eauto.
      * intros H item' Hin. apply H. now right.
    + split; [intros [st' H]; discriminate|].
      intros H. destruct (H item (or_introl eq_refl)) as [offer Ho]. congruence.
Qed.

Lemma first_least_deviation_unique (margin : R) (training pattern : DataFrame)
    (x_val y_val : R) (items items' : dict string) (st st' : option string * bound) :
  (forall item, In item items <-> In item items') ->
  first_least margin training pattern x_val y_val items st ->
  first_least margin training pattern x_val y_val items' st' ->
  snd st = snd st' /\ (fst st = None <-> fst st' = None).
Proof.
  intros Hsame
    [[-> Hnone]|(k & h & r & d & -> & Hk & Hacc & Hmin)]
    [[-> Hnone']|(k' & h' & r' & d' & -> & Hk' & Hacc' & Hmin')]; simpl.
  - split; [reflexivity|tauto].
  - exfalso. apply nth_error_In in Hk'. apply Hsame in Hk'. now apply (Hnone _ d') in Hk'.
  - exfalso. apply nth_error_In in Hk. apply Hsame in Hk. now apply (Hnone' _ d) in Hk.
  - assert (Hin : In (h, r) items') by (apply Hsame; eapply nth_error_In; eauto).
    assert (Hin' : In (h', r') items) by (apply Hsame; eapply nth_error_In; eauto).
    destruct (In_nth_error _ _ Hin) as [j Hj].
    destruct (In_nth_error _ _ Hin') as [j' Hj'].
    destruct (Hmin' _ _ _ Hj Hacc) as [Hle' _].
    destruct (Hmin _ _ _ Hj' Hacc') as [Hle _].
    split; [f_equal; lra|split; discriminate].
Qed.

(** X9. The order of the items of [best_patterns] decides only which curve
    is kept among equal deviations: for a permutation of the items the
    classification returns as well, and every observation gets the same
    [delta_y] and is assigned in the one exactly when it is in the other. *)
Theorem classify_permutation_same_deviation (training pattern : DataFrame)
    (best_patterns best_patterns' : dict string) (rows : list (R * R))
    (fs : list forecast) :
  Permutation best_patterns best_patterns' ->
  classify training pattern best_patterns rows = Ok fs ->
  exists fs',
    classify training pattern best_patterns' rows = Ok fs' /\
    Forall2 (fun f f' => fx f = fx f' /\ fy f = fy f' /\ delta_y f = delta_y f' /\
                         (ideal_function f = None <-> ideal_function f' = None))
            fs fs'.
Proof.
  intros Hperm. unfold classify. revert fs.
  assert (Hsame : forall item, In item best_patterns <-> In item best_patterns').
  { intros item. split; apply Permutation_in; [exact Hperm|now symmetry]. }
  induction rows as [|[x_val y_val] rest IH]; intros fs; cbn [classify_with].
  - intros [= <-]. exists []. split; [reflexivity|constructor].
  - unfold classify_row_with.
    destruct (scan_with (sqrt 2) training pattern x_val y_val (None, PosInf)
                best_patterns) as [[best md]|e] eqn:Escan; [simpl|discriminate].
    destruct (classify_with (sqrt 2) training pattern best_patterns rest)
      as [fs0|e]; [simpl|discriminate].
    intros [= <-]. destruct (IH fs0 eq_refl) as (fs0' & Hfs0' & Hall).
    assert (Hdef : exists st',
               scan_with (sqrt 2) training pattern x_val y_val (None, PosInf)
                 best_patterns' = Ok st').
    { apply scan_with_defined. intros item Hin. apply Hsame in Hin.
      revert item Hin. apply (scan_with_defined (sqrt 2) training pattern x_val y_val
                                  best_patterns (None, PosInf)). eauto. }
    destruct Hdef as [[best' md'] Escan'].
    rewrite Escan', Hfs0'. simpl. eexists. split; [reflexivity|].
    constructor; [|exact Hall]. simpl.
    pose proof (scan_first_least_ok (sqrt 2) training pattern x_val y_val
                  best_patterns [] _ _ (first_least_start _ _ _ _ _) Escan) as Hinv.
    pose proof (scan_first_least_ok (sqrt 2) training pattern x_val y_val
                  best_patterns' [] _ _ (first_least_start _ _ _ _ _) Escan') as Hinv'.
    destruct (first_least_deviation_unique _ _ _ _ _ _ _ _ _ Hsame Hinv Hinv')
      as [Hmd Hbest].
    simpl in Hmd, Hbest. auto.
Qed.

(** * An item whose series is unknown *)

Lemma getitem_missing (df : DataFrame) (col : string) :
  ~ In col (columns df) -> getitem df col = Raise (KeyError col).
Proof.
  induction df as [|[name s] rest IH]; simpl; [reflexivity|].
  intros Hn. destruct (String.eqb col name) eqn:E.
  - apply String.eqb_eq in E. subst. tauto.
  - apply IH. tauto.
Qed.

(** X10. Unlike an unknown curve, an unknown series is not passed over: for
    an item whose curve is a column of the reference table but whose series
    is not a column of the historical table, the loop body raises
    [KeyError] for every observation, and so does a classification of at
    least one observation in which the items before it are passed over. *)
Theorem classify_unknown_series_raises (training pattern : DataFrame) (h r : string) :
  In r (columns pattern) ->
  ~ In h (columns training) ->
  (forall x_val y_val st,
     consider training pattern x_val y_val st (h, r) = Raise (KeyError h)) /\
  (forall pre post row rows,
     (forall item, In item pre -> ~ In (snd item) (columns pattern)) ->
     classify training pattern (pre ++ (h, r) :: post) (row :: rows)
     = Raise (KeyError h)).
Proof.
  intros Hr Hh.
  assert (Hstep : forall x_val y_val st,
             consider_with (sqrt 2) training pattern x_val y_val st (h, r)
             = Raise (KeyError h)).
  { intros. unfold consider_with, max_dev_with.
    rewrite (proj2 (has_column_true pattern r) Hr), (getitem_missing training h Hh).
    reflexivity. }
  split; [exact Hstep|].
  intros pre post [x_val y_val] rows Hpre.
  unfold classify. cbn [classify_with]. unfold classify_row_with.
  assert (Hscan : forall st,
             scan_with (sqrt 2) training pattern x_val y_val st (pre ++ (h, r) :: post)
             = Raise (KeyError h)).
  { induction pre as [|[h' r'] pre IH]; intros st; cbn [app scan_with].
    - now rewrite Hstep.
    - rewrite consider_with_skip by (apply (Hpre (h', r')); now left).
      simpl. apply IH. intros item Hin. apply Hpre. now right. }
  now rewrite Hscan.
Qed.

(** * The further properties on concrete inputs *)

Example tie_classify :
  classify hist2 ref2 patterns2 [(2, 20)] = Ok [mkForecast 2 20 (Dev 0) (Some "r1")].
Proof. unfold classify, hist2, ref2, patterns2. eval_real. same_reals. Qed.

Lemma hist1_rows : forall h hs, getitem hist1 h = Ok hs -> hs <> [].
Proof.
  intros h hs. unfold hist1. simpl.
  destruct (String.eqb h "x"); [intros [= <-]; discriminate|].
  destruct (String.eqb h "h1"); [intros [= <-]; discriminate|discriminate].
Defined.


Lemma select_best_patterns_keys_values_witness :
  map fst patterns1 = tl (columns hist1) /\
  forall h r, In (h, r) patterns1 ->
    In r (tl (columns ref1)) /\ has_column ref1 r = true.
Proof.
  apply (select_best_patterns_keys_values hist1 ref1 patterns1).
  - simpl. repeat constructor. simpl. tauto.
  - exact scenario1_best_patterns.
Defined.



Lemma select_best_patterns_no_curve_witness :
  select_best_patterns hist1 ref_empty
  = match tl (columns hist1) with
    | [] => Ok []
    | _ :: _ => Raise (ValueError "min() arg is an empty sequence")
    end /\
  identify_best_sales_patterns db_empty_ref = ([], select_best_patterns hist1 ref_empty).
Proof.
  apply (select_best_patterns_no_curve db_empty_ref hist1 ref_empty); reflexivity.
Defined.

Lemma select_best_patterns_empty_series_witness :
  exists best_patterns,
    select_best_patterns hist_zero ref_zero = Ok best_patterns /\
    dict_get best_patterns "h1" = Some "r1".
Proof.
  apply (select_best_patterns_empty_series hist_zero ref_zero "h1" "r1" ["r2"]).
  - unfold ref_zero. simpl. repeat constructor; simpl; intuition discriminate.
  - reflexivity.
  - simpl. now left.
  - reflexivity.
Defined.

Lemma classify_rows_well_formed_witness :
  In (fx (mkForecast 2 20 (Dev 0) (Some "r1")), fy (mkForecast 2 20 (Dev 0) (Some "r1")))
     rows1 /\
  ((ideal_function (mkForecast 2 20 (Dev 0) (Some "r1")) = None /\
    delta_y (mkForecast 2 20 (Dev 0) (Some "r1")) = PosInf) \/
   (exists h r d,
      ideal_function (mkForecast 2 20 (Dev 0) (Some "r1")) = Some r /\
      delta_y (mkForecast 2 20 (Dev 0) (Some "r1")) = Dev d /\ 0 <= d /\
      In (h, r) patterns1 /\ In r (columns ref1) /\
      accepted (sqrt 2) hist1 ref1 (fx (mkForecast 2 20 (Dev 0) (Some "r1")))
        (fy (mkForecast 2 20 (Dev 0) (Some "r1"))) (h, r) d)).
Proof.
  apply (classify_rows_well_formed hist1 ref1 patterns1 rows1
           [mkForecast 2 20 (Dev 0) (Some "r1"); mkForecast 2 21 PosInf None]
           scenario2_classify (mkForecast 2 20 (Dev 0) (Some "r1"))).
  simpl. now left.
Defined.

Lemma classify_assigns_only_on_grid_witness :
  exists xs, getitem ref1 "x" = Ok xs /\
             In (fx (mkForecast 2 20 (Dev 0) (Some "r1"))) xs.
Proof.
  apply (classify_assigns_only_on_grid hist1 ref1 patterns1 rows1
           [mkForecast 2 20 (Dev 0) (Some "r1"); mkForecast 2 21 PosInf None]
           scenario2_classify (mkForecast 2 20 (Dev 0) (Some "r1"))).
  - simpl. now left.
  - simpl. discriminate.
Defined.

Lemma classify_permutation_same_deviation_witness :
  exists fs',
    classify hist2 ref2 [("h2", "r2"); ("h1", "r1")] [(2, 20)] = Ok fs' /\
    Forall2 (fun f f' => fx f = fx f' /\ fy f = fy f' /\ delta_y f = delta_y f' /\
                         (ideal_function f = None <-> ideal_function f' = None))
            [mkForecast 2 20 (Dev 0) (Some "r1")] fs'.
Proof.
  apply (classify_permutation_same_deviation hist2 ref2 patterns2
           [("h2", "r2"); ("h1", "r1")] [(2, 20)]).
  - apply perm_swap.
  - exact tie_classify.
Defined.

Lemma classify_unknown_series_raises_witness :
  (forall x_val y_val st,
     consider hist1 ref1 x_val y_val st ("h9", "r1") = Raise (KeyError "h9")) /\
  (forall pre post row rows,
     (forall item, In item pre -> ~ In (snd item) (columns ref1)) ->
     classify hist1 ref1 (pre ++ ("h9", "r1") :: post) (row :: rows)
     = Raise (KeyError "h9")).
Proof.
  apply (classify_unknown_series_raises hist1 ref1 "h9" "r1").
  - simpl. auto.
  - simpl. intuition discriminate.
Defined.

Lemma load_and_predict_no_curve_witness :
  load_and_predict_weekly_sales db_empty_ref test1
  = mkOutcome None [ProcessingError (ValueError "min() arg is an empty sequence")].
Proof.
  apply (load_and_predict_no_curve db_empty_ref hist1 ref_empty test1);
    try reflexivity.
  simpl. discriminate.
Defined.

Lemma load_and_predict_zero_rows_witness :
  load_and_predict_weekly_sales db_zero test1
  = mkOutcome None [ProcessingError (ValueError "max() arg is an empty sequence")].
Proof.
  apply (load_and_predict_zero_rows db_zero hist_zero ref_zero test1 [2; 2] [20; 21]);
    try reflexivity.
  - unfold ref_zero. simpl. repeat constructor; simpl; intuition discriminate.
  - simpl. repeat constructor. simpl. tauto.
  - simpl. discriminate.
  - simpl. discriminate.
  - intros c s [[= _ <-]|[[= _ <-]|[]]]; reflexivity.
  - intros c s [[= _ <-]|[[= _ <-]|[[= _ <-]|[]]]]; reflexivity.
  - simpl. discriminate.
Defined.


Lemma sum_numbers_separator_witness :
  sum_numbers 4300 (String.append "12" (String "-" "5"))
  = (total_a <- sum_numbers 4300 "12" ;;
     total_b <- sum_numbers 4300 "5" ;;
     Ok (total_a + total_b)%Z)%result.
Proof.
  apply (sum_numbers_separator 4300 "12" "5" "-"). reflexivity.
Defined.

Example files1_total : sum_numbers_in_file 4300 files1 "data.txt" = Ok (Total 42).
Proof. vm_compute. reflexivity. Qed.

Lemma sum_numbers_in_file_total_witness :
  exists content,
    read_file files1 "data.txt" = Some content /\
    (0 <= 42)%Z /\
    (42%Z = 0%Z
     <-> forall c, In c (list_ascii_of_string content) ->
           is_digit c = true -> c = "0"%char).
Proof.
  apply (proj2 (sum_numbers_in_file_total 4300 files1 "data.txt") 42%Z).
  exact files1_total.
Defined.

Lemma sum_numbers_in_file_numeral_witness :
  sum_numbers_in_file 4300 [("data.txt", "2024")] "data.txt" = Ok (Total 2024).
Proof.
  apply (sum_numbers_in_file_numeral 4300 [("data.txt", "2024")] "data.txt" 2024%N).
  - reflexivity.
  - right. simpl. lia.
Defined.


(** * What [visualize_sales_forecast] draws *)



(** X19. If one of the three tables cannot be read, nothing is drawn: the
    call logs the failed reads, then the error "Missing datasets for
    visualization.", and returns before the selection is run. *)
Theorem visualize_missing_table (db : Database) (forecast_table : option (list forecast)) :
  find_table db "historical_sales" = None \/
  find_table db "sales_patterns" = None \/
  forecast_table = None ->
  exists l,
    visualize_sales_forecast db forecast_table = (l ++ [MissingDatasets], Ok NotDrawn) /\
    l <> [] /\
    forall r, In r l -> exists table_name, r = ReadFailed table_name.
Proof.
  intros Hmiss. unfold visualize_sales_forecast, read_sales_table, read_forecast_table.
  destruct (find_table db "historical_sales") as [t|],
           (find_table db "sales_patterns") as [p|],
           forecast_table as [f|]; simpl;
    try (destruct Hmiss as [H|[H|H]]; discriminate).
  - exists [ReadFailed "sales_forecast"]. split; [reflexivity|split; [discriminate|]].
    intros r [<-|[]]. eauto.
  - exists [ReadFailed "sales_patterns"]. split; [reflexivity|split; [discriminate|]].
    intros r [<-|[]]. eauto.
  - exists [ReadFailed "sales_patterns"; ReadFailed "sales_forecast"].
    split; [reflexivity|split; [discriminate|]].
    intros r [<-|[<-|[]]]; eauto.
  - exists [ReadFailed "historical_sales"]. split; [reflexivity|split; [discriminate|]].
    intros r [<-|[]]. eauto.
  - exists [ReadFailed "historical_sales"; ReadFailed "sales_forecast"].
    split; [reflexivity|split; [discriminate|]].
    intros r [<-|[<-|[]]]; eauto.
  - exists [ReadFailed "historical_sales"; ReadFailed "sales_patterns"].
    split; [reflexivity|split; [discriminate|]].
    intros r [<-|[<-|[]]]; eauto.
  - exists [ReadFailed "historical_sales"; ReadFailed "sales_patterns";
            ReadFailed "sales_forecast"].
    split; [reflexivity|split; [discriminate|]].
    intros r [<-|[<-|[<-|[]]]]; eauto.
Qed.


Lemma visualize_missing_table_witness :
  exists l,
    visualize_sales_forecast db_no_ref (Some []) = (l ++ [MissingDatasets], Ok NotDrawn) /\
    l <> [] /\
    forall r, In r l -> exists table_name, r = ReadFailed table_name.
Proof.
  apply (visualize_missing_table db_no_ref (Some [])).
  right. left. reflexivity.
Defined.

(** * The selection with integer columns *)

Lemma pow2_63 : (2 ^ 63 = 9223372036854775808)%Z.
Proof. reflexivity. Qed.

Lemma pow2_64 : (2 ^ 64 = 18446744073709551616)%Z.
Proof. reflexivity. Qed.

Lemma wrap64_small (z : Z) : (- 2 ^ 63 <= z < 2 ^ 63)%Z -> wrap64 z = z.
Proof.
  unfold wrap64. rewrite pow2_63, pow2_64. intros Hz.
  rewrite Z.mod_small by lia. lia.
Qed.

Lemma wrap64_congr (a b : Z) : (a mod 2 ^ 64 = b mod 2 ^ 64)%Z -> wrap64 a = wrap64 b.
Proof.
  unfold wrap64. intros H. f_equal.
  rewrite <- (Zplus_mod_idemp_l a), H, Zplus_mod_idemp_l. reflexivity.
Qed.

Lemma wrap64_mod (a : Z) : (wrap64 a mod 2 ^ 64 = a mod 2 ^ 64)%Z.
Proof.
  unfold wrap64. rewrite Zminus_mod_idemp_l. f_equal. lia.
Qed.

Lemma wrap64_add_square (a x : Z) :
  wrap64 (wrap64 a + wrap64 (wrap64 x * wrap64 x)) = wrap64 (a + x * x).
Proof.
  apply wrap64_congr.
  rewrite Zplus_mod, !wrap64_mod, (Zmult_mod (wrap64 x)), wrap64_mod.
  rewrite <- Zmult_mod, <- Zplus_mod. reflexivity.
Qed.

Lemma int64_sum_squares_acc (hs rs : list Z) (a : Z) :
  fold_left (fun acc v => wrap64 (acc + v)) (int64_squares hs rs) (wrap64 a)
  = wrap64 (a + sum_squares hs rs).
Proof.
  revert rs a. induction hs as [|h hs IH]; intros [|r rs] a;
    cbn [int64_squares sum_squares fold_left];
    try (now rewrite Z.add_0_r).
  rewrite wrap64_add_square, IH. f_equal. lia.
Qed.

(** The int64 result is the exact sum of squares, wrapped once. *)
Lemma int64_sum_exact (hs rs : list Z) :
  int64_sum (int64_squares hs rs) = wrap64 (sum_squares hs rs).
Proof.
  unfold int64_sum. change 0%Z with (wrap64 0) at 1.
  now rewrite int64_sum_squares_acc.
Qed.

Lemma sum_squares_nonneg (hs rs : list Z) : (0 <= sum_squares hs rs)%Z.
Proof.
  revert rs. induction hs as [|h hs IH]; intros [|r rs]; cbn [sum_squares]; try lia.
  specialize (IH rs). pose proof (Z.square_nonneg (h - r)). lia.
Qed.

Lemma IZR_sum_squares (hs rs : list Z) :
  IZR (sum_squares hs rs) = error_sum (map IZR hs) (map IZR rs).
Proof.
  revert rs. induction hs as [|h hs IH]; intros [|r rs];
    cbn [sum_squares map error_sum]; try reflexivity.
  rewrite plus_IZR, mult_IZR, minus_IZR, IH. simpl. lra.
Qed.

Lemma columns_as_float_frame (df : TypedFrame) :
  columns (as_float_frame df) = typed_columns df.
Proof.
  unfold columns, as_float_frame, typed_columns. rewrite map_map. reflexivity.
Qed.

Lemma getitem_as_float_frame (df : TypedFrame) (col : string) :
  getitem (as_float_frame df) col
  = (c <- typed_getitem df col ;; Ok (cells_of c))%result.
Proof.
  induction df as [|[name c] rest IH]; simpl; [reflexivity|].
  destruct (String.eqb col name); [reflexivity|exact IH].
Qed.

Lemma typed_getitem_Ok_in (df : TypedFrame) (col : string) (c : column) :
  typed_getitem df col = Ok c -> In (col, c) df.
Proof.
  induction df as [|[name c'] rest IH]; simpl; [discriminate|].
  destruct (String.eqb col name) eqn:E.
  - apply String.eqb_eq in E. subst. intros [= ->]. now left.
  - intros H. right. auto.
Qed.

(** Without wrap-around the typed error is the sum of the squared
    differences of the cells. *)
Lemma squared_error_typed_exact (training pattern : TypedFrame) (h r : string)
    (hc rc : column) :
  typed_getitem training h = Ok hc ->
  typed_getitem pattern r = Ok rc ->
  exact_pair hc rc ->
  squared_error_typed training pattern h r
  = Ok (error_sum (cells_of hc) (cells_of rc)).
Proof.
  intros Hh Hr Hexact. unfold squared_error_typed. rewrite Hh, Hr. simpl. f_equal.
  destruct hc as [hs|hs], rc as [rs|rs]; simpl; try apply np_sum_error_sum.
  destruct (Nat.eqb (List.length hs) (List.length rs)) eqn:E;
    [|apply np_sum_error_sum].
  apply Nat.eqb_eq in E. simpl in Hexact. specialize (Hexact E).
  rewrite int64_sum_exact, wrap64_small, IZR_sum_squares; [reflexivity|].
  pose proof (sum_squares_nonneg hs rs). rewrite pow2_63 in *. lia.
Qed.

Lemma squared_error_typed_as_float (training pattern : TypedFrame) (h r : string) :
  (forall hc rc, typed_getitem training h = Ok hc -> typed_getitem pattern r = Ok rc ->
                 exact_pair hc rc) ->
  squared_error_typed training pattern h r
  = squared_error (as_float_frame training) (as_float_frame pattern) h r.
Proof.
  intros Hexact. unfold squared_error. rewrite !getitem_as_float_frame.
  destruct (typed_getitem training h) as [hc|e] eqn:Hh;
    [|unfold squared_error_typed; now rewrite Hh].
  destruct (typed_getitem pattern r) as [rc|e] eqn:Hr;
    [|unfold squared_error_typed; now rewrite Hh, Hr].
  rewrite (squared_error_typed_exact training pattern h r hc rc Hh Hr (Hexact _ _ eq_refl eq_refl)).
  simpl. now rewrite np_sum_error_sum.
Qed.

Lemma errors_dict_as_with (training pattern : DataFrame) (h : string)
    (cols : list string) (acc : dict R) :
  errors_dict training pattern h cols acc
  = errors_dict_with (squared_error training pattern h) cols acc.
Proof.
  revert acc. induction cols as [|c cols IH]; intros acc; simpl; [reflexivity|].
  destruct (squared_error training pattern h c); simpl; auto.
Qed.

Lemma select_loop_as_with (training pattern : DataFrame) (week_cols : list string)
    (acc : dict string) :
  select_loop training pattern week_cols acc
  = select_loop_with (squared_error training pattern) (tl (columns pattern))
      week_cols acc.
Proof.
  revert acc. induction week_cols as [|w rest IH]; intros acc; simpl; [reflexivity|].
  rewrite errors_dict_as_with.
  destruct (errors_dict_with _ (tl (columns pattern)) []) as [errors|e]; simpl; auto.
  destruct (py_min_key errors); simpl; auto.
Qed.

Lemma errors_dict_with_ext (err1 err2 : string -> result R) (cols : list string)
    (acc : dict R) :
  (forall c, In c cols -> err1 c = err2 c) ->
  errors_dict_with err1 cols acc = errors_dict_with err2 cols acc.
Proof.
  revert acc. induction cols as [|c cols IH]; intros acc Hext; simpl; [reflexivity|].
  rewrite (Hext c) by now left.
  destruct (err2 c); simpl; [|reflexivity].
  apply IH. intros c' Hc'. apply Hext. now right.
Qed.

Lemma select_loop_with_ext (err1 err2 : string -> string -> result R)
    (pattern_cols week_cols : list string) (acc : dict string) :
  (forall h r, In h week_cols -> In r pattern_cols -> err1 h r = err2 h r) ->
  select_loop_with err1 pattern_cols week_cols acc
  = select_loop_with err2 pattern_cols week_cols acc.
Proof.
  revert acc. induction week_cols as [|w rest IH]; intros acc Hext; simpl;
    [reflexivity|].
  rewrite (errors_dict_with_ext (err1 w) (err2 w))
    by (intros c Hc; apply Hext; [now left|exact Hc]).
  destruct (errors_dict_with (err2 w) pattern_cols []) as [errors|e]; simpl; auto.
  destruct (py_min_key errors); simpl; auto.
  apply IH. intros h r Hh Hr. apply Hext; [now right|exact Hr].
Qed.

(** Without wrap-around the typed selection is the selection on the cells
    as floats. *)
Lemma select_best_patterns_typed_exact (training pattern : TypedFrame) :
  no_overflow training pattern ->
  select_best_patterns_typed training pattern
  = select_best_patterns (as_float_frame training) (as_float_frame pattern).
Proof.
  intros Hno. unfold select_best_patterns_typed, select_best_patterns.
  rewrite select_loop_as_with, !columns_as_float_frame.
  apply select_loop_with_ext. intros h r _ _.
  apply squared_error_typed_as_float. intros hc rc Hh Hr.
  apply (Hno h hc r rc); eapply typed_getitem_Ok_in; eauto.
Qed.

Example big_error_r1 : squared_error_typed big_hist big_ref "h1" "r1" = Ok 0.
Proof.
  unfold squared_error_typed, big_hist, big_ref.
  cbn [typed_getitem String.eqb Ascii.eqb Bool.eqb rbind List.length Nat.eqb].
  do 2 f_equal.
Qed.

Example big_error_r2 :
  squared_error_typed big_hist big_ref "h1" "r2" = Ok (IZR (-2446744073709551616)).
Proof.
  unfold squared_error_typed, big_hist, big_ref.
  cbn [typed_getitem String.eqb Ascii.eqb Bool.eqb rbind List.length Nat.eqb].
  do 2 f_equal.
Qed.

(** C1. On integer tables the selection does not always return the curve of
    least squared error.  With the int64 columns
    [h1 = [4000000000]], [r1 = [4000000000]] and [r2 = [0]] the curve of
    least squared error is [r1] (error 0, against 16000000000000000000 for
    [r2]), and it is the one selected when the cells are floats; but the
    int64 error of [r2] wraps around to -2446744073709551616, which is below
    0, and the selection returns [r2]. *)
Theorem select_best_patterns_int64_overflow :
  error_sum (cells_of (IntColumn [4000000000%Z])) (cells_of (IntColumn [4000000000%Z])) = 0 /\
  error_sum (cells_of (IntColumn [4000000000%Z])) (cells_of (IntColumn [0%Z]))
  = 16000000000000000000 /\
  select_best_patterns (as_float_frame big_hist) (as_float_frame big_ref)
  = Ok [("h1", "r1")] /\
  squared_error_typed big_hist big_ref "h1" "r1" = Ok 0 /\
  squared_error_typed big_hist big_ref "h1" "r2" = Ok (IZR (-2446744073709551616)) /\
  select_best_patterns_typed big_hist big_ref = Ok [("h1", "r2")].
Proof.
  split; [simpl; lra|]. split; [simpl; lra|].
  split.
  { unfold select_best_patterns, big_hist, big_ref. eval_real. reflexivity. }
  split; [exact big_error_r1|]. split; [exact big_error_r2|].
  unfold select_best_patterns_typed.
  change (tl (typed_columns big_ref)) with ["r1"; "r2"].
  change (tl (typed_columns big_hist)) with ["h1"].
  cbn [select_loop_with errors_dict_with].
  rewrite big_error_r1. cbn [rbind dict_set]. rewrite big_error_r2.
  cbn [rbind dict_set String.eqb Ascii.eqb Bool.eqb py_min_key min_from snd fst].
  rewrite (proj2 (Rlt_b_true (IZR (-2446744073709551616)) 0)) by lra.
  reflexivity.
Qed.

(** On typed frames whose squared errors do not wrap around, the selection
    returns for every historical series the first curve of least squared
    error. *)
Lemma select_best_patterns_typed_least_error (training pattern : TypedFrame) :
  NoDup (typed_columns pattern) ->
  tl (typed_columns pattern) <> [] ->
  no_overflow training pattern ->
  exists best_patterns,
    select_best_patterns_typed training pattern = Ok best_patterns /\
    forall h hc,
      In h (tl (typed_columns training)) ->
      typed_getitem training h = Ok hc ->
      exists i r rc,
        dict_get best_patterns h = Some r /\
        nth_error (tl (typed_columns pattern)) i = Some r /\
        typed_getitem pattern r = Ok rc /\
        forall j r' rc',
          nth_error (tl (typed_columns pattern)) j = Some r' ->
          typed_getitem pattern r' = Ok rc' ->
          error_sum (cells_of hc) (cells_of rc)
          <= error_sum (cells_of hc) (cells_of rc') /\
          ((j < i)%nat ->
           error_sum (cells_of hc) (cells_of rc)
           < error_sum (cells_of hc) (cells_of rc')).
Proof.
  intros Hnd Hne Hno. rewrite select_best_patterns_typed_exact by exact Hno.
  rewrite <- columns_as_float_frame in Hnd, Hne.
  destruct (select_best_patterns_least_error (as_float_frame training)
              (as_float_frame pattern) Hnd Hne) as (bp & Hbp & Hleast).
  exists bp. split; [exact Hbp|]. intros h hc Hh Hhc.
  rewrite <- columns_as_float_frame in Hh.
  destruct (Hleast h (cells_of hc) Hh) as (i & r & rs & Hr & Hi & Hrs & Hmin).
  { rewrite getitem_as_float_frame, Hhc. reflexivity. }
  rewrite getitem_as_float_frame in Hrs.
  destruct (typed_getitem pattern r) as [rc|e] eqn:Hrc; [|discriminate].
  injection Hrs as <-. rewrite columns_as_float_frame in Hi, Hmin.
  exists i, r, rc. repeat split; auto.
  - apply (Hmin j r' (cells_of rc')); [assumption|].
    rewrite getitem_as_float_frame, H0. reflexivity.
  - apply (Hmin j r' (cells_of rc')); [assumption|].
    rewrite getitem_as_float_frame, H0. reflexivity.
Qed.

(** X3. For two columns that exist, the squared error the code computes is
    defined; for two int64 columns of equal length it is the sum of the
    squared differences wrapped around to int64.  When nothing wraps
    around ([exact_pair]) it is never negative, and on columns of equal
    length it is zero exactly when the two columns hold the same values. *)
Theorem squared_error_typed_zero_iff_equal (training pattern : TypedFrame)
    (h r : string) (hc rc : column) :
  typed_getitem training h = Ok hc ->
  typed_getitem pattern r = Ok rc ->
  (forall hs rs, hc = IntColumn hs -> rc = IntColumn rs ->
     List.length hs = List.length rs ->
     squared_error_typed training pattern h r
     = Ok (IZR (wrap64 (sum_squares hs rs)))) /\
  (exact_pair hc rc ->
   exists e,
     squared_error_typed training pattern h r = Ok e /\
     0 <= e /\
     (List.length (cells_of hc) = List.length (cells_of rc) ->
      (e = 0 <-> cells_of hc = cells_of rc))).
Proof.
  intros Hh Hr. split.
  - intros hs rs -> -> Hlen. unfold squared_error_typed. rewrite Hh, Hr. simpl.
    rewrite (proj2 (Nat.eqb_eq _ _) Hlen). now rewrite int64_sum_exact.
  - intros Hexact. exists (error_sum (cells_of hc) (cells_of rc)).
    split; [now apply squared_error_typed_exact|].
    split; [apply error_sum_nonneg|]. apply error_sum_zero_iff.
Qed.

Lemma no_overflow_app_r (training pattern extra : TypedFrame) :
  no_overflow training (pattern ++ extra) -> no_overflow training pattern.
Proof.
  intros Hno h hc r rc Hh Hr. apply (Hno h hc r rc Hh). apply in_app_iff. now left.
Qed.

Lemma typed_getitem_as_float (df : TypedFrame) (col : string) (s : Series) :
  getitem (as_float_frame df) col = Ok s ->
  exists c, typed_getitem df col = Ok c /\ s = cells_of c.
Proof.
  rewrite getitem_as_float_frame.
  destruct (typed_getitem df col) as [c|e]; [|discriminate].
  intros [= <-]. eauto.
Qed.

(** X2. On typed frames whose squared errors do not wrap around, a
    historical series that holds the same values as a reference curve [r],
    and not the same as any curve standing before [r] in the reference
    table, is mapped to [r]. *)
Theorem select_best_patterns_typed_identical_curve (training pattern : TypedFrame)
    (h r : string) (hc rc : column) (i : nat) :
  NoDup (typed_columns pattern) ->
  no_overflow training pattern ->
  In h (tl (typed_columns training)) ->
  typed_getitem training h = Ok hc ->
  nth_error (tl (typed_columns pattern)) i = Some r ->
  typed_getitem pattern r = Ok rc ->
  cells_of rc = cells_of hc ->
  (forall j r' rc', (j < i)%nat ->
     nth_error (tl (typed_columns pattern)) j = Some r' ->
     typed_getitem pattern r' = Ok rc' ->
     List.length (cells_of rc') = List.length (cells_of hc) /\
     cells_of rc' <> cells_of hc) ->
  exists best_patterns,
    select_best_patterns_typed training pattern = Ok best_patterns /\
    dict_get best_patterns h = Some r.
Proof.
  intros Hnd Hno Hh Hhc Hi Hrc Hsame Hbefore.
  rewrite select_best_patterns_typed_exact by exact Hno.
  apply (select_best_patterns_identical_curve (as_float_frame training)
           (as_float_frame pattern) h r (cells_of hc) i).
  - now rewrite columns_as_float_frame.
  - now rewrite columns_as_float_frame.
  - rewrite getitem_as_float_frame, Hhc. reflexivity.
  - now rewrite columns_as_float_frame.
  - rewrite getitem_as_float_frame, Hrc. simpl. now rewrite Hsame.
  - intros j r' rs' Hj Hr' Hrs'. rewrite columns_as_float_frame in Hr'.
    destruct (typed_getitem_as_float _ _ _ Hrs') as (rc' & Hrc' & ->).
    now apply (Hbefore j r' rc').
Qed.

(** X16. On typed frames whose squared errors do not wrap around, appending
    a curve column with a new name to the reference table changes the
    pattern of a historical series only when the new curve has a strictly
    smaller squared error than the pattern chosen before; then the new
    curve is chosen. *)
Theorem select_best_patterns_typed_add_curve (training pattern : TypedFrame)
    (c : string) (cc : column) :
  NoDup (typed_columns pattern) ->
  tl (typed_columns pattern) <> [] ->
  ~ In c (typed_columns pattern) ->
  no_overflow training (pattern ++ [(c, cc)]) ->
  exists best_patterns best_patterns',
    select_best_patterns_typed training pattern = Ok best_patterns /\
    select_best_patterns_typed training (pattern ++ [(c, cc)]) = Ok best_patterns' /\
    forall h hc r rc,
      In h (tl (typed_columns training)) ->
      typed_getitem training h = Ok hc ->
      dict_get best_patterns h = Some r ->
      typed_getitem pattern r = Ok rc ->
      dict_get best_patterns' h
      = Some (if Rlt_b (error_sum (cells_of hc) (cells_of cc))
                       (error_sum (cells_of hc) (cells_of rc))
              then c else r).
Proof.
  intros Hnd Hne Hc Hno.
  rewrite (select_best_patterns_typed_exact training pattern)
    by (eapply no_overflow_app_r; eauto).
  rewrite (select_best_patterns_typed_exact training (pattern ++ [(c, cc)]))
    by exact Hno.
  assert (Happ : as_float_frame (pattern ++ [(c, cc)])
                 = as_float_frame pattern ++ [(c, cells_of cc)])
    by (unfold as_float_frame; now rewrite map_app).
  rewrite Happ. rewrite <- columns_as_float_frame in Hnd, Hne, Hc.
  destruct (select_best_patterns_add_curve (as_float_frame training)
              (as_float_frame pattern) c (cells_of cc) Hnd Hne Hc)
    as (bp & bp' & Hbp & Hbp' & Hsel).
  exists bp, bp'. split; [exact Hbp|]. split; [exact Hbp'|].
  intros h hc r rc Hh Hhc Hr Hrc.
  apply (Hsel h (cells_of hc) r (cells_of rc)).
  - now rewrite columns_as_float_frame.
  - rewrite getitem_as_float_frame, Hhc. reflexivity.
  - exact Hr.
  - rewrite getitem_as_float_frame, Hrc. reflexivity.
Qed.

(** X17. With both tables in the database, holding int64 or float64 columns
    whose squared errors do not wrap around, a reference table that has its
    [x] column and at least one curve, historical columns that are not
    empty and a test frame with distinct labels among which [x] and [y],
    the method stores the classification of the test rows under the
    patterns the selection returns, one row per test row, in order, and
    logs the completion only. *)
Theorem load_and_predict_stores_forecast_typed (db : Database)
    (training pattern : TypedFrame) (test_sales_df : DataFrame) (xs ys : Series) :
  find_table db "historical_sales" = Some (as_float_frame training) ->
  find_table db "sales_patterns" = Some (as_float_frame pattern) ->
  NoDup (typed_columns pattern) ->
  tl (typed_columns pattern) <> [] ->
  In "x" (typed_columns pattern) ->
  no_overflow training pattern ->
  (forall h hc, typed_getitem training h = Ok hc -> cells_of hc <> []) ->
  NoDup (columns test_sales_df) ->
  getitem test_sales_df "x" = Ok xs ->
  getitem test_sales_df "y" = Ok ys ->
  exists best_patterns fs,
    select_best_patterns_typed training pattern = Ok best_patterns /\
    classify (as_float_frame training) (as_float_frame pattern) best_patterns
      (combine xs ys) = Ok fs /\
    map (fun f => (fx f, fy f)) fs = combine xs ys /\
    load_and_predict_weekly_sales db test_sales_df
    = mkOutcome (Some fs) [ForecastStored].
Proof.
  intros Ht Hp Hnd Hne Hx Hno Hrows _ Hxs Hys.
  rewrite select_best_patterns_typed_exact by exact Hno.
  rewrite <- columns_as_float_frame in Hnd, Hne, Hx.
  apply (load_and_predict_stores_forecast db (as_float_frame training)
           (as_float_frame pattern) test_sales_df xs ys); auto.
  intros h hs Hhs. destruct (typed_getitem_as_float _ _ _ Hhs) as (hc & Hhc & ->).
  now apply (Hrows h hc).
Qed.

(** * The typed statements on the example tables *)

Ltac each_pair :=
  let h := fresh "h" in let hc := fresh "hc" in
  let r := fresh "r" in let rc := fresh "rc" in
  let Hh := fresh "Hh" in let Hr := fresh "Hr" in
  intros h hc r rc Hh Hr; simpl in Hh, Hr;
  repeat match goal with
         | H : _ \/ _ |- _ => destruct H
         | H : False |- _ => destruct H
         | H : (_, _) = (_, _) |- _ => injection H as <- <-
         end;
  simpl; try exact I; intros _; vm_compute; reflexivity.

Example dummy_typed_no_overflow : no_overflow dummy_typed dummy_typed.
Proof. unfold dummy_typed. each_pair. Qed.

Example typed_ref1_no_overflow :
  no_overflow typed_hist1 (typed_ref1 ++ [("r3", IntColumn [10; 20; 31]%Z)]).
Proof. unfold typed_hist1, typed_ref1. each_pair. Qed.

Example typed_hist1_rows (h : string) (hc : column) :
  typed_getitem typed_hist1 h = Ok hc -> cells_of hc <> [].
Proof.
  intros Hh. apply typed_getitem_Ok_in in Hh.
  destruct Hh as [[= _ <-]|[[= _ <-]|[]]]; discriminate.
Qed.

Lemma select_best_patterns_typed_identical_curve_witness :
  exists best_patterns,
    select_best_patterns_typed dummy_typed dummy_typed = Ok best_patterns /\
    dict_get best_patterns "y1" = Some "y1".
Proof.
  apply (select_best_patterns_typed_identical_curve dummy_typed dummy_typed "y1" "y1"
           (IntColumn [10; 20; 30]%Z) (IntColumn [10; 20; 30]%Z) 0).
  - unfold dummy_typed. simpl. repeat constructor; simpl; intuition discriminate.
  - exact dummy_typed_no_overflow.
  - simpl. now left.
  - reflexivity.
  - reflexivity.
  - reflexivity.
  - reflexivity.
  - intros j r' rc' Hj. lia.
Defined.

Lemma squared_error_typed_zero_iff_equal_witness :
  squared_error_typed typed_hist1 typed_ref1 "h1" "r2"
  = Ok (IZR (wrap64 (sum_squares [10; 20; 30]%Z [0; 0; 0]%Z))) /\
  exists e,
    squared_error_typed typed_hist1 typed_ref1 "h1" "r2" = Ok e /\
    0 <= e /\
    (List.length (cells_of (IntColumn [10; 20; 30]%Z))
     = List.length (cells_of (IntColumn [0; 0; 0]%Z)) ->
     (e = 0 <-> cells_of (IntColumn [10; 20; 30]%Z) = cells_of (IntColumn [0; 0; 0]%Z))).
Proof.
  split.
  - apply (proj1 (squared_error_typed_zero_iff_equal typed_hist1 typed_ref1 "h1" "r2"
                    (IntColumn [10; 20; 30]%Z) (IntColumn [0; 0; 0]%Z)
                    eq_refl eq_refl)); reflexivity.
  - apply (proj2 (squared_error_typed_zero_iff_equal typed_hist1 typed_ref1 "h1" "r2"
                    (IntColumn [10; 20; 30]%Z) (IntColumn [0; 0; 0]%Z)
                    eq_refl eq_refl)).
    simpl. intros _. vm_compute. reflexivity.
Defined.

Lemma select_best_patterns_typed_add_curve_witness :
  exists best_patterns best_patterns',
    select_best_patterns_typed typed_hist1 typed_ref1 = Ok best_patterns /\
    select_best_patterns_typed typed_hist1
      (typed_ref1 ++ [("r3", IntColumn [10; 20; 31]%Z)]) = Ok best_patterns' /\
    forall h hc r rc,
      In h (tl (typed_columns typed_hist1)) ->
      typed_getitem typed_hist1 h = Ok hc ->
      dict_get best_patterns h = Some r ->
      typed_getitem typed_ref1 r = Ok rc ->
      dict_get best_patterns' h
      = Some (if Rlt_b (error_sum (cells_of hc) (cells_of (IntColumn [10; 20; 31]%Z)))
                       (error_sum (cells_of hc) (cells_of rc))
              then "r3" else r).
Proof.
  apply (select_best_patterns_typed_add_curve typed_hist1 typed_ref1 "r3"
           (IntColumn [10; 20; 31]%Z)).
  - unfold typed_ref1. simpl. repeat constructor; simpl; intuition discriminate.
  - simpl. discriminate.
  - simpl. intuition discriminate.
  - exact typed_ref1_no_overflow.
Defined.

Lemma load_and_predict_stores_forecast_typed_witness :
  exists best_patterns fs,
    select_best_patterns_typed typed_hist1 typed_ref1 = Ok best_patterns /\
    classify (as_float_frame typed_hist1) (as_float_frame typed_ref1) best_patterns
      (combine [2; 2] [20; 21]) = Ok fs /\
    map (fun f => (fx f, fy f)) fs = combine [2; 2] [20; 21] /\
    load_and_predict_weekly_sales db1 test1 = mkOutcome (Some fs) [ForecastStored].
Proof.
  apply (load_and_predict_stores_forecast_typed db1 typed_hist1 typed_ref1 test1
           [2; 2] [20; 21]).
  - reflexivity.
  - reflexivity.
  - unfold typed_ref1. simpl. repeat constructor; simpl; intuition discriminate.
  - simpl. discriminate.
  - simpl. auto.
  - exact (no_overflow_app_r _ _ _ typed_ref1_no_overflow).
  - exact typed_hist1_rows.
  - unfold test1. simpl. repeat constructor; simpl; intuition discriminate.
  - reflexivity.
  - reflexivity.
Defined.
